(** * The x402 payment client (examples/x402-python-example.py)

    A shallow embedding of [X402Client]: the payment intent builder
    ([create_payment_intent]), the job submitter ([submit_job]) and the
    status poller ([wait_for_completion]), together with the properties
    the protocol description states about them.

    Everything the client calls but does not define (the clock, the
    signing key, the hash, the base-58 encoder, the HTTP library) is an
    operation of an environment [Env]; every call to it is recorded in a
    log of [event]s, so that "what was signed", "what was sent" and "how
    many polls were made" are observable. *)

From Stdlib Require Import ZArith QArith Qround Qabs Qpower Lqa.
From Stdlib Require Import String Ascii List Lia.
From Stdlib.Strings Require Import Byte.
From stdpp Require Import base option list strings pretty gmap fin_maps.

Local Open Scope Z_scope.

(** ** Python values *)

(** The values that flow through the client: what [response.json()]
    returns and what the client builds itself.  JSON numbers are the
    integers; a Python [dict] with string keys is a finite map. *)
#[local] Unset Elimination Schemes.
Inductive pyval : Type :=
| PNone
| PBool (b : bool)
| PInt (z : Z)
| PStr (s : string)
| PList (l : list pyval)
| PDict (d : gmap string pyval).
#[local] Set Elimination Schemes.

(** Exceptions.  The source raises the builtin [Exception] with a
    formatted message; the others are raised by the interpreter or by a
    library and only propagate through the client. *)
Inductive exn : Type :=
| Exception (msg : string)
| KeyError (key : string)
| TypeError
| AttributeError (attr : string)
| ValueError
| JSONDecodeError
| LibraryError (what : string).

(** [str(int)]: decimal digits, with a leading minus sign. *)
Definition str_of_int (z : Z) : string := pretty z.

(** [v == s] for a string literal [s]. *)
Definition py_eq_str (v : pyval) (s : string) : bool :=
  match v with
  | PStr s' => bool_decide (s' = s)
  | _ => false
  end.

(** [bytes] of a [str] and back ([str.encode()], [bytes.decode()]); a
    [string] is the sequence of its UTF-8 bytes. *)
Definition encode (s : string) : list Byte.byte := list_byte_of_string s.
Definition decode (b : list Byte.byte) : string := string_of_list_byte b.

(** ** Clock readings *)

(** A naive [datetime.datetime]. *)
Record datetime : Type := {
  year : N; month : N; day : N;
  hour : N; minute : N; second : N;
  microsecond : N
}.

(** [%0wd]: pad the decimal digits with zeros on the left up to [w]. *)
Definition zfill (w : nat) (n : N) : string :=
  let s := pretty n in
  String.concat "" (replicate (w - String.length s) "0") +:+ s.

(** [YYYY-MM-DDTHH:MM:SS], the part of the ISO format down to seconds. *)
Definition isoformat_seconds (d : datetime) : string :=
  zfill 4 (year d) +:+ "-" +:+ zfill 2 (month d) +:+ "-" +:+ zfill 2 (day d)
  +:+ "T" +:+ zfill 2 (hour d) +:+ ":" +:+ zfill 2 (minute d) +:+ ":"
  +:+ zfill 2 (second d).

(** [datetime.isoformat()] with its default [timespec='auto']: the
    microseconds are printed exactly when they are not zero. *)
Definition isoformat (d : datetime) : string :=
  if (microsecond d =? 0)%N then isoformat_seconds d
  else isoformat_seconds d +:+ "." +:+ zfill 6 (microsecond d).

(** [int(x)] of a float: truncation towards zero. *)
Definition int_of_float (x : Q) : Z := Z.quot (Qnum x) (Zpos (Qden x)).

Definition Qltb (x y : Q) : bool := negb (Qle_bool y x).

(** ** Double precision *)

(** [time.time()] gives a [float], an IEEE 754 double.  A finite double
    is a rational number, and a clock reading is kept as the rational it
    is; what an operation on doubles computes is the exact result rounded
    to the nearest double, or an infinity. *)
Inductive pyfloat : Type :=
| Finite (q : Q)
| PosInf
| NegInf.

(** The nearest integer, the even one of the two when [x] lies half way. *)
Definition round_half_even (x : Q) : Z :=
  let f := Qfloor x in
  match (x - inject_Z f ?= 1 # 2)%Q with
  | Lt => f
  | Gt => f + 1
  | Eq => if Z.even f then f else f + 1
  end.

(** For [0 < x], the exponent [k] with [2^k <= x < 2^(k+1)]. *)
Definition ilog2 (x : Q) : Z :=
  let k := Z.log2 (Qnum x) - Z.log2 (Zpos (Qden x)) in
  if Qle_bool (2 ^ k) x then k else k - 1.

(** The double nearest to [x], ties to even: 53 significant bits, so the
    doubles near [x] are the multiples of [2^e] for [e] 52 below the
    exponent of [x], and not below -1074 (the subnormal numbers); a
    result of magnitude [2^1024] or more is an infinity. *)
Definition round_double (x : Q) : pyfloat :=
  if Qeq_bool x 0 then Finite 0
  else
    let e := Z.max (ilog2 (Qabs x) - 52) (-1074) in
    let y := (inject_Z (round_half_even (x / 2 ^ e)) * 2 ^ e)%Q in
    if Qle_bool (2 ^ 1024) (Qabs y)
    then (if Qle_bool 0 x then PosInf else NegInf)
    else Finite y.

(** [a - b] on two floats. *)
Definition float_sub (a b : Q) : pyfloat := round_double (a - b).

(** [x < n] for a float [x] and an [int] [n]: Python compares the two
    numbers exactly, whatever the size of [n]. *)
Definition float_lt_int (x : pyfloat) (n : Z) : bool :=
  match x with
  | Finite q => Qltb q (inject_Z n)
  | PosInf => false
  | NegInf => true
  end.

(** ** The environment *)

(** A [requests.Response]: [json] is what [response.json()] returns,
    [None] when the body does not parse (it then raises). *)
Record response : Type := {
  ok : bool;
  text : string;
  json : option pyval
}.

(** One entry per call that leaves the client. *)
Inductive event : Type :=
| EvUtcnow (d : datetime)
| EvSign (msg : list Byte.byte)
| EvB58encode (data : list Byte.byte)
| EvSha256 (msg : list Byte.byte)
| EvTime (t : Q)
| EvSleep (secs : Z)
| EvGet (url : string) (timeout : Z) (r : exn + response)
| EvPost (url : string) (body : pyval) (headers : gmap string pyval)
         (timeout : Z) (r : exn + response).

(** The libraries and the outside world, over a state [W] (the clock,
    the server, the randomness of the signer).  An operation that can
    raise returns [inl e]. *)
Record Env (W : Type) : Type := {
  (** [datetime.datetime.utcnow()] *)
  datetime_utcnow : W -> datetime * W;
  (** [self.signing_key.sign(m).signature] *)
  signing_key_sign : list Byte.byte -> W -> (exn + list Byte.byte) * W;
  (** [base64.b58encode(b)] *)
  base64_b58encode : list Byte.byte -> exn + list Byte.byte;
  (** [hashlib.sha256(m).digest()] *)
  hashlib_sha256 : list Byte.byte -> list Byte.byte;
  (** [time.time()] *)
  time_time : W -> Q * W;
  (** [time.sleep(n)] for [n >= 0] *)
  time_sleep : Z -> W -> W;
  (** [requests.get(url, timeout=t)] *)
  requests_get : string -> Z -> W -> (exn + response) * W;
  (** [requests.post(url, json=body, headers=h, timeout=t)] *)
  requests_post :
    string -> pyval -> gmap string pyval -> Z -> W -> (exn + response) * W;
  (** [str(v)] of a list or a dict *)
  container_str : pyval -> string
}.

Arguments datetime_utcnow {W}.
Arguments signing_key_sign {W}.
Arguments base64_b58encode {W}.
Arguments hashlib_sha256 {W}.
Arguments time_time {W}.
Arguments time_sleep {W}.
Arguments requests_get {W}.
Arguments requests_post {W}.
Arguments container_str {W}.

(** ** Computations of the client *)

Inductive outcome (A : Type) : Type :=
| Returns (a : A)
| Raises (e : exn)
| Diverges.

Arguments Returns {A}.
Arguments Raises {A}.
Arguments Diverges {A}.

(** A computation runs from a state of the world and gives an outcome,
    the state it leaves and the calls it made, oldest first. *)
Definition M (W A : Type) : Type := W -> outcome A * W * list event.

Definition ret {W A} (a : A) : M W A := fun w => (Returns a, w, []).

Definition bind {W A B} (m : M W A) (k : A -> M W B) : M W B :=
  fun w =>
    match m w with
    | (Returns a, w1, l1) =>
        match k a w1 with
        | (o, w2, l2) => (o, w2, l1 ++ l2)
        end
    | (Raises e, w1, l1) => (Raises e, w1, l1)
    | (Diverges, w1, l1) => (Diverges, w1, l1)
    end.

Definition raise {W A} (e : exn) : M W A := fun w => (Raises e, w, []).

Definition diverge {W A} : M W A := fun w => (Diverges, w, []).

(** [lift_result r]: return or re-raise what a library call gave. *)
Definition of_result {A} (r : exn + A) : outcome A :=
  match r with
  | inl e => Raises e
  | inr a => Returns a
  end.

(** The client is written with stdpp's monad notation:
    [x ← m; k] runs [m], then [k] on its value. *)
#[global] Instance M_ret {W} : MRet (M W) := fun A => @ret W A.
#[global] Instance M_bind {W} : MBind (M W) := fun A B k m => @bind W A B m k.

Section Client.

Context {W : Type} (env : Env W).

(** *** Calls into the environment *)

Definition utcnow : M W datetime := fun w =>
  let (d, w') := datetime_utcnow env w in (Returns d, w', [EvUtcnow d]).

Definition sign (msg : list Byte.byte) : M W (list Byte.byte) := fun w =>
  let (r, w') := signing_key_sign env msg w in (of_result r, w', [EvSign msg]).

Definition b58encode (data : list Byte.byte) : M W (list Byte.byte) := fun w =>
  (of_result (base64_b58encode env data), w, [EvB58encode data]).

Definition sha256_digest (msg : list Byte.byte) : M W (list Byte.byte) :=
  fun w => (Returns (hashlib_sha256 env msg), w, [EvSha256 msg]).

Definition now_time : M W Q := fun w =>
  let (t, w') := time_time env w in (Returns t, w', [EvTime t]).

Definition sleep (secs : Z) : M W unit := fun w =>
  if secs <? 0 then (Raises ValueError, w, [])
  else (Returns tt, time_sleep env secs w, [EvSleep secs]).

Definition http_get (url : string) (timeout : Z) : M W response := fun w =>
  let (r, w') := requests_get env url timeout w in
  (of_result r, w', [EvGet url timeout r]).

Definition http_post (url : string) (body : pyval)
    (headers : gmap string pyval) (timeout : Z) : M W response := fun w =>
  let (r, w') := requests_post env url body headers timeout w in
  (of_result r, w', [EvPost url body headers timeout r]).

(** *** Operations of the language *)

(** [str(v)], also what an f-string puts for [{v}]. *)
Definition py_str (v : pyval) : string :=
  match v with
  | PNone => "None"
  | PBool true => "True"
  | PBool false => "False"
  | PInt z => str_of_int z
  | PStr s => s
  | PList _ | PDict _ => container_str env v
  end.

(** [v[key]] for a string key. *)
Definition subscript (v : pyval) (key : string) : M W pyval :=
  match v with
  | PDict d =>
      match d !! key with
      | Some x => ret x
      | None => raise (KeyError key)
      end
  | _ => raise TypeError
  end.

(** [v.get(key, dflt)] *)
Definition dict_get (v : pyval) (key : string) (dflt : pyval) : M W pyval :=
  match v with
  | PDict d => ret (default dflt (d !! key))
  | _ => raise (AttributeError "get")
  end.

(** [response.json()] *)
Definition response_json (r : response) : M W pyval :=
  match json r with
  | Some v => ret v
  | None => raise JSONDecodeError
  end.

(** *** The client *)

(** The fields [__init__] leaves on the object; the signing key itself
    stays behind [signing_key_sign]. *)
Record X402Client : Type := {
  api_url : string;
  public_key : string
}.

(** [create_payment_intent(self, amount, job_id, expires_in=300)];
    [expires_in] is [None] when the caller leaves it out. *)
Definition create_payment_intent (self : X402Client) (amount : pyval)
    (job_id : string) (expires_in : option Z) : M W pyval :=
  let expires_in := default 300 expires_in in
  now ← utcnow;
  let timestamp := isoformat now +:+ "Z" in
  let message :=
    "x402-payment:" +:+ public_key self +:+ ":" +:+ py_str amount +:+ ":"
    +:+ job_id +:+ ":" +:+ timestamp +:+ ":" +:+ py_str (PInt expires_in) in
  signature ← sign (encode message);
  signature_b58 ← b58encode signature;
  let signature_base58 := decode signature_b58 in
  digest ← sha256_digest (encode message);
  let intent_id_hash := take 16 digest in
  intent_id_b58 ← b58encode intent_id_hash;
  let intent_id := decode intent_id_b58 in
  mret (PDict (list_to_map [
    ("id", PStr intent_id);
    ("payer", PStr (public_key self));
    ("amount", amount);
    ("jobId", PStr job_id);
    ("timestamp", PStr timestamp);
    ("expiresIn", PInt expires_in);
    ("signature", PStr signature_base58)
  ])).

(** [get_pricing(self, job_type=None)] *)
Definition get_pricing (self : X402Client) (job_type : option string)
    : M W pyval :=
  let url := api_url self +:+ "/x402/pricing" in
  let url :=
    match job_type with
    | Some jt => if bool_decide (jt = "") then url
                 else url +:+ "?jobType=" +:+ jt
    | None => url
    end in
  response ← http_get url 10;
  if negb (ok response)
  then raise (Exception ("Failed to get pricing: " +:+ text response))
  else response_json response.

(** The job identifier [submit_job] makes up: [f"job_{int(time.time())}"]. *)
Definition job_id_of_time (t : Q) : string :=
  "job_" +:+ py_str (PInt (int_of_float t)).

(** [submit_job(self, job_type, config)] *)
Definition submit_job (self : X402Client) (job_type : string)
    (config : pyval) : M W pyval :=
  pricing ← get_pricing self (Some job_type);
  amount ← subscript pricing "minimumPayment";
  t ← now_time;
  intent ← create_payment_intent self amount (job_id_of_time t) None;
  let submission := PDict (list_to_map [
    ("payment", intent);
    ("jobType", PStr job_type);
    ("config", config)
  ]) in
  h_id ← subscript intent "id";
  h_payer ← subscript intent "payer";
  h_signature ← subscript intent "signature";
  h_amount ← subscript intent "amount";
  h_job_id ← subscript intent "jobId";
  h_timestamp ← subscript intent "timestamp";
  h_expires_in ← subscript intent "expiresIn";
  let headers : gmap string pyval := list_to_map [
    ("Content-Type", PStr "application/json");
    ("X-Payment-Intent-ID", h_id);
    ("X-Payer", h_payer);
    ("X-Payment-Signature", h_signature);
    ("X-Payment-Amount", PStr (py_str h_amount));
    ("X-Job-ID", h_job_id);
    ("X-Timestamp", h_timestamp);
    ("X-Expires-In", PStr (py_str h_expires_in))
  ] in
  response ← http_post (api_url self +:+ "/x402") submission headers 30;
  if negb (ok response)
  then
    error ← response_json response;
    message ← dict_get error "message" (PStr (text response));
    raise (Exception ("Job submission failed: " +:+ py_str message))
  else response_json response.

(** [get_job_status(self, job_id)] *)
Definition get_job_status (self : X402Client) (job_id : string) : M W pyval :=
  response ← http_get (api_url self +:+ "/x402/jobs/" +:+ job_id) 10;
  if negb (ok response)
  then raise (Exception ("Failed to get job status: " +:+ text response))
  else response_json response.

(** The [while] loop of [wait_for_completion]; [fuel] bounds the number
    of times its condition is evaluated.  The condition,
    [time.time() - start_time < max_wait], subtracts two floats and
    compares the result with an [int]. *)
Fixpoint wait_loop (fuel : nat) (self : X402Client) (job_id : string)
    (poll_interval max_wait : Z) (start_time : Q) : M W pyval :=
  match fuel with
  | O => diverge
  | S fuel' =>
      t ← now_time;
      if float_lt_int (float_sub t start_time) max_wait
      then
        status ← get_job_status self job_id;
        s ← subscript status "status";
        if py_eq_str s "completed" then mret status
        else
          s ← subscript status "status";
          if py_eq_str s "failed" || py_eq_str s "cancelled"
          then
            s ← subscript status "status";
            e ← dict_get status "error" (PStr "Unknown");
            raise (Exception ("Job " +:+ py_str s +:+ ": " +:+ py_str e))
          else
            sleep poll_interval;;
            wait_loop fuel' self job_id poll_interval max_wait start_time
      else
        raise (Exception ("Job " +:+ job_id +:+ " did not complete within "
                          +:+ py_str (PInt max_wait) +:+ "s"))
  end.

(** [wait_for_completion(self, job_id, poll_interval=5, max_wait=300)] *)
Definition wait_for_completion (fuel : nat) (self : X402Client)
    (job_id : string) (poll_interval max_wait : option Z) : M W pyval :=
  let poll_interval := default 5 poll_interval in
  let max_wait := default 300 max_wait in
  start_time ← now_time;
  wait_loop fuel self job_id poll_interval max_wait start_time.

End Client.

(** ** What a log says *)

Definition signed_messages (log : list event) : list (list Byte.byte) :=
  omap (fun ev => match ev with EvSign m => Some m | _ => None end) log.

Definition hashed_messages (log : list event) : list (list Byte.byte) :=
  omap (fun ev => match ev with EvSha256 m => Some m | _ => None end) log.

Definition clock_readings (log : list event) : list Q :=
  omap (fun ev => match ev with EvTime t => Some t | _ => None end) log.

(** The answers to the status requests, oldest first. *)
Definition polls (log : list event) : list (exn + response) :=
  omap (fun ev => match ev with EvGet _ _ r => Some r | _ => None end) log.

Record post_request : Type := {
  post_url : string;
  post_body : pyval;
  post_headers : gmap string pyval;
  post_timeout : Z
}.

Definition posts (log : list event) : list post_request :=
  omap (fun ev =>
          match ev with
          | EvPost u b h t _ => Some {| post_url := u; post_body := b;
                                        post_headers := h; post_timeout := t |}
          | _ => None
          end) log.

(** ** The data model of the protocol description *)

(** The message of a payment intent, in the words of the description:
    the fields joined by colons after the tag, nothing escaped. *)
Definition canonical_message
    (payer amount jobId timestamp expiresIn : string) : string :=
  "x402-payment:" +:+ payer +:+ ":" +:+ amount +:+ ":" +:+ jobId +:+ ":"
  +:+ timestamp +:+ ":" +:+ expiresIn.

Record PaymentIntent : Type := {
  intent_id : string;
  payer : string;
  amount : pyval;
  jobId : string;
  timestamp : string;
  expiresIn : Z;
  signature : string
}.

(** The dictionary that carries a payment intent. *)
Definition intent_map (p : PaymentIntent) : gmap string pyval :=
  list_to_map [
    ("id", PStr (intent_id p));
    ("payer", PStr (payer p));
    ("amount", amount p);
    ("jobId", PStr (jobId p));
    ("timestamp", PStr (timestamp p));
    ("expiresIn", PInt (expiresIn p));
    ("signature", PStr (signature p))
  ].

Definition intent_dict (p : PaymentIntent) : pyval := PDict (intent_map p).

(** The body of a submission, [{payment, jobType, config}]. *)
Definition submission_map (payment : pyval) (job_type : string)
    (config : pyval) : gmap string pyval :=
  list_to_map [
    ("payment", payment);
    ("jobType", PStr job_type);
    ("config", config)
  ].

(** The field [key] of the payment inside a submission body. *)
Definition payment_field (body : pyval) (key : string) : option pyval :=
  match body with
  | PDict b =>
      match b !! "payment" with
      | Some (PDict i) => i !! key
      | _ => None
      end
  | _ => None
  end.

(** The timestamp of the description: ISO-8601 at second precision with
    a trailing [Z]. *)
Definition second_precision_timestamp (d : datetime) : string :=
  isoformat_seconds d +:+ "Z".

(** ** Runs of the client, described *)

Section Outcomes.

Context {W : Type} (env : Env W).

(** The intent a run builds from a clock reading [d], a signature
    [sig58] and an identifier [id58]. *)
Definition built_intent (self : X402Client) (amount : pyval)
    (job_id : string) (expires_in : option Z) (d : datetime)
    (id58 sig58 : list Byte.byte) : PaymentIntent :=
  {| intent_id := decode id58;
     payer := public_key self;
     amount := amount;
     jobId := job_id;
     timestamp := isoformat d +:+ "Z";
     expiresIn := default 300 expires_in;
     signature := decode sig58 |}.

(** The message of an intent, rebuilt from its own fields. *)
Definition message_of (p : PaymentIntent) : string :=
  canonical_message (payer p) (py_str env (amount p)) (jobId p)
    (timestamp p) (str_of_int (expiresIn p)).

(** The headers [submit_job] puts on the request for the intent [p]. *)
Definition submit_headers (p : PaymentIntent) : gmap string pyval :=
  list_to_map [
    ("Content-Type", PStr "application/json");
    ("X-Payment-Intent-ID", PStr (intent_id p));
    ("X-Payer", PStr (payer p));
    ("X-Payment-Signature", PStr (signature p));
    ("X-Payment-Amount", PStr (py_str env (amount p)));
    ("X-Job-ID", PStr (jobId p));
    ("X-Timestamp", PStr (timestamp p));
    ("X-Expires-In", PStr (py_str env (PInt (expiresIn p))))
  ].

(** What [submit_job] makes of the answer to its request. *)
Definition post_outcome (r : exn + response) : outcome pyval :=
  match r with
  | inl e => Raises e
  | inr resp =>
      if negb (ok resp) then
        match json resp with
        | None => Raises JSONDecodeError
        | Some (PDict d) =>
            Raises (Exception
                      ("Job submission failed: "
                       +:+ py_str env (default (PStr (text resp)) (d !! "message"))))
        | Some _ => Raises (AttributeError "get")
        end
      else
        match json resp with
        | Some v => Returns v
        | None => Raises JSONDecodeError
        end
  end.

(** The header [header] of the request [rq] repeats the field [key] of
    the payment in its body: the header is the field as a string. *)
Definition header_mirrors (rq : post_request)
    (header key : string) : Prop :=
  exists v,
    payment_field (post_body rq) key = Some v
    /\ post_headers rq !! header = Some (PStr (py_str env v)).

Definition status_url (self : X402Client) (job_id : string) : string :=
  api_url self +:+ "/x402/jobs/" +:+ job_id.

(** The exception after the loop. *)
Definition timeout_error (job_id : string) (max_wait : Z) : exn :=
  Exception ("Job " +:+ job_id +:+ " did not complete within "
             +:+ py_str env (PInt max_wait) +:+ "s").

(** The exception for a job that failed or was cancelled. *)
Definition terminated_error (status error : pyval) : exn :=
  Exception ("Job " +:+ py_str env status +:+ ": " +:+ py_str env error).

(** What one iteration makes of the answer to its status request: the
    outcome that ends the wait, or [None] to sleep and go round again. *)
Definition after_poll (r : exn + response) : option (outcome pyval) :=
  match r with
  | inl e => Some (Raises e)
  | inr resp =>
      if negb (ok resp)
      then Some (Raises (Exception ("Failed to get job status: " +:+ text resp)))
      else
        match json resp with
        | None => Some (Raises JSONDecodeError)
        | Some (PDict d) =>
            match d !! "status" with
            | None => Some (Raises (KeyError "status"))
            | Some s =>
                if py_eq_str s "completed" then Some (Returns (PDict d))
                else if py_eq_str s "failed" || py_eq_str s "cancelled"
                then Some (Raises (terminated_error s
                                     (default (PStr "Unknown") (d !! "error"))))
                else None
            end
        | Some _ => Some (Raises TypeError)
        end
  end.

(** The logs the loop can leave, with the outcome each one ends in.
    An iteration reads the clock first; only when the time is not up
    does it ask for the status, and only when the job goes on does it
    sleep. *)
Inductive loop_trace (url job_id : string) (poll_interval max_wait : Z)
    (start_time : Q) : list event -> outcome pyval -> Prop :=
| trace_fuel :
    loop_trace url job_id poll_interval max_wait start_time [] Diverges
| trace_time_up t :
    float_lt_int (float_sub t start_time) max_wait = false ->
    loop_trace url job_id poll_interval max_wait start_time
      [EvTime t] (Raises (timeout_error job_id max_wait))
| trace_ended t r o :
    float_lt_int (float_sub t start_time) max_wait = true ->
    after_poll r = Some o ->
    loop_trace url job_id poll_interval max_wait start_time
      [EvTime t; EvGet url 10 r] o
| trace_bad_sleep t r :
    float_lt_int (float_sub t start_time) max_wait = true ->
    after_poll r = None ->
    poll_interval < 0 ->
    loop_trace url job_id poll_interval max_wait start_time
      [EvTime t; EvGet url 10 r] (Raises ValueError)
| trace_again t r l o :
    float_lt_int (float_sub t start_time) max_wait = true ->
    after_poll r = None ->
    0 <= poll_interval ->
    loop_trace url job_id poll_interval max_wait start_time l o ->
    loop_trace url job_id poll_interval max_wait start_time
      (EvTime t :: EvGet url 10 r :: EvSleep poll_interval :: l) o.

(** *** A clock that keeps time *)





End Outcomes.

(** ** Concrete environments, to run the client *)

(** A scripted world: the state is the clock.  Reading it costs
    nothing, sleeping moves it on by the time slept, the signer and the
    server answer as the script says.  The hash is a stand-in that gives
    back its input. *)
Definition scripted_env
    (now : datetime)
    (signer : list Byte.byte -> exn + list Byte.byte)
    (b58 : list Byte.byte -> exn + list Byte.byte)
    (get : string -> exn + response)
    (post : exn + response) : Env Q := {|
  datetime_utcnow := fun w => (now, w);
  signing_key_sign := fun m w => (signer m, w);
  base64_b58encode := b58;
  hashlib_sha256 := fun m => m;
  time_time := fun w => (w, w);
  time_sleep := fun n w => (w + inject_Z n)%Q;
  requests_get := fun url _ w => (get url, w);
  requests_post := fun _ _ _ _ w => (post, w);
  container_str := fun _ => "{...}"
|}.

Definition sample_dt : datetime :=
  {| year := 2024; month := 1; day := 2; hour := 3; minute := 4; second := 5;
     microsecond := 0 |}.

(** What Python's own [base64] module does for [base64.b58encode]: the
    module has [b64encode], [b32encode], [b16encode], [a85encode] and
    [b85encode], and no attribute [b58encode], so the attribute lookup
    raises before anything is encoded. *)
Definition stdlib_base64_b58encode (_ : list Byte.byte) : exn + list Byte.byte :=
  inl (AttributeError "b58encode").

(** A stand-in for a base-58 encoder: it leaves the bytes as they are. *)
Definition plain_b58encode (b : list Byte.byte) : exn + list Byte.byte := inr b.

Definition json_response (v : pyval) : response :=
  {| ok := true; text := ""; json := Some v |}.

Definition status_response (s : string) : response :=
  json_response (PDict {[ "status" := PStr s ]}).

Definition pricing_response (amount : Z) : response :=
  json_response (PDict {[ "minimumPayment" := PInt amount ]}).

Definition demo_client : X402Client :=
  {| api_url := "http://localhost:3000/api"; public_key := "PAYER" |}.

Definition demo_env (post : exn + response) : Env Q :=
  scripted_env sample_dt (fun _ => inr (encode "SIG")) plain_b58encode
    (fun _ => inr (pricing_response 1000)) post.

Definition pending_env : Env Q :=
  scripted_env sample_dt (fun _ => inr (encode "SIG")) plain_b58encode
    (fun _ => inr (status_response "pending")) (inl (LibraryError "post")).

(** The environment of the interpreter: [base64] is the standard
    library's, the signer signs, the server prices and accepts. *)
Definition stdlib_env : Env Q :=
  scripted_env sample_dt (fun _ => inr (encode "SIG")) stdlib_base64_b58encode
    (fun _ => inr (pricing_response 1000))
    (inr (json_response (PDict {[ "jobId" := PStr "job_1" ]}))).

Definition demo_message : list Byte.byte :=
  encode "x402-payment:PAYER:1000:job_1:2024-01-02T03:04:05Z:300".

Definition demo_intent : PaymentIntent :=
  {| intent_id := "x402-payment:PAY";
     payer := "PAYER";
     amount := PInt 1000;
     jobId := "job_1";
     timestamp := "2024-01-02T03:04:05Z";
     expiresIn := 300;
     signature := "SIG" |}.

Definition demo_intent_log : list event :=
  [EvUtcnow sample_dt; EvSign demo_message; EvB58encode (encode "SIG");
   EvSha256 demo_message; EvB58encode (take 16 demo_message)].

Definition other_signer_env : Env Q :=
  scripted_env sample_dt (fun _ => inr (encode "ANOTHER SIGNATURE"))
    plain_b58encode (fun _ => inl (LibraryError "get"))
    (inl (LibraryError "post")).

Definition other_signer_intent : PaymentIntent :=
  {| intent_id := "x402-payment:PAY";
     payer := "PAYER";
     amount := PInt 1000;
     jobId := "job_1";
     timestamp := "2024-01-02T03:04:05Z";
     expiresIn := 300;
     signature := "ANOTHER SIGNATURE" |}.

(** A clock read 123456 microseconds into the second. *)
Definition microsecond_dt : datetime :=
  {| year := 2024; month := 1; day := 2; hour := 3; minute := 4; second := 5;
     microsecond := 123456 |}.

Definition microsecond_env : Env Q :=
  scripted_env microsecond_dt (fun _ => inr (encode "SIG")) plain_b58encode
    (fun _ => inl (LibraryError "get")) (inl (LibraryError "post")).

Definition microsecond_intent : PaymentIntent :=
  {| intent_id := "x402-payment:PAY";
     payer := "PAYER";
     amount := PInt 1000;
     jobId := "job_1";
     timestamp := "2024-01-02T03:04:05.123456Z";
     expiresIn := 300;
     signature := "SIG" |}.

(** A server on which the job has failed. *)
Definition failed_status : gmap string pyval :=
  {[ "status" := PStr "failed"; "error" := PStr "out of memory" ]}.

Definition failed_env : Env Q :=
  scripted_env sample_dt (fun _ => inr (encode "SIG")) plain_b58encode
    (fun _ => inr (json_response (PDict failed_status)))
    (inl (LibraryError "post")).

Definition failed_log : list event :=
  [EvTime 0; EvTime 0;
   EvGet "http://localhost:3000/api/x402/jobs/job_1" 10
     (inr (json_response (PDict failed_status)))].

Definition accepted : exn + response :=
  inr (json_response (PDict {[ "jobId" := PStr "job_1700000000";
                               "status" := PStr "pending" ]})).

Definition demo_config : pyval :=
  PDict {[ "model" := PStr "llama-3-70b" ]}.

(** Half a second past 1700000000 on the clock. *)
Definition demo_time : Q := 1700000000.5%Q.

Definition demo_submit_intent : PaymentIntent :=
  {| intent_id := "x402-payment:PAY";
     payer := "PAYER";
     amount := PInt 1000;
     jobId := "job_1700000000";
     timestamp := "2024-01-02T03:04:05Z";
     expiresIn := 300;
     signature := "SIG" |}.

Definition demo_request : post_request :=
  {| post_url := "http://localhost:3000/api/x402";
     post_body :=
       PDict (submission_map (intent_dict demo_submit_intent)
                "inference_medium" demo_config);
     post_headers := submit_headers (demo_env accepted) demo_submit_intent;
     post_timeout := 30 |}.

Definition demo_submit_log : list event :=
  Eval vm_compute in
    (submit_job (demo_env accepted) demo_client "inference_medium"
       demo_config demo_time).2.

(** The answer of a server in trouble: status 500, a body that is not
    JSON. *)
Definition unparseable_error : exn + response :=
  inr {| ok := false; text := "Internal Server Error"; json := None |}.

(** A second submission, of another job, four tenths of a second after
    the first. *)
Definition later_time : Q := 1700000000.9%Q.

Definition later_submit_log : list event :=
  Eval vm_compute in
    (submit_job (demo_env accepted) demo_client "inference_small" PNone
       later_time).2.

Definition later_request : post_request :=
  {| post_url := "http://localhost:3000/api/x402";
     post_body :=
       PDict (submission_map (intent_dict demo_submit_intent)
                "inference_small" PNone);
     post_headers := submit_headers (demo_env accepted) demo_submit_intent;
     post_timeout := 30 |}.

(** ** The client, call by call *)

Section Calls.

Context {W : Type} (env : Env W).

(** The address [get_pricing] asks. *)
Definition pricing_url (self : X402Client) (job_type : option string)
    : string :=
  match job_type with
  | Some jt =>
      if bool_decide (jt = "") then api_url self +:+ "/x402/pricing"
      else (api_url self +:+ "/x402/pricing") +:+ "?jobType=" +:+ jt
  | None => api_url self +:+ "/x402/pricing"
  end.

(** What [get_pricing] and [get_job_status] make of the answer to their
    request; [failed] is the head of the message of the exception. *)
Definition fetch_outcome (failed : string) (r : exn + response)
    : outcome pyval :=
  match r with
  | inl e => Raises e
  | inr resp =>
      if negb (ok resp) then Raises (Exception (failed +:+ text resp))
      else
        match json resp with
        | Some v => Returns v
        | None => Raises JSONDecodeError
        end
  end.

(** The amount [submit_job] takes from the answer to its pricing
    request, or the exception that ends it there. *)
Definition pricing_amount (r : exn + response) : exn + pyval :=
  match fetch_outcome "Failed to get pricing: " r with
  | Returns (PDict d) =>
      match d !! "minimumPayment" with
      | Some amt => inr amt
      | None => inl (KeyError "minimumPayment")
      end
  | Returns _ => inl TypeError
  | Raises e => inl e
  | Diverges => inl TypeError
  end.

End Calls.

(** ** More servers to run the client against *)

(** An answer that is not a success and whose body is not JSON. *)
Definition unavailable : response :=
  {| ok := false; text := "Service Unavailable"; json := None |}.

(** A server that is down: every request is answered 503. *)
Definition down_env : Env Q :=
  scripted_env sample_dt (fun _ => inr (encode "SIG")) plain_b58encode
    (fun _ => inr unavailable) (inr unavailable).

(** A server whose pricing answer has no [minimumPayment]. *)
Definition no_price : response :=
  json_response (PDict {[ "jobType" := PStr "inference_medium" ]}).

Definition no_price_env : Env Q :=
  scripted_env sample_dt (fun _ => inr (encode "SIG")) plain_b58encode
    (fun _ => inr no_price) accepted.

(** A submission turned down with a reason. *)
Definition rejected_status : gmap string pyval :=
  {[ "message" := PStr "insufficient payment" ]}.

Definition rejected : response :=
  {| ok := false; text := "payment required";
     json := Some (PDict rejected_status) |}.

(** A submission turned down with a body that is JSON, but a list. *)
Definition rejected_list : response :=
  {| ok := false; text := "[1]"; json := Some (PList [PInt 1]) |}.

(** A submission turned down with an object that gives no reason. *)
Definition rejected_silent : response :=
  {| ok := false; text := "payment required";
     json := Some (PDict {[ "code" := PInt 402 ]}) |}.

(** The log of a submission that the server turns down with a reason. *)
Definition rejected_submit_log : list event :=
  Eval vm_compute in
    (submit_job (demo_env (inr rejected)) demo_client "inference_medium"
       demo_config demo_time).2.

(** The log of a submission turned down with a list for a body. *)
Definition rejected_list_submit_log : list event :=
  Eval vm_compute in
    (submit_job (demo_env (inr rejected_list)) demo_client "inference_medium"
       demo_config demo_time).2.

(** A third submission, in the second after the first. *)
Definition next_second : Q := 1700000001.2%Q.

Definition next_second_intent : PaymentIntent :=
  {| intent_id := "x402-payment:PAY";
     payer := "PAYER";
     amount := PInt 1000;
     jobId := "job_1700000001";
     timestamp := "2024-01-02T03:04:05Z";
     expiresIn := 300;
     signature := "SIG" |}.

Definition next_second_request : post_request :=
  {| post_url := "http://localhost:3000/api/x402";
     post_body :=
       PDict (submission_map (intent_dict next_second_intent)
                "inference_medium" demo_config);
     post_headers := submit_headers (demo_env accepted) next_second_intent;
     post_timeout := 30 |}.

Definition next_second_log : list event :=
  Eval vm_compute in
    (submit_job (demo_env accepted) demo_client "inference_medium"
       demo_config next_second).2.

(** The calls a wait may make: readings of [time.time()], status
    requests to [url] with a ten second timeout, and sleeps of
    [poll_interval] seconds. *)
Definition wait_call (url : string) (poll_interval : Z) (ev : event) : Prop :=
  match ev with
  | EvTime _ => True
  | EvGet u timeout _ => u = url /\ timeout = 10
  | EvSleep secs => secs = poll_interval
  | _ => False
  end.

(** ** Clocks that do not run backwards *)

Section Clocks.

Context {W : Type} (env : Env W).

(** [clock w] is the time in the world [w]: a reading lies between the
    time before and after it, a request does not turn the clock back, and
    a sleep lasts at least as long as asked. *)
Record forward_clock (clock : W -> Q) : Prop := {
  forward_reading : forall w t w',
    time_time env w = (t, w') -> (clock w <= t)%Q /\ (t <= clock w')%Q;
  forward_request : forall url timeout w r w',
    requests_get env url timeout w = (r, w') -> (clock w <= clock w')%Q;
  forward_sleep : forall n w,
    (clock w + inject_Z n <= clock (time_sleep env n w))%Q
}.

End Clocks.

(** A server on which the job is done. *)
Definition completed_status : gmap string pyval :=
  {[ "status" := PStr "completed"; "result" := PStr "42" ]}.

Definition completed_env : Env Q :=
  scripted_env sample_dt (fun _ => inr (encode "SIG")) plain_b58encode
    (fun _ => inr (json_response (PDict completed_status)))
    (inl (LibraryError "post")).

Definition completed_log : list event :=
  [EvTime 0; EvTime 0;
   EvGet "http://localhost:3000/api/x402/jobs/job_1" 10
     (inr (json_response (PDict completed_status)))].

(** The log of a wait on a server that is down. *)
Definition down_log : list event :=
  [EvTime 0; EvTime 0;
   EvGet "http://localhost:3000/api/x402/jobs/job_1" 10 (inr unavailable)].

(** The log of a wait of ten seconds, asking every four, on a job that
    stays pending. *)
Definition pending_log : list event :=
  Eval vm_compute in
    (wait_for_completion pending_env 10 demo_client "job_1" (Some 4)
       (Some 10) 0%Q).2.

(** ** The constructor *)

(** [s.rstrip('/')]: [s] without the slashes at its end. *)
Fixpoint rstrip_slash (s : string) : string :=
  match s with
  | EmptyString => EmptyString
  | String c s' =>
      match rstrip_slash s' with
      | EmptyString =>
          if Ascii.eqb c "/" then EmptyString else String c EmptyString
      | r => String c r
      end
  end.

(** [n] slashes. *)
Fixpoint slashes (n : nat) : string :=
  match n with
  | O => EmptyString
  | S n' => String "/" (slashes n')
  end.

(** [X402Client(api_url, secret_key_base58)].  [public_key_of] stands for
    the key library: the base-58 public key of the signing key that the
    secret decodes to, or the exception it raises for a secret it cannot
    use. *)
Definition X402Client_init (public_key_of : string -> exn + string)
    (url secret_key_base58 : string) : exn + X402Client :=
  match public_key_of secret_key_base58 with
  | inl e => inl e
  | inr pk => inr {| api_url := rstrip_slash url; public_key := pk |}
  end.

(** ** Messages that can be taken apart *)

(** [s] has no colon in it. *)
Fixpoint no_colon (s : string) : bool :=
  match s with
  | EmptyString => true
  | String c s' => negb (Ascii.eqb c ":") && no_colon s'
  end.

(** A key library that knows one secret. *)
Definition demo_keys (secret : string) : exn + string :=
  if bool_decide (secret = "SECRET") then inr "PAYER"
  else inl (LibraryError "invalid key").

(** ** The example program *)

(** A computation of the program: as one of the client, and with the
    lines it has printed, oldest first; the lines stay when it raises. *)
Definition P (W A : Type) : Type :=
  W -> outcome A * W * list event * list string.

Definition pret {W A} (a : A) : P W A := fun w => (Returns a, w, [], []).

Definition pbind {W A B} (m : P W A) (k : A -> P W B) : P W B :=
  fun w =>
    match m w with
    | (Returns a, w1, l1, out1) =>
        match k a w1 with
        | (o, w2, l2, out2) => (o, w2, l1 ++ l2, out1 ++ out2)
        end
    | (Raises e, w1, l1, out1) => (Raises e, w1, l1, out1)
    | (Diverges, w1, l1, out1) => (Diverges, w1, l1, out1)
    end.

#[global] Instance P_ret {W} : MRet (P W) := fun A => @pret W A.
#[global] Instance P_bind {W} : MBind (P W) :=
  fun A B k m => @pbind W A B m k.

(** A call of the client inside the program. *)
Definition lift {W A} (m : M W A) : P W A :=
  fun w => match m w with (o, w1, l) => (o, w1, l, []) end.

(** [print(s)] *)
Definition print {W} (s : string) : P W unit :=
  fun w => (Returns tt, w, [], [s]).

(** [try: body / except Exception as e: handler(e)].  Every exception of
    the model is an [Exception]. *)
Definition try_except {W} (body : P W unit) (handler : exn -> P W unit)
    : P W unit :=
  fun w =>
    match body w with
    | (Raises e, w1, l1, out1) =>
        match handler e w1 with
        | (o, w2, l2, out2) => (o, w2, l1 ++ l2, out1 ++ out2)
        end
    | r => r
    end.

(** The end of a line inside a string. *)
Definition newline : string := String "010"%char EmptyString.

(** What [main] uses beside the client's environment. *)
Record Host : Type := {
  (** [os.getenv(name)], [None] when the variable is not set *)
  os_getenv : string -> option string;
  (** the key library, as for [X402Client_init] *)
  host_public_key_of : string -> exn + string;
  (** [str(e)] of an exception that the client did not raise itself *)
  exn_message : exn -> string;
  (** [json.dumps(v, indent=2)] *)
  json_dumps : pyval -> string
}.

(** The job [main] submits. *)
Definition example_config : pyval :=
  PDict {[ "model" := PStr "llama-3-70b";
           "input" := PDict {[ "prompt" := PStr "Explain quantum computing";
                               "max_tokens" := PInt 500 ]} ]}.

Section Program.

Context {W : Type} (env : Env W) (host : Host).

(** [str(e)], what [{e}] puts in an f-string. *)
Definition str_of_exn (e : exn) : string :=
  match e with
  | Exception msg => msg
  | _ => exn_message host e
  end.

(** The first [try] of [main]: show the pricing. *)
Definition pricing_block (client : X402Client) : P W unit :=
  try_except
    (print "Fetching pricing...";;
     pricing ← lift (get_pricing env client (Some "inference_medium"));
     job_type ← lift (subscript pricing "jobType");
     print ("  Job Type: " +:+ py_str env job_type);;
     price ← lift (subscript pricing "minimumPayment");
     print ("  Price: " +:+ py_str env price +:+ " lamports");;
     resources ← lift (subscript pricing "resources");
     gpu ← lift (subscript resources "gpu");
     print ("  GPU: " +:+ py_str env gpu +:+ newline))
    (fun e =>
       print ("  ‚ö†Ô∏è  Pricing API error: " +:+ str_of_exn e +:+ newline)).

(** The second [try] of [main]: submit the job and wait for it. *)
Definition job_block (fuel : nat) (client : X402Client) : P W unit :=
  try_except
    (print "Submitting job...";;
     job ← lift (submit_job env client "inference_medium" example_config);
     job_id ← lift (subscript job "jobId");
     print ("  ‚úÖ Job submitted: " +:+ py_str env job_id);;
     status ← lift (subscript job "status");
     print ("  Status: " +:+ py_str env status +:+ newline);;
     print "Waiting for completion...";;
     job_id ← lift (subscript job "jobId");
     result ← lift (wait_for_completion env fuel client (py_str env job_id)
                      None None);
     print "  ‚úÖ Completed!";;
     value ← lift (dict_get result "result" PNone);
     print ("  Result: " +:+ json_dumps host value))
    (fun e => print ("  ‚ö†Ô∏è  Job error: " +:+ str_of_exn e)).

(** [main()]; [fuel] bounds the iterations of the wait. *)
Definition main (fuel : nat) : P W unit :=
  print ("üöÄ x402 Payment Protocol - Python Example" +:+ newline);;
  let secret_key :=
    default "DEMO_KEY_BASE58_ENCODED" (os_getenv host "SOLANA_SECRET_KEY") in
  client ← (fun w =>
              (of_result (X402Client_init (host_public_key_of host)
                            "http://localhost:3000/api" secret_key),
               w, [], []));
  print ("Client initialized for: " +:+ public_key client +:+ newline);;
  pricing_block client;;
  job_block fuel client;;
  print (newline +:+ "‚ú® Example completed!").

End Program.

(** A host for the scripted worlds. *)
Definition demo_host : Host :=
  {| os_getenv := fun _ => Some "SECRET";
     host_public_key_of := demo_keys;
     exn_message := fun _ => "error";
     json_dumps := fun _ => "null" |}.

(** A server that prices, accepts and has the job done at once. *)
Definition full_env : Env Q :=
  scripted_env sample_dt (fun _ => inr (encode "SIG")) plain_b58encode
    (fun url =>
       if bool_decide
            (url = "http://localhost:3000/api/x402/pricing?jobType=inference_medium")
       then inr (json_response
                   (PDict {[ "jobType" := PStr "inference_medium";
                             "minimumPayment" := PInt 1000;
                             "resources" := PDict {[ "gpu" := PStr "A100" ]} ]}))
       else inr (json_response (PDict completed_status)))
    (inr (json_response (PDict {[ "jobId" := PStr "srv-7";
                                  "status" := PStr "pending" ]}))).

(** The run of [main] against the server that has the job done. *)
Definition example_run : outcome unit * Q * list event * list string :=
  Eval vm_compute in main full_env demo_host 61 0%Q.

Definition example_log : list event := example_run.1.2.

Definition example_output : list string := example_run.2.

(** A host whose key the key library refuses. *)
Definition keyless_host : Host :=
  {| os_getenv := fun _ => None;
     host_public_key_of := demo_keys;
     exn_message := fun _ => "error";
     json_dumps := fun _ => "null" |}.

(** ** Base 58 *)

(** The digits of base 58 as public keys are written: the digits and
    letters without [0], [O], [I] and [l]. *)
Definition base58_alphabet : string :=
  "123456789ABCDEFGHJKLMNPQRSTUVWXYZabcdefghijkmnopqrstuvwxyz".

(** The number a byte string writes, most significant byte first. *)
Definition N_of_bytes (b : list Byte.byte) : N :=
  fold_left (fun n x => (n * 256 + Byte.to_N x)%N) b 0%N.

(** The digits of [n] in base 58, most significant first, put in front
    of [acc]; [fuel] bounds their number. *)
Fixpoint base58_digits (fuel : nat) (n : N) (acc : list N) : list N :=
  match fuel with
  | O => acc
  | S fuel' =>
      if (n =? 0)%N then acc
      else base58_digits fuel' (n / 58)%N ((n mod 58)%N :: acc)
  end.

Definition base58_digit (d : N) : Byte.byte :=
  nth (N.to_nat d) (encode base58_alphabet) Byte.x31.

Fixpoint leading_zeros (b : list Byte.byte) : nat :=
  match b with
  | Byte.x00 :: b' => S (leading_zeros b')
  | _ => O
  end.

(** Base-58 encoding of a byte string: a [1] for every zero byte at its
    front, then the number it writes in base 58. *)
Definition base58_encode (b : list Byte.byte) : list Byte.byte :=
  replicate (leading_zeros b) Byte.x31
  ++ map base58_digit (base58_digits (2 * length b) (N_of_bytes b) []).

(** The identifier of an intent in the words of the description: the
    first 16 bytes of the hash of the message, encoded in base 58 with
    the alphabet of public keys. *)
Definition described_intent_id {W} (env : Env W) (message : string) : string :=
  decode (base58_encode (take 16 (hashlib_sha256 env (encode message)))).

(** The interpreter's world with a base-58 encoder where the source
    looks for [base64.b58encode]. *)
Definition base58_env : Env Q :=
  scripted_env sample_dt (fun _ => inr (encode "SIG"))
    (fun b => inr (base58_encode b))
    (fun _ => inr (pricing_response 1000))
    (inr (json_response (PDict {[ "jobId" := PStr "job_1" ]}))).

(** ** A clock that is read late *)

(** A world in which the clock stands at one second when it is read for
    the second time: started [2^-60] seconds after zero, the first check
    of a wait comes [1 - 2^-60] seconds after its start. *)
Definition late_env : Env Q :=
  {| datetime_utcnow := datetime_utcnow pending_env;
     signing_key_sign := signing_key_sign pending_env;
     base64_b58encode := base64_b58encode pending_env;
     hashlib_sha256 := hashlib_sha256 pending_env;
     time_time := fun w => (w, 1%Q);
     time_sleep := time_sleep pending_env;
     requests_get := requests_get pending_env;
     requests_post := requests_post pending_env;
     container_str := container_str pending_env |}.

Definition two_to_minus_60 : Q := 1 # 1152921504606846976.

(** The largest whole number that a double holds exactly, plus one. *)
Definition past_exact : Z := 2 ^ 53 + 1.

(** The calls of the intent builder inside the demo submission. *)
Definition demo_submit_intent_log : list event :=
  Eval vm_compute in
    (create_payment_intent (demo_env accepted) demo_client (PInt 1000)
       "job_1700000000" None demo_time).2.

(** * Properties *)

(** ** The language and the data model *)

Example str_of_int_1000 : str_of_int 1000 = "1000".
Proof. reflexivity. Qed.

Example str_of_int_neg : str_of_int (-5) = "-5".
Proof. reflexivity. Qed.

Example isoformat_sample : isoformat sample_dt = "2024-01-02T03:04:05".
Proof. vm_compute. reflexivity. Qed.

Lemma Qltb_lt x y : Qltb x y = true <-> (x < y)%Q.
Proof.
  unfold Qltb. rewrite negb_true_iff. split.
  - intros H. apply Qnot_le_lt. intros Hle.
    apply Qle_bool_iff in Hle. congruence.
  - intros H. destruct (Qle_bool y x) eqn:E; [|reflexivity].
    apply Qle_bool_iff in E. exfalso. eapply Qlt_not_le; eassumption.
Qed.

Lemma int_of_float_floor (t : Q) : (0 <= t)%Q -> int_of_float t = Qfloor t.
Proof.
  destruct t as [n d]. unfold Qle, int_of_float, Qfloor. cbn.
  intros H. apply Z.quot_div_nonneg; lia.
Qed.

(** *** Rounding to a double *)

(** Rounding does not go below a whole number that [x] has reached. *)
Lemma round_half_even_ge x j : (inject_Z j <= x)%Q -> j <= round_half_even x.
Proof.
  intros H. apply Qfloor_resp_le in H. rewrite Qfloor_Z in H.
  unfold round_half_even. destruct (_ ?= _)%Q; [destruct (Z.even _)|..]; lia.
Qed.

Lemma Qpow2_pos e : (0 < 2 ^ e)%Q.
Proof. by apply Qpower_0_lt. Qed.

Lemma ilog2_le x : (0 < x)%Q -> (2 ^ ilog2 x <= x)%Q.
Proof.
  intros Hx. unfold ilog2.
  destruct (Qle_bool _ x) eqn:E; [by apply Qle_bool_iff|].
  destruct x as [n d]. cbn [Qnum Qden].
  assert (Hn : 0 < n) by (unfold Qlt in Hx; cbn in Hx; lia).
  pose proof (Z.log2_spec n Hn) as [Hn1 _].
  pose proof (Z.log2_spec (Z.pos d) ltac:(lia)) as [_ Hd2].
  pose proof (Z.log2_nonneg n) as Ha. pose proof (Z.log2_nonneg (Z.pos d)) as Hb.
  replace (Z.log2 n - Z.log2 (Z.pos d) - 1)
    with (Z.log2 n - Z.succ (Z.log2 (Z.pos d))) by lia.
  rewrite Qpower_minus by done.
  change 2%Q with (inject_Z 2).
  rewrite <- !Zpower_Qpower by lia.
  set (a := 2 ^ Z.log2 n) in *. set (b := 2 ^ Z.succ (Z.log2 (Z.pos d))) in *.
  assert (0 < a) by (subst a; apply Z.pow_pos_nonneg; lia).
  assert (0 < b) by (subst b; apply Z.pow_pos_nonneg; lia).
  apply Qle_shift_div_r; [unfold Qlt; cbn; lia|].
  unfold Qle, Qmult, inject_Z. cbn. nia.
Qed.

Lemma Qabs_pos_eq x : (0 < x)%Q -> Qabs x = x.
Proof. by destruct x as [[|n|n] d]. Qed.

(** A difference that is not negative is not rounded below zero. *)
Lemma round_double_nonneg x n :
  (0 <= x)%Q -> float_lt_int (round_double x) n = true -> 0 < n.
Proof.
  intros Hx. unfold round_double.
  destruct (Qeq_bool x 0).
  { cbn. rewrite Qltb_lt. change 0%Q with (inject_Z 0). by rewrite <- Zlt_Qlt. }
  cbv zeta. set (e := Z.max _ _).
  destruct (Qle_bool (2 ^ 1024) _).
  { destruct (Qle_bool 0 x) eqn:E; [done|].
    exfalso. apply Qle_bool_iff in Hx. congruence. }
  cbn [float_lt_int]. rewrite Qltb_lt. intros Hlt.
  assert (0 <= round_half_even (x / 2 ^ e)) as Hr.
  { apply round_half_even_ge. apply Qle_shift_div_l; [apply Qpow2_pos|].
    by rewrite Qmult_0_l. }
  rewrite Zlt_Qlt. eapply Qle_lt_trans; [|exact Hlt].
  apply Qmult_le_0_compat; [|apply Qlt_le_weak, Qpow2_pos].
  change 0%Q with (inject_Z 0). by rewrite <- Zle_Qle.
Qed.

(** A whole number up to [2^53] is a double: what has reached it is not
    rounded below it. *)
Lemma round_double_ge x n :
  0 < n <= 2 ^ 53 -> (inject_Z n <= x)%Q ->
  float_lt_int (round_double x) n = false.
Proof.
  intros [Hn Hn53] Hx.
  assert (Hpos : (0 < x)%Q).
  { eapply Qlt_le_trans; [|exact Hx]. change 0%Q with (inject_Z 0).
    by rewrite <- Zlt_Qlt. }
  unfold round_double.
  destruct (Qeq_bool x 0) eqn:E0.
  { apply Qeq_bool_iff in E0. rewrite E0 in Hpos. by apply Qlt_irrefl in Hpos. }
  cbv zeta. rewrite (Qabs_pos_eq x Hpos).
  set (e := Z.max _ _).
  destruct (Qle_bool (2 ^ 1024) _).
  { destruct (Qle_bool 0 x) eqn:E; [done|].
    exfalso. apply Qlt_le_weak, Qle_bool_iff in Hpos. congruence. }
  cbn [float_lt_int]. destruct (Qltb _ _) eqn:Elt; [|done]. exfalso.
  apply Qltb_lt in Elt. revert Elt. apply Qle_not_lt.
  destruct (Z_le_gt_dec e 0) as [He|He].
  - (* the unit in the last place divides 1 *)
    assert (Hj : (inject_Z (n * 2 ^ (- e)) == inject_Z n / 2 ^ e)%Q).
    { rewrite inject_Z_mult, Zpower_Qpower by lia.
      change (inject_Z 2) with 2%Q. rewrite Qpower_opp.
      reflexivity. }
    assert (n * 2 ^ (- e) <= round_half_even (x / 2 ^ e)) as Hr.
    { apply round_half_even_ge. rewrite Hj.
      apply Qmult_le_compat_r; [done|]. apply Qinv_le_0_compat, Qlt_le_weak, Qpow2_pos. }
    rewrite Zle_Qle, Hj in Hr.
    apply (Qmult_le_compat_r _ _ (2 ^ e)) in Hr; [|apply Qlt_le_weak, Qpow2_pos].
    eapply Qle_trans; [|exact Hr].
    unfold Qdiv. rewrite <- Qmult_assoc, (Qmult_comm (/ _)), Qmult_inv_r, Qmult_1_r.
    + apply Qle_refl.
    + apply Qpower_not_0. done.
  - (* the unit in the last place is a whole number *)
    assert (He' : e = ilog2 x - 52) by lia.
    pose proof (ilog2_le x Hpos) as Hl.
    replace (ilog2 x) with (52 + e) in Hl by lia.
    rewrite Qpower_plus in Hl by done.
    assert (2 ^ 52 <= round_half_even (x / 2 ^ e)) as Hr.
    { apply round_half_even_ge. apply Qle_shift_div_l; [apply Qpow2_pos|].
      rewrite Zpower_Qpower by lia. exact Hl. }
    rewrite Zle_Qle in Hr.
    apply (Qmult_le_compat_r _ _ (2 ^ e)) in Hr; [|apply Qlt_le_weak, Qpow2_pos].
    eapply Qle_trans; [|exact Hr].
    rewrite Zpower_Qpower by lia. change (inject_Z 2) with 2%Q.
    rewrite <- Qpower_plus by done.
    apply Qle_trans with (2 ^ 53)%Q.
    + change (2 ^ 53)%Q with (inject_Z (2 ^ 53)). by rewrite <- Zle_Qle.
    + apply Qpower_le_compat_l; [lia|done].
Qed.

(** The test of the loop, [time.time() - start_time < max_wait], fails
    once [max_wait] seconds have passed on a clock that has not gone
    back. *)
Lemma elapsed_time_up (start_time t : Q) (max_wait : Z) :
  max_wait <= 2 ^ 53 -> (start_time <= t)%Q ->
  (start_time + inject_Z max_wait <= t)%Q ->
  float_lt_int (float_sub t start_time) max_wait = false.
Proof.
  intros Hmw Hfwd Hup. unfold float_sub.
  destruct (Z_lt_le_dec 0 max_wait) as [Hpos|Hneg].
  - apply round_double_ge; [lia|lra].
  - destruct (float_lt_int _ _) eqn:E; [|done].
    apply round_double_nonneg in E; [lia|lra].
Qed.


Lemma lookup_intent_id p : intent_map p !! "id" = Some (PStr (intent_id p)).
Proof. reflexivity. Qed.

Lemma lookup_intent_payer p : intent_map p !! "payer" = Some (PStr (payer p)).
Proof. reflexivity. Qed.

Lemma lookup_intent_amount p : intent_map p !! "amount" = Some (amount p).
Proof. reflexivity. Qed.

Lemma lookup_intent_jobId p : intent_map p !! "jobId" = Some (PStr (jobId p)).
Proof. reflexivity. Qed.

Lemma lookup_intent_timestamp p :
  intent_map p !! "timestamp" = Some (PStr (timestamp p)).
Proof. reflexivity. Qed.

Lemma lookup_intent_expiresIn p :
  intent_map p !! "expiresIn" = Some (PInt (expiresIn p)).
Proof. reflexivity. Qed.

Lemma lookup_intent_signature p :
  intent_map p !! "signature" = Some (PStr (signature p)).
Proof. reflexivity. Qed.

(** An intent is read back from its dictionary. *)
Lemma intent_dict_inj p q : intent_dict p = intent_dict q -> p = q.
Proof.
  intros Hd.
  assert (H : intent_map p = intent_map q).
  { exact (f_equal (fun v => match v with PDict d => d | _ => ∅ end) Hd). }
  pose proof (f_equal (.!! "id") H) as H1.
  pose proof (f_equal (.!! "payer") H) as H2.
  pose proof (f_equal (.!! "amount") H) as H3.
  pose proof (f_equal (.!! "jobId") H) as H4.
  pose proof (f_equal (.!! "timestamp") H) as H5.
  pose proof (f_equal (.!! "expiresIn") H) as H6.
  pose proof (f_equal (.!! "signature") H) as H7.
  rewrite !lookup_intent_id in H1. rewrite !lookup_intent_payer in H2.
  rewrite !lookup_intent_amount in H3. rewrite !lookup_intent_jobId in H4.
  rewrite !lookup_intent_timestamp in H5.
  rewrite !lookup_intent_expiresIn in H6.
  rewrite !lookup_intent_signature in H7.
  destruct p, q; simpl in *. congruence.
Qed.

Lemma returns_intent_inv {W} p q (w w' : W) (l l' : list event) :
  (Returns (intent_dict p), w, l) = (Returns (intent_dict q), w', l') -> p = q.
Proof.
  intros H. apply intent_dict_inj.
  exact (f_equal (fun x => match x.1.1 with
                           | Returns v => v
                           | _ => PNone
                           end) H).
Qed.

Lemma payment_field_submission p job_type config key :
  payment_field (PDict (submission_map (intent_dict p) job_type config)) key
  = intent_map p !! key.
Proof. reflexivity. Qed.

Lemma signed_messages_app l1 l2 :
  signed_messages (l1 ++ l2) = signed_messages l1 ++ signed_messages l2.
Proof. apply omap_app. Qed.

Lemma clock_readings_app l1 l2 :
  clock_readings (l1 ++ l2) = clock_readings l1 ++ clock_readings l2.
Proof. apply omap_app. Qed.

Lemma posts_app l1 l2 : posts (l1 ++ l2) = posts l1 ++ posts l2.
Proof. apply omap_app. Qed.

(** [only_member H]: [H] says that something is in a list written out
    in full, and the goal holds of each of its elements by computation. *)
Ltac only_member H :=
  repeat (apply elem_of_cons in H as [-> | H]; [reflexivity|]);
  by apply elem_of_nil in H.

(** ** Runs, step by step *)

Section Runs.

Context {W : Type} (env : Env W).

Lemma bind_inv {A B} (m : M W A) (k : A -> M W B) w o w' l :
  (m ≫= k) w = (o, w', l) ->
  (exists a w1 l1 l2,
      m w = (Returns a, w1, l1) /\ k a w1 = (o, w', l2) /\ l = l1 ++ l2)
  \/ (exists e, m w = (Raises e, w', l) /\ o = Raises e)
  \/ (m w = (Diverges, w', l) /\ o = Diverges).
Proof.
  unfold mbind, M_bind, bind.
  destruct (m w) as [[[a|e|] w1] l1].
  - destruct (k a w1) as [[o2 w2] l2] eqn:E. intros [= <- <- <-].
    left. by exists a, w1, l1, l2.
  - intros [= <- <- <-]. right. left. by exists e.
  - intros [= <- <- <-]. right. by right.
Qed.

(** The five calls of [create_payment_intent], one after the other. *)
Lemma create_payment_intent_run self amount job_id expires_in w :
  create_payment_intent env self amount job_id expires_in w =
  let (d, w1) := datetime_utcnow env w in
  let msg :=
    encode (canonical_message (public_key self) (py_str env amount) job_id
              (isoformat d +:+ "Z") (str_of_int (default 300 expires_in))) in
  let (r, w2) := signing_key_sign env msg w1 in
  match r with
  | inl e => (Raises e, w2, [EvUtcnow d; EvSign msg])
  | inr sig =>
      match base64_b58encode env sig with
      | inl e => (Raises e, w2, [EvUtcnow d; EvSign msg; EvB58encode sig])
      | inr sig58 =>
          let h := take 16 (hashlib_sha256 env msg) in
          let log := [EvUtcnow d; EvSign msg; EvB58encode sig; EvSha256 msg;
                      EvB58encode h] in
          match base64_b58encode env h with
          | inl e => (Raises e, w2, log)
          | inr id58 =>
              (Returns (intent_dict
                          (built_intent self amount job_id expires_in d
                             id58 sig58)),
               w2, log)
          end
      end
  end.
Proof.
  unfold create_payment_intent, mbind, M_bind, bind, utcnow, sign, b58encode,
    sha256_digest, mret, M_ret, ret.
  destruct (datetime_utcnow env w) as [d w1]. cbv zeta.
  destruct (signing_key_sign env _ w1) as [[e|sig] w2]; [reflexivity|].
  cbn [of_result].
  destruct (base64_b58encode env sig) as [e|sig58]; [reflexivity|].
  cbn [of_result].
  destruct (base64_b58encode env (take 16 _)) as [e|id58]; reflexivity.
Qed.

(** An intent that is returned is one [built_intent] describes; the log
    is the clock, the signer on the intent's message, and then only the
    encoder and the hash. *)
Lemma create_payment_intent_returns self amt job_id expires_in w v w' l :
  create_payment_intent env self amt job_id expires_in w
    = (Returns v, w', l) ->
  exists d id58 sig58 rest,
    let p := built_intent self amt job_id expires_in d id58 sig58 in
    v = intent_dict p
    /\ l = EvUtcnow d :: EvSign (encode (message_of env p)) :: rest
    /\ signed_messages rest = [] /\ posts rest = []
    /\ clock_readings rest = [].
Proof.
  rewrite create_payment_intent_run.
  destruct (datetime_utcnow env w) as [d w1]. cbv zeta.
  destruct (signing_key_sign env _ w1) as [[e|sig] w2]; [done|].
  destruct (base64_b58encode env sig) as [e|sig58]; [done|].
  destruct (base64_b58encode env (take 16 _)) as [e|id58]; [done|].
  intros [= <- <- <-]. by eexists d, id58, sig58, [_; _; _].
Qed.

(** The log of the intent builder: the clock, the signer on the
    message, and then only the encoder and the hash. *)
Lemma create_payment_intent_log self amt job_id expires_in w o w' l :
  create_payment_intent env self amt job_id expires_in w = (o, w', l) ->
  exists d rest,
    l = EvUtcnow d
        :: EvSign (encode (canonical_message (public_key self)
                             (py_str env amt) job_id (isoformat d +:+ "Z")
                             (str_of_int (default 300 expires_in))))
        :: rest
    /\ signed_messages rest = [] /\ posts rest = []
    /\ clock_readings rest = [].
Proof.
  rewrite create_payment_intent_run.
  destruct (datetime_utcnow env w) as [d w1]. cbv zeta.
  destruct (signing_key_sign env _ w1) as [[e|sig] w2].
  { intros [= <- <- <-]. by exists d, []. }
  destruct (base64_b58encode env sig) as [e|sig58].
  { intros [= <- <- <-]. by eexists d, [_]. }
  destruct (base64_b58encode env (take 16 _)) as [e|id58];
    intros [= <- <- <-]; by eexists d, [_; _; _].
Qed.

Lemma subscript_inv v key (w : W) o w' l :
  subscript v key w = (o, w', l) ->
  w' = w /\ l = [] /\ o <> Diverges
  /\ forall x, o = Returns x -> exists d, v = PDict d /\ d !! key = Some x.
Proof.
  unfold subscript, ret, raise.
  destruct v as [| | | | |d]; try (intros [= <- <- <-]; done).
  destruct (d !! key) as [x|] eqn:E; intros [= <- <- <-];
    repeat split; try done.
  intros ? [= <-]. eauto.
Qed.

Lemma bind_subscript_intent {B} p key x (k : pyval -> M W B) w :
  intent_map p !! key = Some x ->
  (subscript (intent_dict p) key ≫= k) w = k x w.
Proof.
  intros H. unfold mbind, M_bind, bind, subscript, intent_dict, ret.
  rewrite H. destruct (k x w) as [[o w'] l]. reflexivity.
Qed.

Lemma get_pricing_log self job_type w o w' l :
  get_pricing env self job_type w = (o, w', l) ->
  exists url r, l = [EvGet url 10 r].
Proof.
  unfold get_pricing, mbind, M_bind, bind, http_get.
  destruct (requests_get env _ 10 w) as [[e|resp] w1] eqn:E; cbn [of_result].
  - intros [= <- <- <-]. eauto.
  - unfold raise, response_json, ret.
    destruct (negb (ok resp)); [|destruct (json resp)];
      intros [= <- <- <-]; eauto.
Qed.

(** A run of [submit_job] stops before the intent is built, or while it
    is built, or it sends one request and ends as the answer says. *)
Lemma submit_job_run self job_type config w o w' log :
  submit_job env self job_type config w = (o, w', log) ->
  (signed_messages log = [] /\ posts log = [] /\ forall v, o <> Returns v)
  \/ (exists amount t w2 e l1 l3,
        create_payment_intent env self amount (job_id_of_time env t) None w2
          = (Raises e, w', l3)
        /\ log = l1 ++ [EvTime t] ++ l3
        /\ signed_messages l1 = [] /\ posts l1 = [] /\ clock_readings l1 = []
        /\ o = Raises e)
  \/ (exists amount t w2 p w3 l1 l3 r,
        create_payment_intent env self amount (job_id_of_time env t) None w2
          = (Returns (intent_dict p), w3, l3)
        /\ log = l1 ++ [EvTime t] ++ l3
                 ++ [EvPost (api_url self +:+ "/x402")
                       (PDict (submission_map (intent_dict p) job_type config))
                       (submit_headers env p) 30 r]
        /\ signed_messages l1 = [] /\ posts l1 = [] /\ clock_readings l1 = []
        /\ o = post_outcome env r).
Proof.
  intros H. unfold submit_job in H.
  apply bind_inv in H as [(pricing & w1 & l1 & l2 & Hp & H & ->) | [(e & Hp & ->) | (Hp & ->)]].
  2,3: left; apply get_pricing_log in Hp as (url & r & ->); repeat split; done.
  apply get_pricing_log in Hp as (url & r0 & ->).
  apply bind_inv in H as [(amount & w1' & l1 & l3 & Ha & H & ->) | [(e & Ha & ->) | (Ha & ->)]].
  2,3: left; apply subscript_inv in Ha as (-> & -> & Hnd & _);
       repeat split; done.
  apply subscript_inv in Ha as (-> & -> & _ & _).
  apply bind_inv in H as [(t & w2 & l1 & l4 & Ht & H & ->) | [(e & Ht & ->) | (Ht & ->)]].
  2,3: unfold now_time in Ht; destruct (time_time env w1); done.
  unfold now_time in Ht. destruct (time_time env w1) as [t' w2'].
  injection Ht as <- <- <-.
  apply bind_inv in H as [(intent & w3 & l1 & l5 & Hi & H & ->) | [(e & Hi & ->) | (Hi & ->)]].
  - right. right.
    destruct (create_payment_intent_returns _ _ _ _ _ _ _ _ Hi)
      as (d & id58 & sig58 & rest & -> & _).
    set (p := built_intent _ _ _ _ _ _ _) in *.
    rewrite (bind_subscript_intent p _ _ _ _ (lookup_intent_id p)) in H.
    rewrite (bind_subscript_intent p _ _ _ _ (lookup_intent_payer p)) in H.
    rewrite (bind_subscript_intent p _ _ _ _ (lookup_intent_signature p)) in H.
    rewrite (bind_subscript_intent p _ _ _ _ (lookup_intent_amount p)) in H.
    rewrite (bind_subscript_intent p _ _ _ _ (lookup_intent_jobId p)) in H.
    rewrite (bind_subscript_intent p _ _ _ _ (lookup_intent_timestamp p)) in H.
    rewrite (bind_subscript_intent p _ _ _ _ (lookup_intent_expiresIn p)) in H.
    exists amount, t', w2', p, w3, [EvGet url 10 r0], l1.
    unfold mbind, M_bind, bind, http_post in H.
    destruct (requests_post env _ _ _ 30 w3) as [r w4] eqn:Er.
    exists r. split; [exact Hi|].
    assert (o = post_outcome env r /\ l5 = [EvPost (api_url self +:+ "/x402")
              (PDict (submission_map (intent_dict p) job_type config))
              (submit_headers env p) 30 r]) as [-> ->].
    { unfold post_outcome. destruct r as [e|resp]; cbn [of_result] in H.
      - by injection H as <- <- <-.
      - unfold response_json, dict_get, raise, ret in H.
        destruct (negb (ok resp)); destruct (json resp) as [[| | | | |dd]|];
          by injection H as <- <- <-. }
    repeat split; done.
  - right. left. exists amount, t', w2', e, [EvGet url 10 r0], l4.
    repeat split; done.
  - exfalso. rewrite create_payment_intent_run in Hi.
    destruct (datetime_utcnow env w2') as [d w3]. cbv zeta in Hi.
    destruct (signing_key_sign env _ w3) as [[e|sig] w4]; [done|].
    destruct (base64_b58encode env sig) as [e|sig58]; [done|].
    destruct (base64_b58encode env (take 16 _)) as [e|id58]; done.
Qed.

(** The request of a run of [submit_job], if it got as far as sending
    one: it carries an intent built for the amount the pricing gave, for
    the job identifier made from the one reading of [time.time()], and
    with no expiry passed. *)
Lemma submit_job_posts self job_type config w o w' log rq :
  submit_job env self job_type config w = (o, w', log) ->
  rq ∈ posts log ->
  exists amt t d id58 sig58,
    let p := built_intent self amt (job_id_of_time env t) None d id58 sig58 in
    rq = {| post_url := api_url self +:+ "/x402";
            post_body := PDict (submission_map (intent_dict p) job_type config);
            post_headers := submit_headers env p;
            post_timeout := 30 |}
    /\ clock_readings log = [t]
    /\ signed_messages log = [encode (message_of env p)].
Proof.
  intros Hrun Hrq.
  apply submit_job_run in Hrun
    as [(_ & Hp & _)
       | [(amt & t & w2 & e & l1 & l3 & Hi & -> & _ & Hp1 & _ & _)
         | (amt & t & w2 & p & w3 & l1 & l3 & r & Hi & -> & Hs1 & Hp1 & Hc1 & _)]].
  - rewrite Hp in Hrq. by apply elem_of_nil in Hrq.
  - apply create_payment_intent_log in Hi as (d & rest & -> & _ & Hp3 & _).
    unfold posts in Hrq, Hp1, Hp3.
    rewrite !omap_app, Hp1 in Hrq. cbn in Hrq. rewrite Hp3 in Hrq.
    by apply elem_of_nil in Hrq.
  - destruct (create_payment_intent_returns _ _ _ _ _ _ _ _ Hi)
      as (d & id58 & sig58 & rest & Hp & -> & Hs3 & Hp3 & Hc3).
    apply intent_dict_inj in Hp. subst p.
    exists amt, t, d, id58, sig58. cbv zeta.
    unfold posts in Hrq, Hp1, Hp3.
    rewrite !omap_app, Hp1 in Hrq. cbn in Hrq. rewrite Hp3 in Hrq.
    apply list_elem_of_singleton in Hrq.
    unfold clock_readings, signed_messages in *.
    rewrite !omap_app, Hc1, Hs1. cbn. rewrite Hc3, Hs3.
    done.
Qed.

(** On an answer that is not a success, [submit_job] never returns; it
    raises the exception with the server's [message] when the body is a
    JSON object that has one, and the decoder's own error when the body
    does not parse. *)
Lemma post_outcome_rejected resp :
  ok resp = false ->
  (forall v, post_outcome env (inr resp) <> Returns v)
  /\ (forall d m,
        json resp = Some (PDict d) -> d !! "message" = Some m ->
        post_outcome env (inr resp)
        = Raises (Exception ("Job submission failed: " +:+ py_str env m)))
  /\ (json resp = None -> post_outcome env (inr resp) = Raises JSONDecodeError).
Proof.
  intros Hok. unfold post_outcome. rewrite Hok. cbn [negb].
  repeat split.
  - intros v. by destruct (json resp) as [[| | | | |d]|].
  - intros d m -> Hm. by rewrite Hm.
  - by intros ->.
Qed.

(** One evaluation of the loop condition and the iteration after it. *)
Lemma wait_loop_step fuel self job_id poll_interval max_wait start_time w :
  wait_loop env (S fuel) self job_id poll_interval max_wait start_time w =
  let (t, w1) := time_time env w in
  if float_lt_int (float_sub t start_time) max_wait
  then
    let (r, w2) := requests_get env (status_url self job_id) 10 w1 in
    match after_poll env r with
    | Some o => (o, w2, [EvTime t; EvGet (status_url self job_id) 10 r])
    | None =>
        if poll_interval <? 0
        then (Raises ValueError, w2,
              [EvTime t; EvGet (status_url self job_id) 10 r])
        else
          match wait_loop env fuel self job_id poll_interval max_wait
                  start_time (time_sleep env poll_interval w2) with
          | (o, w3, l) =>
              (o, w3,
               EvTime t :: EvGet (status_url self job_id) 10 r
                 :: EvSleep poll_interval :: l)
          end
    end
  else (Raises (timeout_error env job_id max_wait), w1, [EvTime t]).
Proof.
  cbn [wait_loop].
  unfold mbind, M_bind, bind, now_time, get_job_status, http_get, status_url.
  destruct (time_time env w) as [t w1].
  destruct (float_lt_int _ _); [|reflexivity].
  unfold mbind, M_bind, bind.
  destruct (requests_get env _ 10 w1) as [[e|resp] w2]; [reflexivity|].
  cbn [of_result after_poll].
  destruct (negb (ok resp)); [reflexivity|].
  unfold response_json.
  destruct (json resp) as [[| | | | |d]|]; try reflexivity.
  cbn [ret subscript]. unfold subscript.
  destruct (d !! "status") as [s|]; [|reflexivity].
  cbn [ret]. unfold mret, M_ret, ret.
  destruct (py_eq_str s "completed"); [reflexivity|].
  destruct (py_eq_str s "failed" || py_eq_str s "cancelled"); [reflexivity|].
  unfold sleep. destruct (poll_interval <? 0); [reflexivity|].
  destruct (wait_loop env fuel _ _ _ _ _ _) as [[o w3] l]. reflexivity.
Qed.

Lemma wait_loop_trace fuel self job_id poll_interval max_wait start_time :
  forall w o w' l,
    wait_loop env fuel self job_id poll_interval max_wait start_time w
      = (o, w', l) ->
    loop_trace env (status_url self job_id) job_id poll_interval max_wait
      start_time l o.
Proof.
  induction fuel as [|fuel IH]; intros w o w' l.
  - intros [= <- <- <-]. constructor.
  - rewrite wait_loop_step.
    destruct (time_time env w) as [t w1].
    destruct (float_lt_int _ _) eqn:Et.
    + destruct (requests_get env _ 10 w1) as [r w2].
      destruct (after_poll env r) as [o1|] eqn:Ep.
      * intros [= <- <- <-]. by apply trace_ended.
      * destruct (poll_interval <? 0) eqn:Es.
        -- intros [= <- <- <-]. apply trace_bad_sleep; [done..|lia].
        -- destruct (wait_loop env fuel _ _ _ _ _ _) as [[o3 w3] l3] eqn:Ew.
           intros [= <- <- <-]. apply trace_again; [done|done|lia|].
           eapply IH, Ew.
    + intros [= <- <- <-]. by apply trace_time_up.
Qed.

Lemma wait_for_completion_trace fuel self job_id poll_interval max_wait
    w o w' log :
  wait_for_completion env fuel self job_id poll_interval max_wait w
    = (o, w', log) ->
  exists start_time l,
    log = EvTime start_time :: l
    /\ loop_trace env (status_url self job_id) job_id (default 5 poll_interval)
         (default 300 max_wait) start_time l o.
Proof.
  unfold wait_for_completion, mbind, M_bind, bind, now_time.
  destruct (time_time env w) as [t0 w1].
  destruct (wait_loop env fuel _ _ _ _ _ w1) as [[o1 w2] l] eqn:E.
  apply wait_loop_trace in E.
  destruct o1; intros [= <- <- <-]; eauto.
Qed.

(** A poll that sees the job failed or cancelled ends the wait. *)
Lemma after_poll_terminated resp d s :
  ok resp = true -> json resp = Some (PDict d) ->
  d !! "status" = Some (PStr s) -> s = "failed" \/ s = "cancelled" ->
  after_poll env (inr resp)
  = Some (Raises (terminated_error env (PStr s)
                    (default (PStr "Unknown") (d !! "error")))).
Proof.
  intros Hok Hj Hs Hst. unfold after_poll. rewrite Hok, Hj, Hs.
  destruct Hst as [-> | ->]; reflexivity.
Qed.

Lemma loop_trace_terminated url job_id poll_interval max_wait start_time l o :
  loop_trace env url job_id poll_interval max_wait start_time l o ->
  forall (i : nat) resp d s,
    polls l !! i = Some (inr resp) ->
    ok resp = true -> json resp = Some (PDict d) ->
    d !! "status" = Some (PStr s) -> s = "failed" \/ s = "cancelled" ->
    o = Raises (terminated_error env (PStr s)
                  (default (PStr "Unknown") (d !! "error")))
    /\ S i = length (polls l)
    /\ last l = Some (EvGet url 10 (inr resp)).
Proof.
  induction 1 as [|t Ht|t r o Ht Hp|t r Ht Hp Hn|t r l o Ht Hp Hn Hl IH];
    intros i resp d s Hi Hok Hj Hs Hst; cbn in Hi.
  - done.
  - done.
  - destruct i as [|i]; [|done]. injection Hi as ->.
    rewrite (after_poll_terminated _ _ _ Hok Hj Hs Hst) in Hp.
    injection Hp as <-. done.
  - destruct i as [|i]; [|done]. injection Hi as ->.
    rewrite (after_poll_terminated _ _ _ Hok Hj Hs Hst) in Hp. done.
  - destruct i as [|i].
    + injection Hi as ->.
      rewrite (after_poll_terminated _ _ _ Hok Hj Hs Hst) in Hp. done.
    + destruct (IH i resp d s Hi Hok Hj Hs Hst) as (-> & Hlen & Hlast).
      split; [done|]. split; [cbn; by rewrite Hlen|].
      destruct l as [|ev l]; [done|]. exact Hlast.
Qed.


(** With an encoder that never raises, the signer is the only call that
    can make [create_payment_intent] fail: the call returns an intent, or
    it raises what the signer raised. *)
Lemma create_payment_intent_total self amt job_id expires_in w :
  (forall b, exists b58, base64_b58encode env b = inr b58) ->
  exists o w' log,
    create_payment_intent env self amt job_id expires_in w = (o, w', log)
    /\ ((exists p, o = Returns (intent_dict p))
        \/ (exists e m, o = Raises e
                        /\ signing_key_sign env m (datetime_utcnow env w).2
                           = (inl e, w'))).
Proof.
  intros Hb. rewrite create_payment_intent_run.
  destruct (datetime_utcnow env w) as [d w1]. cbv zeta. cbn [snd].
  destruct (signing_key_sign env _ w1) as [[e|sig] w2] eqn:Es.
  { eexists _, _, _. split; [reflexivity|]. right. eexists e, _. eauto. }
  destruct (Hb sig) as [sig58 ->].
  destruct (Hb (take 16 (hashlib_sha256 env
              (encode (canonical_message (public_key self) (py_str env amt)
                         job_id (isoformat d +:+ "Z")
                         (str_of_int (default 300 expires_in)))))))
    as [id58 ->].
  eexists _, _, _. split; [reflexivity|]. left. by eexists.
Qed.

(** With Python's own [base64] module the call stops at the first
    [base64.b58encode], after the message has been signed. *)
Lemma stdlib_base64_no_intent self amt job_id expires_in
    w d w1 sig w2 :
  (forall b, base64_b58encode env b = stdlib_base64_b58encode b) ->
  datetime_utcnow env w = (d, w1) ->
  let msg :=
    encode (canonical_message (public_key self) (py_str env amt) job_id
              (isoformat d +:+ "Z") (str_of_int (default 300 expires_in))) in
  signing_key_sign env msg w1 = (inr sig, w2) ->
  create_payment_intent env self amt job_id expires_in w
  = (Raises (AttributeError "b58encode"), w2,
     [EvUtcnow d; EvSign msg; EvB58encode sig]).
Proof.
  intros Hb Hd msg Hs. rewrite create_payment_intent_run, Hd. cbv zeta.
  fold msg. rewrite Hs, Hb. reflexivity.
Qed.

End Runs.

(** * The intent builder *)

Example demo_intent_run :
  create_payment_intent (demo_env (inl (LibraryError "post"))) demo_client
    (PInt 1000) "job_1" None 0%Q
  = (Returns (intent_dict demo_intent), 0%Q, demo_intent_log).
Proof. vm_compute. reflexivity. Qed.

(** C1. Whatever [create_payment_intent] signs or hashes is the message
    ["x402-payment:" + payer + ":" + amount + ":" + jobId + ":" +
    timestamp + ":" + expiresIn]; when it returns an intent, these are the
    intent's own fields, and the message is signed once and hashed once. *)
Theorem create_payment_intent_message :
  forall {W} (env : Env W) self amt job_id expires_in w o w' log,
    create_payment_intent env self amt job_id expires_in w = (o, w', log) ->
    exists ts,
      (forall m, m ∈ signed_messages log ++ hashed_messages log ->
         m = encode (canonical_message (public_key self) (py_str env amt)
                       job_id ts (str_of_int (default 300 expires_in))))
      /\ (forall v, o = Returns v ->
           exists p,
             v = intent_dict p
             /\ payer p = public_key self /\ amount p = amt
             /\ jobId p = job_id /\ timestamp p = ts
             /\ expiresIn p = default 300 expires_in
             /\ signed_messages log = [encode (message_of env p)]
             /\ hashed_messages log = [encode (message_of env p)]).
Proof.
  intros W env self amt job_id expires_in w o w' log.
  rewrite create_payment_intent_run.
  destruct (datetime_utcnow env w) as [d w1]. cbv zeta.
  destruct (signing_key_sign env _ w1) as [[e|sig] w2].
  { intros [= <- <- <-]. exists (isoformat d +:+ "Z").
    split; [|done]. intros m Hm. cbn in Hm. only_member Hm. }
  destruct (base64_b58encode env sig) as [e|sig58].
  { intros [= <- <- <-]. exists (isoformat d +:+ "Z").
    split; [|done]. intros m Hm. cbn in Hm. only_member Hm. }
  destruct (base64_b58encode env (take 16 _)) as [e|id58];
    intros [= <- <- <-]; exists (isoformat d +:+ "Z");
    (split; [intros m Hm; cbn in Hm; only_member Hm|]); [done|].
  intros v [= <-]. eexists. split; [reflexivity|]. repeat split.
Qed.

Lemma create_payment_intent_message_witness :
  exists ts,
    (forall m, m ∈ signed_messages demo_intent_log
                   ++ hashed_messages demo_intent_log ->
       m = encode (canonical_message "PAYER" "1000" "job_1" ts "300"))
    /\ (forall v, Returns (intent_dict demo_intent) = Returns v ->
         exists p,
           v = intent_dict p
           /\ payer p = "PAYER" /\ amount p = PInt 1000
           /\ jobId p = "job_1" /\ timestamp p = ts
           /\ expiresIn p = 300
           /\ signed_messages demo_intent_log
               = [encode (message_of (demo_env (inl (LibraryError "post"))) p)]
           /\ hashed_messages demo_intent_log
               = [encode (message_of (demo_env (inl (LibraryError "post"))) p)]).
Proof.
  apply (create_payment_intent_message (demo_env (inl (LibraryError "post")))
           demo_client (PInt 1000) "job_1" None 0%Q
           (Returns (intent_dict demo_intent)) 0%Q demo_intent_log).
  vm_compute. reflexivity.
Defined.

(** C2. [create_payment_intent(1000, "job_1")] with a signer that signs:
    the call does not return an intent, it raises [AttributeError] at
    [base64.b58encode], which the [base64] module does not have. *)
Theorem create_payment_intent_attribute_error :
  signing_key_sign stdlib_env demo_message 0%Q = (inr (encode "SIG"), 0%Q)
  /\ create_payment_intent stdlib_env demo_client (PInt 1000) "job_1" None 0%Q
     = (Raises (AttributeError "b58encode"), 0%Q,
        [EvUtcnow sample_dt; EvSign demo_message; EvB58encode (encode "SIG")]).
Proof. split; vm_compute; reflexivity. Qed.

(** ** The identifier *)

Example base58_hello :
  decode (base58_encode (encode "hello world")) = "StV1DL6CwTryKyV".
Proof. vm_compute. reflexivity. Qed.

Example base58_leading_zeros :
  decode (base58_encode (Byte.x00 :: Byte.x00 :: encode "abc")) = "11ZiCa".
Proof. vm_compute. reflexivity. Qed.

(** What the source goes for.  With an encoder that returns where it
    looks for [base64.b58encode], the identifier of a returned intent is
    the encoding, by the encoder that also encodes the signature, of the
    first 16 bytes of the hash of the intent's message; so two intents
    with the same payer, amount, jobId, timestamp and expiresIn have the
    same identifier, whatever the signers and the worlds they were built
    in. *)
Theorem intent_id_from_message_hash :
  forall {W1 W2} (env1 : Env W1) (env2 : Env W2) self1 self2 amt1 amt2
         job1 job2 exp1 exp2 w1 w2 p1 p2 w1' w2' log1 log2,
    create_payment_intent env1 self1 amt1 job1 exp1 w1
      = (Returns (intent_dict p1), w1', log1) ->
    create_payment_intent env2 self2 amt2 job2 exp2 w2
      = (Returns (intent_dict p2), w2', log2) ->
    (exists id58,
        base64_b58encode env1
          (take 16 (hashlib_sha256 env1 (encode (message_of env1 p1))))
        = inr id58
        /\ intent_id p1 = decode id58)
    /\ (base64_b58encode env1 = base64_b58encode env2 ->
        hashlib_sha256 env1 = hashlib_sha256 env2 ->
        container_str env1 = container_str env2 ->
        payer p1 = payer p2 -> amount p1 = amount p2 ->
        jobId p1 = jobId p2 -> timestamp p1 = timestamp p2 ->
        expiresIn p1 = expiresIn p2 ->
        intent_id p1 = intent_id p2).
Proof.
  assert (Hid : forall {W} (env : Env W) self amt job exp w p w' log,
             create_payment_intent env self amt job exp w
               = (Returns (intent_dict p), w', log) ->
             exists id58,
               base64_b58encode env
                 (take 16 (hashlib_sha256 env (encode (message_of env p))))
               = inr id58
               /\ intent_id p = decode id58).
  { intros W env self amt job exp w p w' log.
    rewrite create_payment_intent_run.
    destruct (datetime_utcnow env w) as [d w1]. cbv zeta.
    destruct (signing_key_sign env _ w1) as [[e|sig] w2]; [done|].
    destruct (base64_b58encode env sig) as [e|sig58]; [done|].
    destruct (base64_b58encode env (take 16 _)) as [e|id58] eqn:E; [done|].
    intros H. apply returns_intent_inv in H. subst p.
    exists id58. split; [exact E|reflexivity]. }
  intros W1 W2 env1 env2 self1 self2 amt1 amt2 job1 job2 exp1 exp2 w1 w2 p1 p2
    w1' w2' log1 log2 H1 H2.
  destruct (Hid _ _ _ _ _ _ _ _ _ _ H1) as (id1 & E1 & Hp1).
  destruct (Hid _ _ _ _ _ _ _ _ _ _ H2) as (id2 & E2 & Hp2).
  split; [by exists id1|].
  intros Hb Hh Hc Hpayer Hamount Hjob Hts Hexp.
  assert (message_of env1 p1 = message_of env2 p2) as Hm.
  { unfold message_of. rewrite Hpayer, Hamount, Hjob, Hts, Hexp.
    f_equal. destruct (amount p2); cbn; try reflexivity; by rewrite Hc. }
  rewrite Hb, Hh, Hm, E2 in E1. injection E1 as <-. congruence.
Qed.

Lemma intent_id_from_message_hash_witness :
  (exists id58,
      plain_b58encode (take 16 demo_message) = inr id58
      /\ intent_id demo_intent = decode id58)
  /\ signature demo_intent <> signature other_signer_intent
  /\ intent_id demo_intent = intent_id other_signer_intent.
Proof.
  destruct (intent_id_from_message_hash
              (demo_env (inl (LibraryError "post"))) other_signer_env
              demo_client demo_client (PInt 1000) (PInt 1000) "job_1" "job_1"
              None (Some 300) 0%Q 5%Q demo_intent other_signer_intent 0%Q 5%Q
              demo_intent_log
              [EvUtcnow sample_dt; EvSign demo_message;
               EvB58encode (encode "ANOTHER SIGNATURE");
               EvSha256 demo_message; EvB58encode (take 16 demo_message)])
    as [Hid Hsame].
  - vm_compute. reflexivity.
  - vm_compute. reflexivity.
  - split; [exact Hid|]. split; [discriminate|].
    apply Hsame; reflexivity.
Defined.

(** With a base-58 encoder in that place, the identifier is the one of
    the description. *)
Lemma intent_id_described {W} (env : Env W) self amt job_id expires_in
    w p w' log :
  (forall b, base64_b58encode env b = inr (base58_encode b)) ->
  create_payment_intent env self amt job_id expires_in w
    = (Returns (intent_dict p), w', log) ->
  intent_id p = described_intent_id env (message_of env p).
Proof.
  intros Hb. rewrite create_payment_intent_run.
  destruct (datetime_utcnow env w) as [d w1]. cbv zeta.
  destruct (signing_key_sign env _ w1) as [[e|sig] w2]; [done|].
  rewrite !Hb. intros H. apply returns_intent_inv in H. by subst p.
Qed.

(** C3. [create_payment_intent(1000, "job_1")] on a client whose key
    signs.  The description gives the intent an identifier: the base-58
    encoding of the first 16 bytes of the hash of its message.  The call
    gives it none: it raises [AttributeError] at its first
    [base64.b58encode], on the signature, before the message is hashed,
    and so it does whatever the amount, the job, the expiry and the
    world.  With a base-58 encoder where the source looks for
    [base64.b58encode], the same call returns the identifier of the
    description. *)
Theorem intent_id_not_made :
  described_intent_id stdlib_env
    "x402-payment:PAYER:1000:job_1:2024-01-02T03:04:05Z:300"
  = "Fqup3vCtrS8qxEuF4zzLXA"
  /\ create_payment_intent stdlib_env demo_client (PInt 1000) "job_1" None 0%Q
     = (Raises (AttributeError "b58encode"), 0%Q,
        [EvUtcnow sample_dt; EvSign demo_message; EvB58encode (encode "SIG")])
  /\ hashed_messages
       [EvUtcnow sample_dt; EvSign demo_message; EvB58encode (encode "SIG")]
     = []
  /\ (forall amt job_id expires_in w,
        exists log,
          create_payment_intent stdlib_env demo_client amt job_id expires_in w
          = (Raises (AttributeError "b58encode"), w, log)
          /\ hashed_messages log = [])
  /\ create_payment_intent base58_env demo_client (PInt 1000) "job_1" None 0%Q
     = (Returns (intent_dict
                   {| intent_id := "Fqup3vCtrS8qxEuF4zzLXA";
                      payer := "PAYER";
                      amount := PInt 1000;
                      jobId := "job_1";
                      timestamp := "2024-01-02T03:04:05Z";
                      expiresIn := 300;
                      signature := "UyYi" |}),
        0%Q,
        [EvUtcnow sample_dt; EvSign demo_message; EvB58encode (encode "SIG");
         EvSha256 demo_message; EvB58encode (take 16 demo_message)]).
Proof.
  split; [vm_compute; reflexivity|].
  split; [vm_compute; reflexivity|].
  split; [reflexivity|].
  split; [|vm_compute; reflexivity].
  intros amt job_id expires_in w. eexists. split.
  - apply (stdlib_base64_no_intent stdlib_env demo_client amt job_id
             expires_in w sample_dt w (encode "SIG") w); reflexivity.
  - reflexivity.
Qed.

(** ** The timestamp *)

(** C4, as stated, fails: read 123456 microseconds into the second, the
    clock gives a timestamp with six sub-second digits. *)
Lemma timestamp_with_microseconds :
  (datetime_utcnow microsecond_env 0%Q).1 = microsecond_dt
  /\ (create_payment_intent microsecond_env demo_client (PInt 1000) "job_1"
        None 0%Q).1.1
     = Returns (intent_dict microsecond_intent)
  /\ timestamp microsecond_intent = "2024-01-02T03:04:05.123456Z"
  /\ timestamp microsecond_intent <> second_precision_timestamp microsecond_dt.
Proof.
  split; [reflexivity|]. split; [vm_compute; reflexivity|].
  split; [reflexivity|]. vm_compute. discriminate.
Qed.

(** C4, amended. The timestamp of a returned intent is the clock reading
    in ISO-8601 format followed by [Z]; the format stops at the seconds
    when the reading has no microseconds, and otherwise goes on with a dot
    and the six digits of the microseconds. *)
Theorem timestamp_is_isoformat :
  forall {W} (env : Env W) self amt job_id expires_in w d w1 p w' log,
    datetime_utcnow env w = (d, w1) ->
    create_payment_intent env self amt job_id expires_in w
      = (Returns (intent_dict p), w', log) ->
    timestamp p = isoformat d +:+ "Z"
    /\ (microsecond d = 0%N -> timestamp p = second_precision_timestamp d)
    /\ (microsecond d <> 0%N ->
        timestamp p
        = (isoformat_seconds d +:+ "." +:+ zfill 6 (microsecond d)) +:+ "Z").
Proof.
  intros W env self amt job_id expires_in w d w1 p w' log Hd.
  rewrite create_payment_intent_run, Hd. cbv zeta.
  destruct (signing_key_sign env _ w1) as [[e|sig] w2]; [done|].
  destruct (base64_b58encode env sig) as [e|sig58]; [done|].
  destruct (base64_b58encode env (take 16 _)) as [e|id58]; [done|].
  intros H. apply returns_intent_inv in H. subst p. cbn [timestamp built_intent].
  split; [reflexivity|]. unfold isoformat, second_precision_timestamp.
  split; intros Hus.
  - by rewrite Hus.
  - apply N.eqb_neq in Hus. by rewrite Hus.
Qed.

Lemma timestamp_is_isoformat_witness :
  timestamp microsecond_intent = isoformat microsecond_dt +:+ "Z"
  /\ (microsecond microsecond_dt = 0%N ->
      timestamp microsecond_intent = second_precision_timestamp microsecond_dt)
  /\ (microsecond microsecond_dt <> 0%N ->
      timestamp microsecond_intent
      = (isoformat_seconds microsecond_dt +:+ "."
         +:+ zfill 6 (microsecond microsecond_dt)) +:+ "Z").
Proof.
  apply (timestamp_is_isoformat microsecond_env demo_client (PInt 1000)
           "job_1" None 0%Q microsecond_dt 0%Q microsecond_intent 0%Q
           [EvUtcnow microsecond_dt;
            EvSign (encode "x402-payment:PAYER:1000:job_1:2024-01-02T03:04:05.123456Z:300");
            EvB58encode (encode "SIG");
            EvSha256 (encode "x402-payment:PAYER:1000:job_1:2024-01-02T03:04:05.123456Z:300");
            EvB58encode (encode "x402-payment:PAY")]).
  - reflexivity.
  - vm_compute. reflexivity.
Defined.

(** * The status poller *)






(** The elapsed time is the difference of two doubles, rounded.  Read
    for the second time [1 - 2^-60] seconds after the first, the clock
    gives an elapsed time of [1.0], and a wait of one second is over
    before it has asked once. *)
Lemma late_first_check :
  (1 - two_to_minus_60 < 1)%Q
  /\ float_lt_int (float_sub 1 two_to_minus_60) 1 = false
  /\ wait_for_completion late_env 5 demo_client "job_1" (Some 1) (Some 1)
       two_to_minus_60
     = (Raises (timeout_error late_env "job_1" 1), 1%Q,
        [EvTime two_to_minus_60; EvTime 1]).
Proof. split; [reflexivity|]. split; vm_compute; reflexivity. Qed.

(** C8. When a status request of [wait_for_completion] is answered with
    the status [failed] or [cancelled], the wait ends there: it raises
    the exception that names this status and the error the server gave
    ([Unknown] when it gave none), and this request is the last call it
    made. *)
Theorem wait_for_completion_terminated :
  forall {W} (env : Env W) fuel self job_id poll_interval max_wait w o w' log
         (i : nat) resp d s,
    wait_for_completion env fuel self job_id poll_interval max_wait w
      = (o, w', log) ->
    polls log !! i = Some (inr resp) ->
    ok resp = true -> json resp = Some (PDict d) ->
    d !! "status" = Some (PStr s) -> s = "failed" \/ s = "cancelled" ->
    o = Raises (Exception ("Job " +:+ s +:+ ": "
                           +:+ py_str env (default (PStr "Unknown")
                                             (d !! "error"))))
    /\ S i = length (polls log)
    /\ last log = Some (EvGet (status_url self job_id) 10 (inr resp)).
Proof.
  intros W env fuel self job_id poll_interval max_wait w o w' log i resp d s
    Hrun Hi Hok Hj Hs Hst.
  apply wait_for_completion_trace in Hrun as (t0 & l & -> & Htr).
  cbn in Hi.
  destruct (loop_trace_terminated env _ _ _ _ _ _ _ Htr i resp d s
              Hi Hok Hj Hs Hst) as (-> & Hlen & Hlast).
  split; [reflexivity|]. split; [exact Hlen|].
  destruct l as [|ev l]; [done|]. exact Hlast.
Qed.

Lemma wait_for_completion_terminated_witness :
  @Raises pyval (Exception "Job failed: out of memory")
  = Raises (Exception ("Job " +:+ "failed" +:+ ": "
                       +:+ py_str failed_env
                             (default (PStr "Unknown")
                                (failed_status !! "error"))))
  /\ 1%nat = length (polls failed_log)
  /\ last failed_log
     = Some (EvGet (status_url demo_client "job_1") 10
               (inr (json_response (PDict failed_status)))).
Proof.
  apply (wait_for_completion_terminated failed_env 5 demo_client "job_1"
           None None 0%Q (Raises (Exception "Job failed: out of memory")) 0%Q
           failed_log 0 (json_response (PDict failed_status)) failed_status
           "failed").
  - vm_compute. reflexivity.
  - reflexivity.
  - reflexivity.
  - reflexivity.
  - reflexivity.
  - left. reflexivity.
Defined.

(** * The job submitter *)

Example demo_submit_run :
  submit_job (demo_env accepted) demo_client "inference_medium" demo_config
    demo_time
  = (Returns (PDict {[ "jobId" := PStr "job_1700000000";
                       "status" := PStr "pending" ]}),
     demo_time, demo_submit_log).
Proof. vm_compute. reflexivity. Qed.

Example demo_submit_posts : posts demo_submit_log = [demo_request].
Proof. vm_compute. reflexivity. Qed.

(** C6. A request sent by [submit_job] goes to [{api_url}/x402] with the
    submission [{payment, jobType, config}] as its JSON body, and its
    headers [X-Payment-Intent-ID], [X-Payer], [X-Payment-Signature],
    [X-Payment-Amount], [X-Job-ID], [X-Timestamp] and [X-Expires-In]
    repeat the fields [id], [payer], [signature], [amount], [jobId],
    [timestamp] and [expiresIn] of the payment in the body. *)
Theorem submit_job_request :
  forall {W} (env : Env W) self job_type config w o w' log rq,
    submit_job env self job_type config w = (o, w', log) ->
    rq ∈ posts log ->
    post_url rq = api_url self +:+ "/x402"
    /\ (exists p,
          post_body rq
          = PDict (submission_map (intent_dict p) job_type config))
    /\ header_mirrors env rq "X-Payment-Intent-ID" "id"
    /\ header_mirrors env rq "X-Payer" "payer"
    /\ header_mirrors env rq "X-Payment-Signature" "signature"
    /\ header_mirrors env rq "X-Payment-Amount" "amount"
    /\ header_mirrors env rq "X-Job-ID" "jobId"
    /\ header_mirrors env rq "X-Timestamp" "timestamp"
    /\ header_mirrors env rq "X-Expires-In" "expiresIn".
Proof.
  intros W env self job_type config w o w' log rq Hrun Hrq.
  destruct (submit_job_posts env _ _ _ _ _ _ _ _ Hrun Hrq)
    as (amt & t & d & id58 & sig58 & Hp).
  cbv zeta in Hp. destruct Hp as (-> & _ & _).
  set (p := built_intent _ _ _ _ _ _ _).
  split; [reflexivity|]. split; [by exists p|].
  unfold header_mirrors. cbn [post_body post_headers].
  repeat split; eexists; (split; [reflexivity|reflexivity]).
Qed.

Lemma submit_job_request_witness :
  post_url demo_request = api_url demo_client +:+ "/x402"
  /\ (exists p,
        post_body demo_request
        = PDict (submission_map (intent_dict p) "inference_medium" demo_config))
  /\ header_mirrors (demo_env accepted) demo_request "X-Payment-Intent-ID" "id"
  /\ header_mirrors (demo_env accepted) demo_request "X-Payer" "payer"
  /\ header_mirrors (demo_env accepted) demo_request
       "X-Payment-Signature" "signature"
  /\ header_mirrors (demo_env accepted) demo_request "X-Payment-Amount" "amount"
  /\ header_mirrors (demo_env accepted) demo_request "X-Job-ID" "jobId"
  /\ header_mirrors (demo_env accepted) demo_request "X-Timestamp" "timestamp"
  /\ header_mirrors (demo_env accepted) demo_request "X-Expires-In" "expiresIn".
Proof.
  apply (submit_job_request (demo_env accepted) demo_client "inference_medium"
           demo_config demo_time
           (Returns (PDict {[ "jobId" := PStr "job_1700000000";
                              "status" := PStr "pending" ]}))
           demo_time demo_submit_log demo_request).
  - vm_compute. reflexivity.
  - apply list_elem_of_singleton. vm_compute. reflexivity.
Defined.

(** ** A rejected submission *)

(** C7. A submission answered with a non-success status and the body
    [Internal Server Error]: [response.json()] raises, and the exception
    that leaves [submit_job] is the decoder's, not the
    ["Job submission failed: ..."] one with the raw body. *)
Theorem submit_job_unparseable_error_body :
  (submit_job (demo_env unparseable_error) demo_client "inference_medium"
     demo_config demo_time).1.1
  = Raises JSONDecodeError
  /\ @Raises pyval JSONDecodeError
     <> Raises (Exception "Job submission failed: Internal Server Error").
Proof. split; [vm_compute; reflexivity|discriminate]. Qed.

(** ** The job identifier *)

(** C9. The job identifier in a request of [submit_job] is ["job_"]
    followed by the whole seconds of the one reading of [time.time()]
    the run made; so two submissions whose readings have the same whole
    seconds carry the same job identifier. *)
Theorem job_id_from_clock_second :
  forall {W1 W2} (env1 : Env W1) (env2 : Env W2) self1 self2 type1 type2
         config1 config2 w1 w2 o1 o2 w1' w2' log1 log2 rq1 rq2,
    submit_job env1 self1 type1 config1 w1 = (o1, w1', log1) ->
    submit_job env2 self2 type2 config2 w2 = (o2, w2', log2) ->
    rq1 ∈ posts log1 -> rq2 ∈ posts log2 ->
    exists t1 t2,
      clock_readings log1 = [t1] /\ clock_readings log2 = [t2]
      /\ payment_field (post_body rq1) "jobId"
         = Some (PStr ("job_" +:+ str_of_int (int_of_float t1)))
      /\ payment_field (post_body rq2) "jobId"
         = Some (PStr ("job_" +:+ str_of_int (int_of_float t2)))
      /\ (int_of_float t1 = int_of_float t2 ->
          payment_field (post_body rq1) "jobId"
          = payment_field (post_body rq2) "jobId")
      /\ ((0 <= t1)%Q -> (0 <= t2)%Q -> Qfloor t1 = Qfloor t2 ->
          payment_field (post_body rq1) "jobId"
          = payment_field (post_body rq2) "jobId").
Proof.
  intros W1 W2 env1 env2 self1 self2 type1 type2 config1 config2 w1 w2 o1 o2
    w1' w2' log1 log2 rq1 rq2 Hrun1 Hrun2 Hrq1 Hrq2.
  destruct (submit_job_posts env1 _ _ _ _ _ _ _ _ Hrun1 Hrq1)
    as (amt1 & t1 & d1 & id1 & sig1 & Hp1).
  destruct (submit_job_posts env2 _ _ _ _ _ _ _ _ Hrun2 Hrq2)
    as (amt2 & t2 & d2 & id2 & sig2 & Hp2).
  cbv zeta in Hp1, Hp2.
  destruct Hp1 as (-> & Hc1 & _). destruct Hp2 as (-> & Hc2 & _).
  exists t1, t2. cbn [post_body]. rewrite !payment_field_submission.
  rewrite !lookup_intent_jobId. cbn [jobId built_intent].
  unfold job_id_of_time. cbn [py_str].
  repeat split; try done.
  - by intros ->.
  - intros H1 H2 Hf. rewrite !int_of_float_floor by done. by rewrite Hf.
Qed.

Lemma job_id_from_clock_second_witness :
  clock_readings demo_submit_log = [demo_time]
  /\ clock_readings later_submit_log = [later_time]
  /\ payment_field (post_body demo_request) "jobId"
     = Some (PStr "job_1700000000")
  /\ payment_field (post_body demo_request) "jobId"
     = payment_field (post_body later_request) "jobId".
Proof.
  destruct (job_id_from_clock_second (demo_env accepted) (demo_env accepted)
              demo_client demo_client "inference_medium" "inference_small"
              demo_config PNone demo_time later_time
              (Returns (PDict {[ "jobId" := PStr "job_1700000000";
                                 "status" := PStr "pending" ]}))
              (Returns (PDict {[ "jobId" := PStr "job_1700000000";
                                 "status" := PStr "pending" ]}))
              demo_time later_time demo_submit_log later_submit_log
              demo_request later_request)
    as (t1 & t2 & Hc1 & Hc2 & Hj1 & _ & Hsame & _).
  - vm_compute. reflexivity.
  - vm_compute. reflexivity.
  - apply list_elem_of_singleton. vm_compute. reflexivity.
  - apply list_elem_of_singleton. vm_compute. reflexivity.
  - vm_compute in Hc1, Hc2. injection Hc1 as <-. injection Hc2 as <-.
    split; [reflexivity|]. split; [reflexivity|].
    split; [exact Hj1|]. apply Hsame. vm_compute. reflexivity.
Defined.

(** * More of the client *)

(** [get_member H]: [H] says that a request with [GET] is in a log
    written out in full, and the goal is the address of the one such
    request of the log. *)
Ltac get_member H :=
  repeat (apply elem_of_cons in H as [H | H];
          [try discriminate H; by injection H as -> ? ?|]);
  by apply elem_of_nil in H.


(** ** The calls of a run, in full *)

Section Calls.

Context {W : Type} (env : Env W).

(** [get_pricing] makes one request and ends as the answer says. *)
Lemma get_pricing_run self job_type w :
  get_pricing env self job_type w =
  let (r, w1) := requests_get env (pricing_url self job_type) 10 w in
  (fetch_outcome "Failed to get pricing: " r, w1,
   [EvGet (pricing_url self job_type) 10 r]).
Proof.
  unfold get_pricing, pricing_url, mbind, M_bind, bind, http_get.
  destruct job_type as [jt|]; [destruct (bool_decide (jt = ""))|];
    (destruct (requests_get env _ 10 w) as [[e|resp] w1];
     cbn [of_result fetch_outcome]; [reflexivity|];
     unfold raise, response_json, ret;
     destruct (negb (ok resp)); [reflexivity|];
     destruct (json resp); reflexivity).
Qed.

(** [get_job_status] makes one request and ends as the answer says. *)
Lemma get_job_status_run self job_id w :
  get_job_status env self job_id w =
  let (r, w1) := requests_get env (status_url self job_id) 10 w in
  (fetch_outcome "Failed to get job status: " r, w1,
   [EvGet (status_url self job_id) 10 r]).
Proof.
  unfold get_job_status, status_url, mbind, M_bind, bind, http_get.
  destruct (requests_get env _ 10 w) as [[e|resp] w1];
    cbn [of_result fetch_outcome]; [reflexivity|].
  unfold raise, response_json, ret.
  destruct (negb (ok resp)); [reflexivity|].
  destruct (json resp); reflexivity.
Qed.

(** The eight calls of [submit_job], one after the other. *)
Lemma submit_job_calls self job_type config w :
  submit_job env self job_type config w =
  let url := pricing_url self (Some job_type) in
  let (r0, w1) := requests_get env url 10 w in
  match pricing_amount r0 with
  | inl e => (Raises e, w1, [EvGet url 10 r0])
  | inr amt =>
      let (t, w2) := time_time env w1 in
      let (d, w3) := datetime_utcnow env w2 in
      let job := job_id_of_time env t in
      let msg :=
        encode (canonical_message (public_key self) (py_str env amt) job
                  (isoformat d +:+ "Z") (str_of_int 300)) in
      let (rs, w4) := signing_key_sign env msg w3 in
      match rs with
      | inl e =>
          (Raises e, w4, [EvGet url 10 r0; EvTime t; EvUtcnow d; EvSign msg])
      | inr sig =>
          match base64_b58encode env sig with
          | inl e =>
              (Raises e, w4,
               [EvGet url 10 r0; EvTime t; EvUtcnow d; EvSign msg;
                EvB58encode sig])
          | inr sig58 =>
              let h := take 16 (hashlib_sha256 env msg) in
              match base64_b58encode env h with
              | inl e =>
                  (Raises e, w4,
                   [EvGet url 10 r0; EvTime t; EvUtcnow d; EvSign msg;
                    EvB58encode sig; EvSha256 msg; EvB58encode h])
              | inr id58 =>
                  let p := built_intent self amt job None d id58 sig58 in
                  let body :=
                    PDict (submission_map (intent_dict p) job_type config) in
                  let (r, w5) :=
                    requests_post env (api_url self +:+ "/x402") body
                      (submit_headers env p) 30 w4 in
                  (post_outcome env r, w5,
                   [EvGet url 10 r0; EvTime t; EvUtcnow d; EvSign msg;
                    EvB58encode sig; EvSha256 msg; EvB58encode h;
                    EvPost (api_url self +:+ "/x402") body
                      (submit_headers env p) 30 r])
              end
          end
      end
  end.
Proof.
  unfold submit_job.
  unfold mbind at 1, M_bind at 1, bind at 1. rewrite get_pricing_run.
  cbv zeta.
  destruct (requests_get env _ 10 w) as [r0 w1].
  unfold pricing_amount.
  destruct (fetch_outcome _ r0) as [pricing|e|] eqn:Ef; [|reflexivity|].
  2: { exfalso. destruct r0 as [e|resp]; [done|]. cbn in Ef.
       destruct (negb (ok resp)); [done|]. by destruct (json resp). }
  unfold mbind at 1, M_bind at 1, bind at 1.
  unfold subscript at 1.
  destruct pricing as [| | | | |pd]; try reflexivity.
  destruct (pd !! "minimumPayment") as [amt|]; [|reflexivity].
  cbn [ret].
  unfold mbind at 1, M_bind at 1, bind at 1. unfold now_time at 1.
  destruct (time_time env w1) as [t w2].
  unfold mbind at 1, M_bind at 1, bind at 1.
  rewrite create_payment_intent_run.
  destruct (datetime_utcnow env w2) as [d w3]. cbv zeta.
  destruct (signing_key_sign env _ w3) as [[e|sig] w4]; [reflexivity|].
  destruct (base64_b58encode env sig) as [e|sig58]; [reflexivity|].
  destruct (base64_b58encode env (take 16 _)) as [e|id58]; [reflexivity|].
  set (p := built_intent _ _ _ _ _ _ _).
  rewrite (bind_subscript_intent p _ _ _ _ (lookup_intent_id p)).
  rewrite (bind_subscript_intent p _ _ _ _ (lookup_intent_payer p)).
  rewrite (bind_subscript_intent p _ _ _ _ (lookup_intent_signature p)).
  rewrite (bind_subscript_intent p _ _ _ _ (lookup_intent_amount p)).
  rewrite (bind_subscript_intent p _ _ _ _ (lookup_intent_jobId p)).
  rewrite (bind_subscript_intent p _ _ _ _ (lookup_intent_timestamp p)).
  rewrite (bind_subscript_intent p _ _ _ _ (lookup_intent_expiresIn p)).
  unfold mbind, M_bind, bind, http_post.
  destruct (requests_post env _ _ _ 30 w4) as [r w5].
  unfold post_outcome. destruct r as [e|resp]; cbn [of_result]; [reflexivity|].
  unfold response_json, dict_get, raise, ret.
  destruct (negb (ok resp)); destruct (json resp) as [[| | | | |dd]|];
    reflexivity.
Qed.

End Calls.

(** ** The expiry *)

(** C10. [submit_job] builds its intent by calling
    [create_payment_intent] with the amount of the pricing and the job
    identifier made from the clock, and with no expiry: once the pricing
    has given an amount and the clock is read, the run goes on as this
    call does.  When the call raises, the run raises the same; when it
    returns an intent, the intent carries the default [expiresIn = 300]
    and the run sends it, as the payment of its one request, with [300]
    in the header [X-Expires-In].  So every message a run has signed ends
    in [:300], and every request it has sent carries [expiresIn = 300]. *)
Theorem submit_job_expires_in_300 :
  forall {W} (env : Env W) self job_type config w o w' log,
    submit_job env self job_type config w = (o, w', log) ->
    (forall m, m ∈ signed_messages log ->
       exists payer amt job ts,
         m = encode (canonical_message payer amt job ts "300"))
    /\ (forall rq, rq ∈ posts log ->
         payment_field (post_body rq) "expiresIn" = Some (PInt 300)
         /\ post_headers rq !! "X-Expires-In" = Some (PStr "300"))
    /\ (forall resp w1 d amt t w2 oi wi li,
          requests_get env (pricing_url self (Some job_type)) 10 w
            = (inr resp, w1) ->
          ok resp = true -> json resp = Some (PDict d) ->
          d !! "minimumPayment" = Some amt ->
          time_time env w1 = (t, w2) ->
          create_payment_intent env self amt (job_id_of_time env t) None w2
            = (oi, wi, li) ->
          (forall e, oi = Raises e ->
             o = Raises e
             /\ log = EvGet (pricing_url self (Some job_type)) 10 (inr resp)
                      :: EvTime t :: li)
          /\ (forall v, oi = Returns v ->
               exists p r,
                 v = intent_dict p /\ expiresIn p = 300
                 /\ submit_headers env p !! "X-Expires-In" = Some (PStr "300")
                 /\ log
                    = EvGet (pricing_url self (Some job_type)) 10 (inr resp)
                      :: EvTime t
                      :: li
                      ++ [EvPost (api_url self +:+ "/x402")
                            (PDict (submission_map v job_type config))
                            (submit_headers env p) 30 r]
                 /\ o = post_outcome env r)).
Proof.
  intros W env self job_type config w o w' log Hrun. split_and!.
  - intros m Hm.
    apply submit_job_run in Hrun
      as [(Hs & _)
         | [(amt & t & w2 & e & l1 & l3 & Hi & -> & Hs1 & _)
           | (amt & t & w2 & p & w3 & l1 & l3 & r & Hi & -> & Hs1 & _)]].
    + rewrite Hs in Hm. by apply elem_of_nil in Hm.
    + apply create_payment_intent_log in Hi as (d & rest & -> & Hs3 & _).
      unfold signed_messages in Hm, Hs1, Hs3.
      rewrite !omap_app, Hs1 in Hm. cbn in Hm. rewrite Hs3 in Hm.
      apply list_elem_of_singleton in Hm. subst m.
      by eexists _, _, _, _.
    + apply create_payment_intent_log in Hi as (d & rest & -> & Hs3 & _).
      unfold signed_messages in Hm, Hs1, Hs3.
      rewrite !omap_app, Hs1 in Hm. cbn in Hm. rewrite Hs3 in Hm.
      apply list_elem_of_singleton in Hm. subst m.
      by eexists _, _, _, _.
  - intros rq Hrq.
    destruct (submit_job_posts env _ _ _ _ _ _ _ _ Hrun Hrq)
      as (amt & t & d & id58 & sig58 & Hp).
    cbv zeta in Hp. destruct Hp as (-> & _ & _). split; reflexivity.
  - intros resp w1 d amt t w2 oi wi li Hget Hok Hj Hd Ht Hi.
    rewrite submit_job_calls in Hrun. cbv zeta in Hrun.
    rewrite Hget in Hrun.
    assert (pricing_amount (inr resp) = inr amt) as Hpa.
    { unfold pricing_amount, fetch_outcome. rewrite Hok. cbn [negb].
      by rewrite Hj, Hd. }
    rewrite Hpa, Ht in Hrun.
    rewrite create_payment_intent_run in Hi.
    change (default 300 None) with 300 in Hi.
    destruct (datetime_utcnow env w2) as [dt w3]. cbv zeta in Hi.
    destruct (signing_key_sign env _ w3) as [[e|sig] w4].
    { injection Hi as <- <- <-. injection Hrun as <- <- <-.
      split; [by intros e' [= <-]|done]. }
    destruct (base64_b58encode env sig) as [e|sig58].
    { injection Hi as <- <- <-. injection Hrun as <- <- <-.
      split; [by intros e' [= <-]|done]. }
    destruct (base64_b58encode env (take 16 _)) as [e|id58].
    { injection Hi as <- <- <-. injection Hrun as <- <- <-.
      split; [by intros e' [= <-]|done]. }
    destruct (requests_post env _ _ _ 30 w4) as [r w5].
    injection Hi as <- <- <-. injection Hrun as <- <- <-.
    split; [done|]. intros v [= <-].
    eexists _, r. by split_and!.
Qed.

Lemma submit_job_expires_in_300_witness :
  exists p r,
    intent_dict demo_submit_intent = intent_dict p /\ expiresIn p = 300
    /\ submit_headers (demo_env accepted) p !! "X-Expires-In"
       = Some (PStr "300")
    /\ demo_submit_log
       = EvGet (pricing_url demo_client (Some "inference_medium")) 10
           (inr (pricing_response 1000))
         :: EvTime demo_time
         :: demo_submit_intent_log
         ++ [EvPost (api_url demo_client +:+ "/x402")
               (PDict (submission_map (intent_dict demo_submit_intent)
                         "inference_medium" demo_config))
               (submit_headers (demo_env accepted) p) 30 r]
    /\ Returns (PDict {[ "jobId" := PStr "job_1700000000";
                         "status" := PStr "pending" ]})
       = post_outcome (demo_env accepted) r.
Proof.
  destruct (submit_job_expires_in_300 (demo_env accepted) demo_client
              "inference_medium" demo_config demo_time
              (Returns (PDict {[ "jobId" := PStr "job_1700000000";
                                 "status" := PStr "pending" ]}))
              demo_time demo_submit_log) as (_ & _ & H).
  { vm_compute. reflexivity. }
  destruct (H (pricing_response 1000) demo_time
              {[ "minimumPayment" := PInt 1000 ]} (PInt 1000) demo_time
              demo_time (Returns (intent_dict demo_submit_intent)) demo_time
              demo_submit_intent_log) as [_ Hret].
  - reflexivity.
  - reflexivity.
  - reflexivity.
  - reflexivity.
  - reflexivity.
  - vm_compute. reflexivity.
  - exact (Hret _ eq_refl).
Defined.

(** ** Pricing and status requests *)

(** X1. [get_pricing] makes exactly one request, with a ten second
    timeout: to [{api_url}/x402/pricing], with [?jobType=] and the job
    type appended when one is given and it is not the empty string.  An
    answer that is not a success ends the call with the exception
    ["Failed to get pricing: "] followed by the raw body, whether or not
    the body is JSON. *)
Theorem get_pricing_request :
  forall {W} (env : Env W) self job_type w o w' log,
    get_pricing env self job_type w = (o, w', log) ->
    exists r,
      log = [EvGet (pricing_url self job_type) 10 r]
      /\ (job_type = None \/ job_type = Some "" ->
          pricing_url self job_type = api_url self +:+ "/x402/pricing")
      /\ (forall jt, job_type = Some jt -> jt <> "" ->
          pricing_url self job_type
          = (api_url self +:+ "/x402/pricing") +:+ "?jobType=" +:+ jt)
      /\ (forall resp, r = inr resp -> ok resp = false ->
          o = Raises (Exception ("Failed to get pricing: " +:+ text resp))).
Proof.
  intros W env self job_type w o w' log. rewrite get_pricing_run.
  destruct (requests_get env _ 10 w) as [r w1]. intros [= <- <- <-].
  exists r. split; [reflexivity|]. split; [|split].
  - by intros [-> | ->].
  - intros jt -> Hjt. unfold pricing_url. by rewrite bool_decide_eq_false_2.
  - intros resp -> Hok. cbn. by rewrite Hok.
Qed.

Lemma get_pricing_request_witness :
  exists r,
    [EvGet "http://localhost:3000/api/x402/pricing?jobType=inference_medium"
       10 (inr unavailable)]
    = [EvGet (pricing_url demo_client (Some "inference_medium")) 10 r]
    /\ (Some "inference_medium" = None \/ Some "inference_medium" = Some "" ->
        pricing_url demo_client (Some "inference_medium")
        = api_url demo_client +:+ "/x402/pricing")
    /\ (forall jt, Some "inference_medium" = Some jt -> jt <> "" ->
        pricing_url demo_client (Some "inference_medium")
        = (api_url demo_client +:+ "/x402/pricing") +:+ "?jobType=" +:+ jt)
    /\ (forall resp, r = inr resp -> ok resp = false ->
        @Raises pyval (Exception "Failed to get pricing: Service Unavailable")
        = Raises (Exception ("Failed to get pricing: " +:+ text resp))).
Proof.
  apply (get_pricing_request down_env demo_client (Some "inference_medium")
           0%Q (Raises (Exception "Failed to get pricing: Service Unavailable"))
           0%Q).
  vm_compute. reflexivity.
Defined.

(** X2. [get_job_status] makes exactly one request, to
    [{api_url}/x402/jobs/{job_id}] with a ten second timeout.  An answer
    that is not a success ends it with ["Failed to get job status: "]
    followed by the raw body; a success whose body is not JSON ends it
    with the decoder's exception; otherwise the parsed body is returned
    as it is. *)
Theorem get_job_status_request :
  forall {W} (env : Env W) self job_id w o w' log,
    get_job_status env self job_id w = (o, w', log) ->
    exists r,
      log = [EvGet (api_url self +:+ "/x402/jobs/" +:+ job_id) 10 r]
      /\ (forall e, r = inl e -> o = Raises e)
      /\ (forall resp, r = inr resp -> ok resp = false ->
          o = Raises (Exception ("Failed to get job status: " +:+ text resp)))
      /\ (forall resp, r = inr resp -> ok resp = true -> json resp = None ->
          o = Raises JSONDecodeError)
      /\ (forall resp v, r = inr resp -> ok resp = true -> json resp = Some v ->
          o = Returns v).
Proof.
  intros W env self job_id w o w' log. rewrite get_job_status_run.
  destruct (requests_get env _ 10 w) as [r w1]. intros [= <- <- <-].
  exists r. split; [reflexivity|]. repeat split.
  - by intros e ->.
  - intros resp -> Hok. cbn. by rewrite Hok.
  - intros resp -> Hok Hj. cbn. by rewrite Hok, Hj.
  - intros resp v -> Hok Hj. cbn. by rewrite Hok, Hj.
Qed.

Lemma get_job_status_request_witness :
  exists r,
    [EvGet "http://localhost:3000/api/x402/jobs/job_1" 10 (inr unavailable)]
    = [EvGet (api_url demo_client +:+ "/x402/jobs/" +:+ "job_1") 10 r]
    /\ (forall e, r = inl e ->
        @Raises pyval (Exception "Failed to get job status: Service Unavailable")
        = Raises e)
    /\ (forall resp, r = inr resp -> ok resp = false ->
        @Raises pyval (Exception "Failed to get job status: Service Unavailable")
        = Raises (Exception ("Failed to get job status: " +:+ text resp)))
    /\ (forall resp, r = inr resp -> ok resp = true -> json resp = None ->
        @Raises pyval (Exception "Failed to get job status: Service Unavailable")
        = Raises JSONDecodeError)
    /\ (forall resp v, r = inr resp -> ok resp = true -> json resp = Some v ->
        @Raises pyval (Exception "Failed to get job status: Service Unavailable")
        = Returns v).
Proof.
  apply (get_job_status_request down_env demo_client "job_1" 0%Q
           (Raises (Exception "Failed to get job status: Service Unavailable"))
           0%Q).
  vm_compute. reflexivity.
Defined.

(** ** The calls of a submission *)

Section Submission.

Context {W : Type} (env : Env W).

Lemma pricing_amount_inr r amt :
  pricing_amount r = inr amt ->
  exists resp d,
    r = inr resp /\ ok resp = true /\ json resp = Some (PDict d)
    /\ d !! "minimumPayment" = Some amt.
Proof.
  unfold pricing_amount, fetch_outcome.
  destruct r as [e|resp]; [done|].
  destruct (ok resp) eqn:Hok; cbn [negb]; [|done].
  destruct (json resp) as [[| | | | |d]|] eqn:Hj; try done.
  destruct (d !! "minimumPayment") as [a|] eqn:Hd; [|done].
  intros [= <-]. by exists resp, d.
Qed.

(** A run of [submit_job] that sent a request, call by call. *)
Lemma submit_job_posted self job_type config w o w' log rq :
  submit_job env self job_type config w = (o, w', log) ->
  rq ∈ posts log ->
  exists r0 w1 amt t w2 d w3 sig w4 sig58 id58 r,
    let url := pricing_url self (Some job_type) in
    let p := built_intent self amt (job_id_of_time env t) None d id58 sig58 in
    let msg := encode (message_of env p) in
    let h := take 16 (hashlib_sha256 env msg) in
    requests_get env url 10 w = (r0, w1)
    /\ pricing_amount r0 = inr amt
    /\ time_time env w1 = (t, w2)
    /\ datetime_utcnow env w2 = (d, w3)
    /\ signing_key_sign env msg w3 = (inr sig, w4)
    /\ base64_b58encode env sig = inr sig58
    /\ base64_b58encode env h = inr id58
    /\ requests_post env (api_url self +:+ "/x402")
         (PDict (submission_map (intent_dict p) job_type config))
         (submit_headers env p) 30 w4 = (r, w')
    /\ rq = {| post_url := api_url self +:+ "/x402";
               post_body :=
                 PDict (submission_map (intent_dict p) job_type config);
               post_headers := submit_headers env p;
               post_timeout := 30 |}
    /\ log = [EvGet url 10 r0; EvTime t; EvUtcnow d; EvSign msg;
              EvB58encode sig; EvSha256 msg; EvB58encode h;
              EvPost (post_url rq) (post_body rq) (post_headers rq) 30 r]
    /\ o = post_outcome env r.
Proof.
  rewrite submit_job_calls. cbv zeta.
  destruct (requests_get env _ 10 w) as [r0 w1] eqn:E0.
  destruct (pricing_amount r0) as [e|amt] eqn:Ea.
  { intros [= <- <- <-] H. cbn in H. by apply elem_of_nil in H. }
  destruct (time_time env w1) as [t w2] eqn:Et.
  destruct (datetime_utcnow env w2) as [d w3] eqn:Ed.
  destruct (signing_key_sign env _ w3) as [[e|sig] w4] eqn:Es.
  { intros [= <- <- <-] H. cbn in H. by apply elem_of_nil in H. }
  destruct (base64_b58encode env sig) as [e|sig58] eqn:E1.
  { intros [= <- <- <-] H. cbn in H. by apply elem_of_nil in H. }
  destruct (base64_b58encode env (take 16 _)) as [e|id58] eqn:E2.
  { intros [= <- <- <-] H. cbn in H. by apply elem_of_nil in H. }
  destruct (requests_post env _ _ _ 30 w4) as [r w5] eqn:Ep.
  intros [= <- <- <-] H. cbn in H. apply list_elem_of_singleton in H.
  subst rq. exists r0, w1, amt, t, w2, d, w3, sig, w4, sig58, id58, r.
  repeat split; assumption.
Qed.

(** What a run of [submit_job] makes of the answer to its request. *)
Lemma submit_job_answer self job_type config w o w' log url body headers
    timeout r :
  submit_job env self job_type config w = (o, w', log) ->
  last log = Some (EvPost url body headers timeout r) ->
  o = post_outcome env r.
Proof.
  intros Hrun Hlast.
  assert (Hin : {| post_url := url; post_body := body;
                   post_headers := headers; post_timeout := timeout |}
                ∈ posts log).
  { destruct (list_eq_nil_dec log) as [-> | Hne]; [done|].
    destruct (exists_last Hne) as (l & ev & ->).
    rewrite last_snoc in Hlast. injection Hlast as ->.
    rewrite posts_app. apply elem_of_app. right. cbn. by apply list_elem_of_singleton. }
  destruct (submit_job_posted _ _ _ _ _ _ _ _ Hrun Hin)
    as (r0 & w1 & amt & t & w2 & d & w3 & sig & w4 & sig58 & id58 & r' & H).
  cbv zeta in H. destruct H as (_ & _ & _ & _ & _ & _ & _ & _ & _ & Hlog & ->).
  rewrite Hlog in Hlast. cbn in Hlast.
  assert (Some r' = Some r) as [= ->]; [|reflexivity].
  exact (f_equal (fun o => match o with
                           | Some (EvPost _ _ _ _ x) => Some x
                           | _ => None
                           end) Hlast).
Qed.

End Submission.

(** X3. A run of [submit_job] sends at most one request to [/x402], and
    when it sends it, it has made exactly eight calls, in this order: the
    pricing request, [time.time()] for the job identifier,
    [datetime.utcnow()] for the timestamp, the signer, the encoder on the
    signature, the hash, the encoder on the identifier, and the
    submission last. *)
Theorem submit_job_call_order :
  forall {W} (env : Env W) self job_type config w o w' log,
    submit_job env self job_type config w = (o, w', log) ->
    (length (posts log) <= 1)%nat
    /\ (forall rq, rq ∈ posts log ->
        exists r0 t d msg sig h r,
          log = [EvGet (pricing_url self (Some job_type)) 10 r0;
                 EvTime t; EvUtcnow d; EvSign msg; EvB58encode sig;
                 EvSha256 msg; EvB58encode h;
                 EvPost (post_url rq) (post_body rq) (post_headers rq) 30 r]).
Proof.
  intros W env self job_type config w o w' log Hrun. split.
  - revert Hrun. rewrite submit_job_calls. cbv zeta.
    destruct (requests_get env _ 10 w) as [r0 w1].
    destruct (pricing_amount r0) as [e|amt].
    { intros [= <- <- <-]. cbn. lia. }
    destruct (time_time env w1) as [t w2].
    destruct (datetime_utcnow env w2) as [d w3].
    destruct (signing_key_sign env _ w3) as [[e|sig] w4].
    { intros [= <- <- <-]. cbn. lia. }
    destruct (base64_b58encode env sig) as [e|sig58].
    { intros [= <- <- <-]. cbn. lia. }
    destruct (base64_b58encode env (take 16 _)) as [e|id58].
    { intros [= <- <- <-]. cbn. lia. }
    destruct (requests_post env _ _ _ 30 w4) as [r w5].
    intros [= <- <- <-]. cbn. lia.
  - intros rq Hrq.
    destruct (submit_job_posted env _ _ _ _ _ _ _ _ Hrun Hrq)
      as (r0 & w1 & amt & t & w2 & d & w3 & sig & w4 & sig58 & id58 & r & H).
    cbv zeta in H. destruct H as (_ & _ & _ & _ & _ & _ & _ & _ & _ & Hlog & _).
    by eexists r0, t, d, _, sig, _, r.
Qed.

Lemma submit_job_call_order_witness :
  (length (posts demo_submit_log) <= 1)%nat
  /\ (forall rq, rq ∈ posts demo_submit_log ->
      exists r0 t d msg sig h r,
        demo_submit_log
        = [EvGet (pricing_url demo_client (Some "inference_medium")) 10 r0;
           EvTime t; EvUtcnow d; EvSign msg; EvB58encode sig;
           EvSha256 msg; EvB58encode h;
           EvPost (post_url rq) (post_body rq) (post_headers rq) 30 r]).
Proof.
  apply (submit_job_call_order (demo_env accepted) demo_client
           "inference_medium" demo_config demo_time
           (Returns (PDict {[ "jobId" := PStr "job_1700000000";
                              "status" := PStr "pending" ]}))
           demo_time demo_submit_log).
  vm_compute. reflexivity.
Defined.

(** X4. The amount of a submission is the [minimumPayment] of the answer
    to its pricing request: the first call of the run is the pricing
    request for the job type, answered with an object, and the amount in
    the payment of the body and in the header [X-Payment-Amount] is that
    object's [minimumPayment]. *)
Theorem submit_job_amount_from_pricing :
  forall {W} (env : Env W) self job_type config w o w' log rq,
    submit_job env self job_type config w = (o, w', log) ->
    rq ∈ posts log ->
    exists resp d amt,
      head log
      = Some (EvGet (pricing_url self (Some job_type)) 10 (inr resp))
      /\ ok resp = true /\ json resp = Some (PDict d)
      /\ d !! "minimumPayment" = Some amt
      /\ payment_field (post_body rq) "amount" = Some amt
      /\ post_headers rq !! "X-Payment-Amount" = Some (PStr (py_str env amt)).
Proof.
  intros W env self job_type config w o w' log rq Hrun Hrq.
  destruct (submit_job_posted env _ _ _ _ _ _ _ _ Hrun Hrq)
    as (r0 & w1 & amt & t & w2 & d & w3 & sig & w4 & sig58 & id58 & r & H).
  cbv zeta in H.
  destruct H as (_ & Ha & _ & _ & _ & _ & _ & _ & -> & -> & _).
  apply pricing_amount_inr in Ha as (resp & pd & -> & Hok & Hj & Hd).
  exists resp, pd, amt. repeat split; done.
Qed.

Lemma submit_job_amount_from_pricing_witness :
  exists resp d amt,
    head demo_submit_log
    = Some (EvGet (pricing_url demo_client (Some "inference_medium")) 10
              (inr resp))
    /\ ok resp = true /\ json resp = Some (PDict d)
    /\ d !! "minimumPayment" = Some amt
    /\ payment_field (post_body demo_request) "amount" = Some amt
    /\ post_headers demo_request !! "X-Payment-Amount"
       = Some (PStr (py_str (demo_env accepted) amt)).
Proof.
  apply (submit_job_amount_from_pricing (demo_env accepted) demo_client
           "inference_medium" demo_config demo_time
           (Returns (PDict {[ "jobId" := PStr "job_1700000000";
                              "status" := PStr "pending" ]}))
           demo_time demo_submit_log demo_request).
  - vm_compute. reflexivity.
  - apply list_elem_of_singleton. vm_compute. reflexivity.
Defined.

(** X5. When the pricing answer is a success but gives no
    [minimumPayment], [submit_job] raises [KeyError] for that key, and
    when it is JSON but not an object, [TypeError]; in both cases the
    pricing request is the only call it has made: nothing is signed and
    nothing is submitted. *)
Theorem submit_job_missing_price :
  forall {W} (env : Env W) self job_type config w resp w1 v,
    requests_get env (pricing_url self (Some job_type)) 10 w
      = (inr resp, w1) ->
    ok resp = true -> json resp = Some v ->
    (forall d, v = PDict d -> d !! "minimumPayment" = None ->
       submit_job env self job_type config w
       = (Raises (KeyError "minimumPayment"), w1,
          [EvGet (pricing_url self (Some job_type)) 10 (inr resp)]))
    /\ ((forall d, v <> PDict d) ->
        submit_job env self job_type config w
        = (Raises TypeError, w1,
           [EvGet (pricing_url self (Some job_type)) 10 (inr resp)])).
Proof.
  intros W env self job_type config w resp w1 v Hget Hok Hj.
  rewrite submit_job_calls. cbv zeta. rewrite Hget.
  unfold pricing_amount, fetch_outcome. rewrite Hok, Hj. cbn [negb]. split.
  - intros d -> Hd. by rewrite Hd.
  - intros Hv. destruct v as [| | | | |d]; try reflexivity.
    by destruct (Hv d).
Qed.

Lemma submit_job_missing_price_witness :
  (forall d, PDict {[ "jobType" := PStr "inference_medium" ]} = PDict d ->
     d !! "minimumPayment" = None ->
     submit_job no_price_env demo_client "inference_medium" demo_config
       demo_time
     = (Raises (KeyError "minimumPayment"), demo_time,
        [EvGet (pricing_url demo_client (Some "inference_medium")) 10
           (inr no_price)]))
  /\ ((forall d, PDict {[ "jobType" := PStr "inference_medium" ]} <> PDict d) ->
      submit_job no_price_env demo_client "inference_medium" demo_config
        demo_time
      = (Raises TypeError, demo_time,
         [EvGet (pricing_url demo_client (Some "inference_medium")) 10
            (inr no_price)])).
Proof.
  apply (submit_job_missing_price no_price_env demo_client "inference_medium"
           demo_config demo_time no_price demo_time
           (PDict {[ "jobType" := PStr "inference_medium" ]}));
    reflexivity.
Defined.

(** X6. When the pricing request fails, [submit_job] ends with the
    failure of [get_pricing] (the exception of the HTTP library, or
    ["Failed to get pricing: "] and the raw body for an answer that is
    not a success), and the pricing request is the only call it has
    made. *)
Theorem submit_job_pricing_fails :
  forall {W} (env : Env W) self job_type config w r w1,
    requests_get env (pricing_url self (Some job_type)) 10 w = (r, w1) ->
    (forall e, r = inl e ->
       submit_job env self job_type config w
       = (Raises e, w1, [EvGet (pricing_url self (Some job_type)) 10 r]))
    /\ (forall resp, r = inr resp -> ok resp = false ->
        submit_job env self job_type config w
        = (Raises (Exception ("Failed to get pricing: " +:+ text resp)), w1,
           [EvGet (pricing_url self (Some job_type)) 10 r])).
Proof.
  intros W env self job_type config w r w1 Hget.
  rewrite submit_job_calls. cbv zeta. rewrite Hget.
  unfold pricing_amount, fetch_outcome. split.
  - by intros e ->.
  - intros resp -> Hok. by rewrite Hok.
Qed.

Lemma submit_job_pricing_fails_witness :
  (forall e, @inr exn response unavailable = inl e ->
     submit_job down_env demo_client "inference_medium" demo_config demo_time
     = (Raises e, demo_time,
        [EvGet (pricing_url demo_client (Some "inference_medium")) 10
           (inr unavailable)]))
  /\ (forall resp, inr unavailable = @inr exn response resp ->
      ok resp = false ->
      submit_job down_env demo_client "inference_medium" demo_config demo_time
      = (Raises (Exception ("Failed to get pricing: " +:+ text resp)),
         demo_time,
         [EvGet (pricing_url demo_client (Some "inference_medium")) 10
            (inr unavailable)])).
Proof.
  apply (submit_job_pricing_fails down_env demo_client "inference_medium"
           demo_config demo_time (inr unavailable) demo_time).
  reflexivity.
Defined.

(** X7. The signature that [submit_job] sends is the signer's own: the
    payment in the body of a request carries the encoding of what the
    signer returned for the message of that very payment, and this
    message is the only one the run had signed. *)
Theorem submit_job_signed_before_sent :
  forall {W} (env : Env W) self job_type config w o w' log rq,
    submit_job env self job_type config w = (o, w', log) ->
    rq ∈ posts log ->
    exists p sig sig58 ws ws',
      post_body rq = PDict (submission_map (intent_dict p) job_type config)
      /\ signing_key_sign env (encode (message_of env p)) ws = (inr sig, ws')
      /\ base64_b58encode env sig = inr sig58
      /\ payment_field (post_body rq) "signature" = Some (PStr (decode sig58))
      /\ signed_messages log = [encode (message_of env p)].
Proof.
  intros W env self job_type config w o w' log rq Hrun Hrq.
  destruct (submit_job_posted env _ _ _ _ _ _ _ _ Hrun Hrq)
    as (r0 & w1 & amt & t & w2 & d & w3 & sig & w4 & sig58 & id58 & r & H).
  cbv zeta in H.
  destruct H as (_ & _ & _ & _ & Hs & Hb & _ & _ & -> & -> & _).
  eexists _, sig, sig58, w3, w4.
  split; [reflexivity|]. split; [exact Hs|]. split; [exact Hb|].
  split; reflexivity.
Qed.

Lemma submit_job_signed_before_sent_witness :
  exists p sig sig58 ws ws',
    post_body demo_request
    = PDict (submission_map (intent_dict p) "inference_medium" demo_config)
    /\ signing_key_sign (demo_env accepted)
         (encode (message_of (demo_env accepted) p)) ws = (inr sig, ws')
    /\ base64_b58encode (demo_env accepted) sig = inr sig58
    /\ payment_field (post_body demo_request) "signature"
       = Some (PStr (decode sig58))
    /\ signed_messages demo_submit_log
       = [encode (message_of (demo_env accepted) p)].
Proof.
  apply (submit_job_signed_before_sent (demo_env accepted) demo_client
           "inference_medium" demo_config demo_time
           (Returns (PDict {[ "jobId" := PStr "job_1700000000";
                              "status" := PStr "pending" ]}))
           demo_time demo_submit_log demo_request).
  - vm_compute. reflexivity.
  - apply list_elem_of_singleton. vm_compute. reflexivity.
Defined.

(** X8. When the submission is answered with a status that is not a
    success and a body that is a JSON object, [submit_job] raises
    ["Job submission failed: "] followed by the object's [message], or by
    the raw body when the object has no [message]. *)
Theorem submit_job_rejected :
  forall {W} (env : Env W) self job_type config w o w' log url body headers
         timeout resp d,
    submit_job env self job_type config w = (o, w', log) ->
    last log = Some (EvPost url body headers timeout (inr resp)) ->
    ok resp = false -> json resp = Some (PDict d) ->
    (forall m, d !! "message" = Some m ->
       o = Raises (Exception ("Job submission failed: " +:+ py_str env m)))
    /\ (d !! "message" = None ->
        o = Raises (Exception ("Job submission failed: " +:+ text resp))).
Proof.
  intros W env self job_type config w o w' log url body headers timeout resp d
    Hrun Hlast Hok Hj.
  rewrite (submit_job_answer env _ _ _ _ _ _ _ _ _ _ _ _ Hrun Hlast).
  unfold post_outcome. rewrite Hok, Hj. cbn [negb].
  split; [intros m Hm|intros Hm]; by rewrite Hm.
Qed.

Lemma submit_job_rejected_witness :
  (forall m, rejected_status !! "message" = Some m ->
     @Raises pyval (Exception "Job submission failed: insufficient payment")
     = Raises (Exception ("Job submission failed: "
                          +:+ py_str (demo_env (inr rejected)) m)))
  /\ (rejected_status !! "message" = None ->
      @Raises pyval (Exception "Job submission failed: insufficient payment")
      = Raises (Exception ("Job submission failed: " +:+ text rejected))).
Proof.
  apply (submit_job_rejected (demo_env (inr rejected)) demo_client
           "inference_medium" demo_config demo_time
           (Raises (Exception "Job submission failed: insufficient payment"))
           demo_time rejected_submit_log
           (post_url demo_request) (post_body demo_request)
           (post_headers demo_request) 30 rejected rejected_status).
  - vm_compute. reflexivity.
  - vm_compute. reflexivity.
  - reflexivity.
  - reflexivity.
Defined.

(** X9. When the submission is answered with a status that is not a
    success and a body that is JSON but not an object (a list, a string,
    a number), the call [error.get] fails and [submit_job] raises
    [AttributeError] instead of its own exception. *)
Theorem submit_job_rejected_not_object :
  forall {W} (env : Env W) self job_type config w o w' log url body headers
         timeout resp v,
    submit_job env self job_type config w = (o, w', log) ->
    last log = Some (EvPost url body headers timeout (inr resp)) ->
    ok resp = false -> json resp = Some v -> (forall d, v <> PDict d) ->
    o = Raises (AttributeError "get").
Proof.
  intros W env self job_type config w o w' log url body headers timeout resp v
    Hrun Hlast Hok Hj Hv.
  rewrite (submit_job_answer env _ _ _ _ _ _ _ _ _ _ _ _ Hrun Hlast).
  unfold post_outcome. rewrite Hok, Hj. cbn [negb].
  destruct v as [| | | | |d]; try reflexivity. by destruct (Hv d).
Qed.

Lemma submit_job_rejected_not_object_witness :
  @Raises pyval (AttributeError "get") = Raises (AttributeError "get").
Proof.
  apply (submit_job_rejected_not_object (demo_env (inr rejected_list))
           demo_client "inference_medium" demo_config demo_time
           (Raises (AttributeError "get")) demo_time rejected_list_submit_log
           (post_url demo_request) (post_body demo_request)
           (post_headers demo_request) 30 rejected_list (PList [PInt 1])).
  - vm_compute. reflexivity.
  - vm_compute. reflexivity.
  - reflexivity.
  - reflexivity.
  - discriminate.
Defined.

(** X10. [submit_job] hands back what the server answered: on a success
    it returns the parsed body as it is, whatever it holds; a success
    whose body is not JSON ends it with the decoder's exception, and an
    exception of the HTTP library goes through unchanged. *)
Theorem submit_job_accepted :
  forall {W} (env : Env W) self job_type config w o w' log url body headers
         timeout r,
    submit_job env self job_type config w = (o, w', log) ->
    last log = Some (EvPost url body headers timeout r) ->
    (forall e, r = inl e -> o = Raises e)
    /\ (forall resp v, r = inr resp -> ok resp = true ->
        json resp = Some v -> o = Returns v)
    /\ (forall resp, r = inr resp -> ok resp = true ->
        json resp = None -> o = Raises JSONDecodeError).
Proof.
  intros W env self job_type config w o w' log url body headers timeout r
    Hrun Hlast.
  rewrite (submit_job_answer env _ _ _ _ _ _ _ _ _ _ _ _ Hrun Hlast).
  unfold post_outcome. repeat split.
  - by intros e ->.
  - intros resp v -> Hok Hj. by rewrite Hok, Hj.
  - intros resp -> Hok Hj. by rewrite Hok, Hj.
Qed.

Lemma submit_job_accepted_witness :
  (forall e, accepted = inl e ->
     Returns (PDict {[ "jobId" := PStr "job_1700000000";
                       "status" := PStr "pending" ]}) = Raises e)
  /\ (forall resp v, accepted = inr resp -> ok resp = true ->
      json resp = Some v ->
      Returns (PDict {[ "jobId" := PStr "job_1700000000";
                        "status" := PStr "pending" ]}) = Returns v)
  /\ (forall resp, accepted = inr resp -> ok resp = true ->
      json resp = None ->
      Returns (PDict {[ "jobId" := PStr "job_1700000000";
                        "status" := PStr "pending" ]}) = Raises JSONDecodeError).
Proof.
  apply (submit_job_accepted (demo_env accepted) demo_client
           "inference_medium" demo_config demo_time
           (Returns (PDict {[ "jobId" := PStr "job_1700000000";
                              "status" := PStr "pending" ]}))
           demo_time demo_submit_log
           (post_url demo_request) (post_body demo_request)
           (post_headers demo_request) 30 accepted).
  - vm_compute. reflexivity.
  - vm_compute. reflexivity.
Defined.

(** X11. Submissions made in different whole seconds of the clock get
    different job identifiers. *)
Theorem job_id_distinct_seconds :
  forall {W1 W2} (env1 : Env W1) (env2 : Env W2) self1 self2 type1 type2
         config1 config2 w1 w2 o1 o2 w1' w2' log1 log2 rq1 rq2 t1 t2,
    submit_job env1 self1 type1 config1 w1 = (o1, w1', log1) ->
    submit_job env2 self2 type2 config2 w2 = (o2, w2', log2) ->
    rq1 ∈ posts log1 -> rq2 ∈ posts log2 ->
    clock_readings log1 = [t1] -> clock_readings log2 = [t2] ->
    int_of_float t1 <> int_of_float t2 ->
    payment_field (post_body rq1) "jobId"
    <> payment_field (post_body rq2) "jobId".
Proof.
  intros W1 W2 env1 env2 self1 self2 type1 type2 config1 config2 w1 w2 o1 o2
    w1' w2' log1 log2 rq1 rq2 t1 t2 Hrun1 Hrun2 Hrq1 Hrq2 Hc1 Hc2 Hne Heq.
  destruct (submit_job_posts env1 _ _ _ _ _ _ _ _ Hrun1 Hrq1)
    as (amt1 & t1' & d1 & id1 & sig1 & Hp1).
  destruct (submit_job_posts env2 _ _ _ _ _ _ _ _ Hrun2 Hrq2)
    as (amt2 & t2' & d2 & id2 & sig2 & Hp2).
  cbv zeta in Hp1, Hp2.
  destruct Hp1 as (-> & Hc1' & _). destruct Hp2 as (-> & Hc2' & _).
  rewrite Hc1 in Hc1'. rewrite Hc2 in Hc2'.
  injection Hc1' as <-. injection Hc2' as <-.
  cbn [post_body] in Heq. rewrite !payment_field_submission in Heq.
  rewrite !lookup_intent_jobId in Heq. cbn [jobId built_intent] in Heq.
  unfold job_id_of_time in Heq. cbn [py_str] in Heq.
  apply Hne. apply (inj pretty).
  assert (Hs : "job_" +:+ str_of_int (int_of_float t1)
               = "job_" +:+ str_of_int (int_of_float t2)) by congruence.
  cbn [String.append] in Hs. injection Hs as Hs. exact Hs.
Qed.

Lemma job_id_distinct_seconds_witness :
  payment_field (post_body demo_request) "jobId"
  <> payment_field (post_body next_second_request) "jobId".
Proof.
  apply (job_id_distinct_seconds (demo_env accepted) (demo_env accepted)
           demo_client demo_client "inference_medium" "inference_medium"
           demo_config demo_config demo_time next_second
           (Returns (PDict {[ "jobId" := PStr "job_1700000000";
                              "status" := PStr "pending" ]}))
           (Returns (PDict {[ "jobId" := PStr "job_1700000000";
                              "status" := PStr "pending" ]}))
           demo_time next_second demo_submit_log next_second_log
           demo_request next_second_request demo_time next_second).
  - vm_compute. reflexivity.
  - vm_compute. reflexivity.
  - apply list_elem_of_singleton. vm_compute. reflexivity.
  - apply list_elem_of_singleton. vm_compute. reflexivity.
  - reflexivity.
  - reflexivity.
  - vm_compute. discriminate.
Defined.

(** ** The iterations of a wait *)

Section Waiting.

Context {W : Type} (env : Env W).

Lemma after_poll_not_diverges r o : after_poll env r = Some o -> o <> Diverges.
Proof.
  unfold after_poll. destruct r as [e|resp]; [by intros [= <-]|].
  destruct (negb (ok resp)); [by intros [= <-]|].
  destruct (json resp) as [[| | | | |d]|]; try by intros [= <-].
  destruct (d !! "status") as [s|]; [|by intros [= <-]].
  destruct (py_eq_str s "completed"); [by intros [= <-]|].
  destruct (py_eq_str s "failed" || py_eq_str s "cancelled");
    [by intros [= <-]|done].
Qed.

(** A status request whose answer ends the wait is the last call of the
    run, and the run ends as the answer says. *)
Lemma loop_trace_ended_at url job_id poll_interval max_wait start_time l o :
  loop_trace env url job_id poll_interval max_wait start_time l o ->
  forall (i : nat) r o',
    polls l !! i = Some r -> after_poll env r = Some o' ->
    o = o' /\ S i = length (polls l) /\ last l = Some (EvGet url 10 r).
Proof.
  induction 1 as [|t Ht|t r o Ht Hp|t r Ht Hp Hn|t r l o Ht Hp Hn Hl IH];
    intros i r' o' Hi Ha; cbn in Hi.
  - done.
  - done.
  - destruct i as [|i]; [|done]. injection Hi as ->.
    rewrite Ha in Hp. by injection Hp as ->.
  - destruct i as [|i]; [|done]. injection Hi as ->. congruence.
  - destruct i as [|i]; [injection Hi as ->; congruence|].
    destruct (IH i r' o' Hi Ha) as (-> & Hlen & Hlast).
    split; [done|]. split; [cbn; by rewrite Hlen|].
    destruct l as [|ev l]; [done|]. exact Hlast.
Qed.


(** Every call of a wait is a clock reading, a status request or a
    sleep of the interval. *)
Lemma loop_trace_calls url job_id poll_interval max_wait start_time l o :
  loop_trace env url job_id poll_interval max_wait start_time l o ->
  Forall (wait_call url poll_interval) l.
Proof.
  induction 1 as [|t Ht|t r o Ht Hp|t r Ht Hp Hn|t r l o Ht Hp Hn Hl IH];
    repeat (constructor; [by cbn|]); first [exact IH | constructor].
Qed.

Lemma wait_loop_bounded clock self job_id poll_interval max_wait start_time :
  forward_clock env clock -> 0 < poll_interval -> max_wait <= 2 ^ 53 ->
  forall fuel (n : nat) w o w' l,
    (start_time <= clock w)%Q ->
    (inject_Z max_wait
     <= (clock w - start_time) + inject_Z (Z.of_nat n * poll_interval))%Q ->
    wait_loop env fuel self job_id poll_interval max_wait start_time w
      = (o, w', l) ->
    (length (polls l) <= n)%nat /\ ((n < fuel)%nat -> o <> Diverges).
Proof.
  intros [Hread Hreq Hsleep] Hpos Hmw.
  assert (Hpi : (0 < inject_Z poll_interval)%Q).
  { change 0%Q with (inject_Z 0). by rewrite <- Zlt_Qlt. }
  induction fuel as [|fuel IH]; intros n w o w' l Hfwd Hn.
  - intros [= <- <- <-]. cbn. split; lia.
  - rewrite wait_loop_step.
    destruct (time_time env w) as [t w1] eqn:Et.
    destruct (Hread _ _ _ Et) as [Ht1 Ht2].
    destruct (float_lt_int _ _) eqn:Elt.
    + destruct n as [|n].
      { exfalso. replace (Z.of_nat 0 * poll_interval) with 0 in Hn by lia.
        change (inject_Z 0) with 0%Q in Hn.
        rewrite elapsed_time_up in Elt; [done|done|lra|lra]. }
      destruct (requests_get env _ 10 w1) as [r w2] eqn:Er.
      pose proof (Hreq _ _ _ _ _ Er) as Hr.
      destruct (after_poll env r) as [o1|] eqn:Ep.
      { intros [= <- <- <-]. cbn. split; [lia|].
        intros _. by eapply after_poll_not_diverges. }
      assert ((poll_interval <? 0) = false) as -> by lia.
      destruct (wait_loop env fuel _ _ _ _ _ _) as [[o3 w3] l3] eqn:Ew.
      intros [= <- <- <-].
      pose proof (Hsleep poll_interval w2) as Hs.
      apply (IH n) in Ew.
      * destruct Ew as [Hlen Hdiv]. split.
        -- change (S (length (polls l3)) <= S n)%nat. lia.
        -- intros Hlt. apply Hdiv. lia.
      * lra.
      * replace (Z.of_nat (S n) * poll_interval)
          with (Z.of_nat n * poll_interval + poll_interval) in Hn by lia.
        rewrite inject_Z_plus in Hn. lra.
    + intros [= <- <- <-]. cbn. split; [lia|done].
Qed.

End Waiting.

(** ** What ends a wait, and what does not *)


Lemma pending_env_forward : forward_clock pending_env (fun w => w).
Proof.
  split; cbn.
  - intros w t w' [= <- <-]. split; apply Qle_refl.
  - intros url timeout w r w' [= _ <-]. apply Qle_refl.
  - intros n w. apply Qle_refl.
Qed.

(** X12. When a status request of [wait_for_completion] is answered with
    the status [completed], the wait ends there: it returns the status
    object as the server sent it, and this request is the last call it
    made. *)
Theorem wait_for_completion_completed :
  forall {W} (env : Env W) fuel self job_id poll_interval max_wait w o w' log
         (i : nat) resp d,
    wait_for_completion env fuel self job_id poll_interval max_wait w
      = (o, w', log) ->
    polls log !! i = Some (inr resp) ->
    ok resp = true -> json resp = Some (PDict d) ->
    d !! "status" = Some (PStr "completed") ->
    o = Returns (PDict d)
    /\ S i = length (polls log)
    /\ last log = Some (EvGet (status_url self job_id) 10 (inr resp)).
Proof.
  intros W env fuel self job_id poll_interval max_wait w o w' log i resp d
    Hrun Hi Hok Hj Hs.
  apply wait_for_completion_trace in Hrun as (t0 & l & -> & Htr).
  cbn in Hi.
  assert (Ha : after_poll env (inr resp) = Some (Returns (PDict d))).
  { unfold after_poll. by rewrite Hok, Hj, Hs. }
  destruct (loop_trace_ended_at env _ _ _ _ _ _ _ Htr i _ _ Hi Ha)
    as (-> & Hlen & Hlast).
  split; [reflexivity|]. split; [exact Hlen|].
  destruct l as [|ev l]; [done|]. exact Hlast.
Qed.

Lemma wait_for_completion_completed_witness :
  Returns (PDict completed_status) = Returns (PDict completed_status)
  /\ 1%nat = length (polls completed_log)
  /\ last completed_log
     = Some (EvGet (status_url demo_client "job_1") 10
               (inr (json_response (PDict completed_status)))).
Proof.
  apply (wait_for_completion_completed completed_env 5 demo_client "job_1"
           None None 0%Q (Returns (PDict completed_status)) 0%Q completed_log
           0 (json_response (PDict completed_status)) completed_status).
  - vm_compute. reflexivity.
  - reflexivity.
  - reflexivity.
  - reflexivity.
  - reflexivity.
Defined.

(** X13. A status request that fails ends the wait at once, with no
    further request: an exception of the HTTP library goes through
    unchanged, and an answer that is not a success gives
    ["Failed to get job status: "] and the raw body. *)
Theorem wait_for_completion_fetch_fails :
  forall {W} (env : Env W) fuel self job_id poll_interval max_wait w o w' log
         (i : nat) r,
    wait_for_completion env fuel self job_id poll_interval max_wait w
      = (o, w', log) ->
    polls log !! i = Some r ->
    (forall e, r = inl e ->
       o = Raises e /\ S i = length (polls log)
       /\ last log = Some (EvGet (status_url self job_id) 10 r))
    /\ (forall resp, r = inr resp -> ok resp = false ->
        o = Raises (Exception ("Failed to get job status: " +:+ text resp))
        /\ S i = length (polls log)
        /\ last log = Some (EvGet (status_url self job_id) 10 r)).
Proof.
  intros W env fuel self job_id poll_interval max_wait w o w' log i r Hrun Hi.
  apply wait_for_completion_trace in Hrun as (t0 & l & -> & Htr).
  cbn in Hi.
  assert (Hend : forall o', after_poll env r = Some o' ->
            o = o' /\ S i = length (polls (EvTime t0 :: l))
            /\ last (EvTime t0 :: l)
               = Some (EvGet (status_url self job_id) 10 r)).
  { intros o' Ha.
    destruct (loop_trace_ended_at env _ _ _ _ _ _ _ Htr i _ _ Hi Ha)
      as (-> & Hlen & Hlast).
    split; [reflexivity|]. split; [exact Hlen|].
    destruct l as [|ev l]; [done|]. exact Hlast. }
  split.
  - intros e ->. by apply Hend.
  - intros resp -> Hok. apply Hend. cbn. by rewrite Hok.
Qed.

Lemma wait_for_completion_fetch_fails_witness :
  (forall e, @inr exn response unavailable = inl e ->
     @Raises pyval (Exception "Failed to get job status: Service Unavailable")
     = Raises e
     /\ 1%nat = length (polls down_log)
     /\ last down_log
        = Some (EvGet (status_url demo_client "job_1") 10 (inr unavailable)))
  /\ (forall resp, inr unavailable = @inr exn response resp ->
      ok resp = false ->
      @Raises pyval (Exception "Failed to get job status: Service Unavailable")
      = Raises (Exception ("Failed to get job status: " +:+ text resp))
      /\ 1%nat = length (polls down_log)
      /\ last down_log
         = Some (EvGet (status_url demo_client "job_1") 10 (inr unavailable))).
Proof.
  apply (wait_for_completion_fetch_fails down_env 5 demo_client "job_1"
           None None 0%Q
           (Raises (Exception "Failed to get job status: Service Unavailable"))
           0%Q down_log 0 (inr unavailable)).
  - vm_compute. reflexivity.
  - reflexivity.
Defined.

(** X14. A status answer that is a success but has no usable status ends
    the wait at once with the exception of the lookup: [KeyError] when
    the object has no [status], [TypeError] when the body is JSON but
    not an object, the decoder's exception when it is not JSON. *)
Theorem wait_for_completion_malformed_status :
  forall {W} (env : Env W) fuel self job_id poll_interval max_wait w o w' log
         (i : nat) resp,
    wait_for_completion env fuel self job_id poll_interval max_wait w
      = (o, w', log) ->
    polls log !! i = Some (inr resp) -> ok resp = true ->
    (forall d, json resp = Some (PDict d) -> d !! "status" = None ->
       o = Raises (KeyError "status"))
    /\ (forall v, json resp = Some v -> (forall d, v <> PDict d) ->
        o = Raises TypeError)
    /\ (json resp = None -> o = Raises JSONDecodeError).
Proof.
  intros W env fuel self job_id poll_interval max_wait w o w' log i resp
    Hrun Hi Hok.
  apply wait_for_completion_trace in Hrun as (t0 & l & -> & Htr).
  cbn in Hi.
  assert (Hend : forall o', after_poll env (inr resp) = Some o' -> o = o').
  { intros o' Ha.
    by destruct (loop_trace_ended_at env _ _ _ _ _ _ _ Htr i _ _ Hi Ha). }
  split_and!.
  - intros d Hj Hs. apply Hend. unfold after_poll. by rewrite Hok, Hj, Hs.
  - intros v Hj Hv. apply Hend. unfold after_poll. rewrite Hok, Hj. cbn [negb].
    destruct v as [| | | | |d]; try reflexivity. by destruct (Hv d).
  - intros Hj. apply Hend. unfold after_poll. by rewrite Hok, Hj.
Qed.

Lemma wait_for_completion_malformed_status_witness :
  (forall d, json no_price = Some (PDict d) -> d !! "status" = None ->
     @Raises pyval (KeyError "status") = Raises (KeyError "status"))
  /\ (forall v, json no_price = Some v -> (forall d, v <> PDict d) ->
      @Raises pyval (KeyError "status") = Raises TypeError)
  /\ (json no_price = None ->
      @Raises pyval (KeyError "status") = Raises JSONDecodeError).
Proof.
  apply (wait_for_completion_malformed_status no_price_env 5 demo_client
           "job_1" None None 0%Q (Raises (KeyError "status")) 0%Q
           [EvTime 0; EvTime 0;
            EvGet "http://localhost:3000/api/x402/jobs/job_1" 10 (inr no_price)]
           0 no_price).
  - vm_compute. reflexivity.
  - reflexivity.
  - reflexivity.
Defined.



(** X16. With a clock that does not run backwards, a positive interval
    and [max_wait <= 2^53] (the whole numbers that a double holds
    exactly), a wait makes at most [max_wait / poll_interval], rounded up,
    status requests (none when [max_wait <= 0]), and it never needs more
    iterations than that plus one: it always ends. *)
Theorem wait_for_completion_bounded :
  forall {W} (env : Env W) clock fuel self job_id poll_interval max_wait
         w o w' log,
    forward_clock env clock ->
    0 < default 5 poll_interval ->
    default 300 max_wait <= 2 ^ 53 ->
    wait_for_completion env fuel self job_id poll_interval max_wait w
      = (o, w', log) ->
    let n := Z.to_nat ((default 300 max_wait + default 5 poll_interval - 1)
                       / default 5 poll_interval) in
    (length (polls log) <= n)%nat /\ ((n < fuel)%nat -> o <> Diverges).
Proof.
  intros W env clock fuel self job_id poll_interval max_wait w o w' log
    Hclock Hpos Hmw.
  set (pi := default 5 poll_interval) in *.
  set (mw := default 300 max_wait) in *.
  unfold wait_for_completion, mbind, M_bind, bind, now_time.
  fold pi mw.
  destruct (time_time env w) as [t0 w1] eqn:E0.
  destruct (wait_loop env fuel _ _ _ _ _ w1) as [[o1 w2] l] eqn:Ew.
  intros [= <- <- <-].
  set (n := Z.to_nat ((mw + pi - 1) / pi)).
  destruct (forward_reading env clock Hclock _ _ _ E0) as [_ H0].
  assert (Hbudget : (inject_Z mw
            <= (clock w1 - t0) + inject_Z (Z.of_nat n * pi))%Q).
  { assert (Hz : mw <= Z.of_nat n * pi).
    { unfold n. destruct (Z.le_gt_cases mw 0) as [Hle|Hgt]; [nia|].
      rewrite Z2Nat.id by (apply Z.div_pos; lia).
      pose proof (Z.mul_succ_div_gt (mw + pi - 1) pi Hpos). nia. }
    rewrite Zle_Qle in Hz. lra. }
  destruct (wait_loop_bounded env clock _ _ _ _ _ Hclock Hpos Hmw _ _ _ _ _ _
              H0 Hbudget Ew) as [Hlen Hdiv].
  split; [exact Hlen|exact Hdiv].
Qed.

Lemma wait_for_completion_bounded_witness :
  (length (polls pending_log) <= 3)%nat
  /\ ((3 < 10)%nat ->
      Raises (timeout_error pending_env "job_1" 10) <> @Diverges pyval).
Proof.
  apply (wait_for_completion_bounded pending_env (fun w => w) 10 demo_client
           "job_1" (Some 4) (Some 10) 0%Q
           (Raises (timeout_error pending_env "job_1" 10)) 12%Q pending_log).
  - exact pending_env_forward.
  - cbn. lia.
  - cbn. lia.
  - vm_compute. reflexivity.
Defined.

(** Beyond [2^53] the bound does not hold.  A wait of [2^53 + 1] seconds
    that asks every [2^53 + 1] seconds, started at second 1 on a clock
    that does not run backwards, asks twice: after the sleep the clock
    stands at [2^53 + 2], the elapsed time [2^53 + 1] is not a double and
    is rounded to [2^53], which is below [max_wait]. *)
Lemma bound_past_exact :
  forward_clock pending_env (fun w => w)
  /\ Z.to_nat ((past_exact + past_exact - 1) / past_exact) = 1%nat
  /\ float_lt_int (float_sub (1 + inject_Z past_exact) 1) past_exact = true
  /\ length (polls (wait_for_completion pending_env 2 demo_client "job_1"
                      (Some past_exact) (Some past_exact) 1%Q).2)
     = 2%nat.
Proof.
  split; [exact pending_env_forward|].
  split_and!; vm_compute; reflexivity.
Qed.

(** X17. With a clock that does not run backwards and [max_wait <= 0],
    the wait reads the clock twice and raises the timeout: it asks the
    server nothing. *)
Theorem wait_for_completion_no_time :
  forall {W} (env : Env W) clock fuel self job_id poll_interval max_wait w,
    forward_clock env clock ->
    default 300 max_wait <= 0 ->
    exists t0 t1 w',
      wait_for_completion env (S fuel) self job_id poll_interval max_wait w
      = (Raises (timeout_error env job_id (default 300 max_wait)), w',
         [EvTime t0; EvTime t1]).
Proof.
  intros W env clock fuel self job_id poll_interval max_wait w Hclock Hmw.
  unfold wait_for_completion, mbind, M_bind, bind, now_time.
  destruct (time_time env w) as [t0 w1] eqn:E0.
  rewrite wait_loop_step.
  destruct (time_time env w1) as [t1 w2] eqn:E1.
  destruct (forward_reading env clock Hclock _ _ _ E0) as [_ H0].
  destruct (forward_reading env clock Hclock _ _ _ E1) as [H1 _].
  assert (float_lt_int (float_sub t1 t0) (default 300 max_wait) = false)
    as ->.
  { destruct (float_lt_int _ _) eqn:E; [|done].
    apply round_double_nonneg in E; [lia|lra]. }
  by exists t0, t1, w2.
Qed.

Lemma wait_for_completion_no_time_witness :
  exists t0 t1 w',
    wait_for_completion pending_env 1 demo_client "job_1" (Some 1) (Some 0) 0%Q
    = (Raises (timeout_error pending_env "job_1" (default 300 (Some 0))), w',
       [EvTime t0; EvTime t1]).
Proof.
  apply (wait_for_completion_no_time pending_env (fun w => w) 0 demo_client
           "job_1" (Some 1) (Some 0) 0%Q).
  - exact pending_env_forward.
  - cbn. lia.
Defined.



(** X19. Whatever its outcome, a wait only reads the clock, asks for the
    status and sleeps: every request goes to
    [{api_url}/x402/jobs/{job_id}] with a ten second timeout, every sleep
    lasts exactly the interval (no backoff), and nothing is signed or
    submitted. *)
Theorem wait_for_completion_calls :
  forall {W} (env : Env W) fuel self job_id poll_interval max_wait w o w' log,
    wait_for_completion env fuel self job_id poll_interval max_wait w
      = (o, w', log) ->
    Forall (wait_call (api_url self +:+ "/x402/jobs/" +:+ job_id)
              (default 5 poll_interval)) log.
Proof.
  intros W env fuel self job_id poll_interval max_wait w o w' log Hrun.
  apply wait_for_completion_trace in Hrun as (t0 & l & -> & Htr).
  constructor; [exact I|]. by eapply loop_trace_calls.
Qed.

Lemma wait_for_completion_calls_witness :
  Forall (wait_call (api_url demo_client +:+ "/x402/jobs/" +:+ "job_1")
            (default 5 (Some 4))) pending_log.
Proof.
  apply (wait_for_completion_calls pending_env 10 demo_client "job_1"
           (Some 4) (Some 10) 0%Q
           (Raises (timeout_error pending_env "job_1" 10)) 12%Q pending_log).
  vm_compute. reflexivity.
Defined.

(** ** The constructor *)

Lemma rstrip_slash_slash s : rstrip_slash (s +:+ "/") = rstrip_slash s.
Proof.
  induction s as [|c s IH]; [reflexivity|].
  change (String c s +:+ "/") with (String c (s +:+ "/")).
  change (rstrip_slash (String c (s +:+ "/")))
    with (match rstrip_slash (s +:+ "/") with
          | EmptyString =>
              if Ascii.eqb c "/" then EmptyString else String c EmptyString
          | r => String c r
          end).
  by rewrite IH.
Qed.

Lemma append_empty s : s +:+ "" = s.
Proof.
  induction s as [|c s IH]; [done|].
  change (String c (s +:+ "") = String c s). by rewrite IH.
Qed.

Lemma append_slash_slashes s n :
  (s +:+ "/") +:+ slashes n = s +:+ String "/" (slashes n).
Proof.
  induction s as [|c s IH]; [done|].
  change (String c ((s +:+ "/") +:+ slashes n)
          = String c (s +:+ String "/" (slashes n))).
  by rewrite IH.
Qed.

Lemma rstrip_slash_slashes s n : rstrip_slash (s +:+ slashes n) = rstrip_slash s.
Proof.
  revert s. induction n as [|n IH]; intros s; cbn [slashes].
  - by rewrite append_empty.
  - by rewrite <- append_slash_slashes, IH, rstrip_slash_slash.
Qed.

Lemma rstrip_slash_no_trailing s t : rstrip_slash s <> t +:+ "/".
Proof.
  revert t. induction s as [|c s IH]; intros t.
  - by destruct t.
  - cbn [rstrip_slash]. destruct (rstrip_slash s) as [|c' r] eqn:Er.
    + destruct (Ascii.eqb c "/") eqn:Ec.
      * by destruct t.
      * destruct t as [|c1 t]; cbn.
        -- intros [= ->]. by rewrite Ascii.eqb_refl in Ec.
        -- intros [= _ H]. by destruct t.
    + destruct t as [|c1 t]; cbn; [done|].
      intros [= _ H]. by apply (IH t).
Qed.

Lemma rstrip_slash_rest s : exists n, s = rstrip_slash s +:+ slashes n.
Proof.
  induction s as [|c s [n IH]]; [by exists 0%nat|].
  cbn [rstrip_slash]. destruct (rstrip_slash s) as [|c' r] eqn:Er.
  - destruct (Ascii.eqb c "/") eqn:Ec.
    + apply Ascii.eqb_eq in Ec as ->. exists (S n).
      change (String "/" s = String "/" (slashes n)). f_equal. exact IH.
    + exists n. change (String c s = String c (slashes n)). f_equal. exact IH.
  - exists n. change (String c s = String c (String c' r +:+ slashes n)).
    f_equal. exact IH.
Qed.

(** X20. A client that [X402Client(url, secret)] builds has the [url]
    without its trailing slashes for [api_url], so that the addresses it
    asks join with a single slash: [api_url] does not end in a slash, the
    [url] given is [api_url] followed by slashes only, and any number of
    slashes more at the end of [url] gives the same client. *)
Theorem X402Client_init_api_url :
  forall public_key_of url secret client,
    X402Client_init public_key_of url secret = inr client ->
    (forall t, api_url client <> t +:+ "/")
    /\ (exists n, url = api_url client +:+ slashes n)
    /\ (forall n,
          X402Client_init public_key_of (url +:+ slashes n) secret
          = inr client)
    /\ public_key_of secret = inr (public_key client).
Proof.
  intros public_key_of url secret client. unfold X402Client_init.
  destruct (public_key_of secret) as [e|pk]; [done|].
  intros [= <-]. cbn [api_url public_key]. split_and!.
  - apply rstrip_slash_no_trailing.
  - apply rstrip_slash_rest.
  - intros n. by rewrite rstrip_slash_slashes.
  - reflexivity.
Qed.

Lemma X402Client_init_api_url_witness :
  (forall t, api_url demo_client <> t +:+ "/")
  /\ (exists n, "http://localhost:3000/api//" = api_url demo_client +:+ slashes n)
  /\ (forall n,
        X402Client_init demo_keys ("http://localhost:3000/api//" +:+ slashes n)
          "SECRET"
        = inr demo_client)
  /\ demo_keys "SECRET" = inr (public_key demo_client).
Proof.
  apply (X402Client_init_api_url demo_keys "http://localhost:3000/api//"
           "SECRET" demo_client).
  vm_compute. reflexivity.
Defined.

(** ** The signature and the message of an intent *)

(** X21. The signature of a returned intent is the signer's own: the
    clock is read first, the signer is called on the message of the
    intent in the world the clock left, the intent carries the encoding of
    what the signer returned, and the world after the call is the one the
    signer left (encoding and hashing do not touch it). *)
Theorem create_payment_intent_signature :
  forall {W} (env : Env W) self amt job_id expires_in w p w' log,
    create_payment_intent env self amt job_id expires_in w
      = (Returns (intent_dict p), w', log) ->
    exists d w1 sig sig58,
      datetime_utcnow env w = (d, w1)
      /\ signing_key_sign env (encode (message_of env p)) w1 = (inr sig, w')
      /\ base64_b58encode env sig = inr sig58
      /\ signature p = decode sig58.
Proof.
  intros W env self amt job_id expires_in w p w' log.
  rewrite create_payment_intent_run.
  destruct (datetime_utcnow env w) as [d w1]. cbv zeta.
  destruct (signing_key_sign env _ w1) as [[e|sig] w2] eqn:Es; [done|].
  destruct (base64_b58encode env sig) as [e|sig58] eqn:Eb; [done|].
  destruct (base64_b58encode env (take 16 _)) as [e|id58]; [done|].
  intros H. pose proof (returns_intent_inv _ _ _ _ _ _ H) as Hp.
  assert (w2 = w') as <- by congruence.
  subst p. by exists d, w1, sig, sig58.
Qed.

Lemma create_payment_intent_signature_witness :
  exists d w1 sig sig58,
    datetime_utcnow (demo_env accepted) 0%Q = (d, w1)
    /\ signing_key_sign (demo_env accepted)
         (encode (message_of (demo_env accepted) demo_intent)) w1
       = (inr sig, 0%Q)
    /\ base64_b58encode (demo_env accepted) sig = inr sig58
    /\ signature demo_intent = decode sig58.
Proof.
  apply (create_payment_intent_signature (demo_env accepted) demo_client
           (PInt 1000) "job_1" None 0%Q demo_intent 0%Q demo_intent_log).
  vm_compute. reflexivity.
Defined.

Lemma append_cancel_l s x y : s +:+ x = s +:+ y -> x = y.
Proof.
  induction s as [|c s IH]; [done|].
  change (String c (s +:+ x) = String c (s +:+ y) -> x = y).
  intros [= H]. by apply IH.
Qed.

Lemma no_colon_app a b : no_colon (a +:+ b) = no_colon a && no_colon b.
Proof.
  induction a as [|c a IH]; [done|].
  change (no_colon (String c (a +:+ b))
          = no_colon (String c a) && no_colon b).
  cbn [no_colon]. rewrite IH. by rewrite andb_assoc.
Qed.

(** A field without a colon ends at the first colon. *)
Lemma split_first_colon a a' r r' :
  no_colon a = true -> no_colon a' = true ->
  a +:+ ":" +:+ r = a' +:+ ":" +:+ r' -> a = a' /\ r = r'.
Proof.
  revert a'. induction a as [|c a IH]; intros [|c' a'] Ha Ha'.
  - intros H. split; [reflexivity|]. exact (append_cancel_l ":" r r' H).
  - change (String ":" r = String c' (a' +:+ ":" +:+ r') -> "" = String c' a' /\ r = r').
    intros [= <- _]. by cbn in Ha'.
  - change (String c (a +:+ ":" +:+ r) = String ":" r'
            -> String c a = "" /\ r = r').
    intros [= -> _]. by cbn in Ha.
  - change (String c (a +:+ ":" +:+ r) = String c' (a' +:+ ":" +:+ r')
            -> String c a = String c' a' /\ r = r').
    intros [= -> H]. cbn in Ha, Ha'.
    apply andb_true_iff in Ha as [_ Ha]. apply andb_true_iff in Ha' as [_ Ha'].
    destruct (IH a' Ha Ha' H) as [-> ->]. done.
Qed.

(** A field without a colon begins after the last colon. *)
Lemma split_last_colon t t' e e' :
  no_colon e = true -> no_colon e' = true ->
  t +:+ ":" +:+ e = t' +:+ ":" +:+ e' -> t = t' /\ e = e'.
Proof.
  intros He He'. revert t'. induction t as [|c t IH]; intros [|c' t'].
  - intros H. split; [reflexivity|]. exact (append_cancel_l ":" e e' H).
  - change (String ":" e = String c' (t' +:+ ":" +:+ e')
            -> "" = String c' t' /\ e = e').
    intros [= _ ->]. rewrite no_colon_app in He.
    apply andb_true_iff in He as [_ He]. done.
  - change (String c (t +:+ ":" +:+ e) = String ":" e'
            -> String c t = "" /\ e = e').
    intros [= _ <-]. rewrite no_colon_app in He'.
    apply andb_true_iff in He' as [_ He']. done.
  - change (String c (t +:+ ":" +:+ e) = String c' (t' +:+ ":" +:+ e')
            -> String c t = String c' t' /\ e = e').
    intros [= -> H]. destruct (IH t' H) as [-> ->]. done.
Qed.

Lemma no_colon_pretty_N_go x s :
  no_colon s = true -> no_colon (pretty_N_go x s) = true.
Proof.
  revert s. induction (N.lt_wf_0 x) as [x _ IH]; intros s Hs.
  assert (x = 0 \/ 0 < x)%N as [-> | Hx] by lia.
  - by rewrite pretty_N_go_0.
  - rewrite pretty_N_go_step by done. apply IH.
    { by apply N.div_lt. }
    cbn [no_colon]. rewrite Hs.
    unfold pretty_N_char. by repeat case_match.
Qed.

Lemma no_colon_str_of_int z : no_colon (str_of_int z) = true.
Proof.
  assert (HN : forall n : N, no_colon (pretty n) = true).
  { intros n. unfold pretty, pretty_N. case_decide; [done|].
    by apply no_colon_pretty_N_go. }
  destruct z as [|x|x]; [done|apply HN|].
  change (no_colon (String "-" (pretty (Npos x))) = true).
  cbn [no_colon]. by rewrite HN.
Qed.

Lemma encode_inj s s' : encode s = encode s' -> s = s'.
Proof.
  unfold encode. intros H.
  by rewrite <- (string_of_list_byte_of_string s),
       <- (string_of_list_byte_of_string s'), H.
Qed.

(** X22. A signed message tells what it was signed for: when the payer
    and the job identifier have no colon in them and the amount is an
    integer, two calls that sign the same message were made for the same
    payer, amount, job identifier and expiry, at the same timestamp. *)
Theorem signed_message_unambiguous :
  forall {W1 W2} (env1 : Env W1) (env2 : Env W2) self1 self2 (a1 a2 : Z)
         job1 job2 exp1 exp2 w1 w2 o1 o2 w1' w2' log1 log2,
    create_payment_intent env1 self1 (PInt a1) job1 exp1 w1 = (o1, w1', log1) ->
    create_payment_intent env2 self2 (PInt a2) job2 exp2 w2 = (o2, w2', log2) ->
    no_colon (public_key self1) = true -> no_colon (public_key self2) = true ->
    no_colon job1 = true -> no_colon job2 = true ->
    signed_messages log1 = signed_messages log2 ->
    public_key self1 = public_key self2 /\ a1 = a2 /\ job1 = job2
    /\ default 300 exp1 = default 300 exp2
    /\ isoformat (datetime_utcnow env1 w1).1 +:+ "Z"
       = isoformat (datetime_utcnow env2 w2).1 +:+ "Z".
Proof.
  intros W1 W2 env1 env2 self1 self2 a1 a2 job1 job2 exp1 exp2 w1 w2 o1 o2
    w1' w2' log1 log2 Hrun1 Hrun2 Hp1 Hp2 Hj1 Hj2 Hsig.
  assert (Hlog : forall {W} (env : Env W) self a job exp w o w' log,
             create_payment_intent env self (PInt a) job exp w = (o, w', log) ->
             signed_messages log
             = [encode (canonical_message (public_key self) (str_of_int a) job
                          (isoformat (datetime_utcnow env w).1 +:+ "Z")
                          (str_of_int (default 300 exp)))]).
  { intros W env self a job exp w o w' log.
    rewrite create_payment_intent_run.
    destruct (datetime_utcnow env w) as [d w0]. cbv zeta. cbn [fst py_str].
    destruct (signing_key_sign env _ w0) as [[e|sig] w3];
      [by intros [= <- <- <-]|].
    destruct (base64_b58encode env sig) as [e|sig58];
      [by intros [= <- <- <-]|].
    destruct (base64_b58encode env (take 16 _)) as [e|id58];
      by intros [= <- <- <-]. }
  rewrite (Hlog _ _ _ _ _ _ _ _ _ _ Hrun1), (Hlog _ _ _ _ _ _ _ _ _ _ Hrun2)
    in Hsig.
  injection Hsig as Hm. apply encode_inj in Hm.
  unfold canonical_message in Hm. apply append_cancel_l in Hm.
  apply split_first_colon in Hm as [Hpk Hm]; [|done..].
  apply split_first_colon in Hm as [Ha Hm]; [|apply no_colon_str_of_int..].
  apply split_first_colon in Hm as [Hjob Hm]; [|done..].
  apply split_last_colon in Hm as [Hts He]; [|apply no_colon_str_of_int..].
  split_and!; try done.
  - by apply (inj pretty).
  - by apply (inj pretty).
Qed.

Lemma signed_message_unambiguous_witness :
  public_key demo_client = public_key demo_client /\ 1000 = 1000
  /\ "job_1" = "job_1"
  /\ default 300 None = default 300 (Some 300)
  /\ isoformat (datetime_utcnow (demo_env accepted) 0%Q).1 +:+ "Z"
     = isoformat (datetime_utcnow other_signer_env 5%Q).1 +:+ "Z".
Proof.
  apply (signed_message_unambiguous (demo_env accepted) other_signer_env
           demo_client demo_client 1000 1000 "job_1" "job_1" None (Some 300)
           0%Q 5%Q (Returns (intent_dict demo_intent))
           (Returns (intent_dict other_signer_intent)) 0%Q 5%Q demo_intent_log
           [EvUtcnow sample_dt; EvSign demo_message;
            EvB58encode (encode "ANOTHER SIGNATURE");
            EvSha256 demo_message; EvB58encode (take 16 demo_message)]).
  - vm_compute. reflexivity.
  - vm_compute. reflexivity.
  - reflexivity.
  - reflexivity.
  - reflexivity.
  - reflexivity.
  - reflexivity.
Defined.

(** ** The example program *)

Section Program.

Context {W : Type} (env : Env W) (host : Host).

(** The first block asks for the pricing once and never fails. *)
Lemma pricing_block_run client w :
  exists r w1 out,
    requests_get env (pricing_url client (Some "inference_medium")) 10 w
      = (r, w1)
    /\ pricing_block env host client w
       = (Returns tt, w1,
          [EvGet (pricing_url client (Some "inference_medium")) 10 r],
          "Fetching pricing..." :: out).
Proof.
  unfold pricing_block, try_except, mbind, P_bind, pbind, lift, print.
  rewrite get_pricing_run.
  destruct (requests_get env _ 10 w) as [r w1]. exists r, w1.
  destruct (fetch_outcome _ r) as [pricing|e|] eqn:Ef.
  - unfold subscript, ret, raise.
    destruct pricing as [| | | | |d]; try (eexists; split; reflexivity).
    destruct (d !! "jobType"); [|eexists; split; reflexivity].
    destruct (d !! "minimumPayment"); [|eexists; split; reflexivity].
    destruct (d !! "resources") as [res|]; [|eexists; split; reflexivity].
    destruct res as [| | | | |dr]; try (eexists; split; reflexivity).
    destruct (dr !! "gpu"); eexists; split; reflexivity.
  - eexists; split; reflexivity.
  - exfalso. destruct r as [e|resp]; [done|]. cbn in Ef.
    destruct (negb (ok resp)); [done|]. by destruct (json resp).
Qed.

(** The second block submits, and waits on the job identifier of the
    answer; it ends without an exception unless the wait runs out of
    fuel. *)
Lemma job_block_run fuel client w o w' log out :
  job_block env host fuel client w = (o, w', log, out) ->
  exists os ws ls,
    submit_job env client "inference_medium" example_config w = (os, ws, ls)
    /\ ((log = ls /\ o = Returns tt
         /\ forall d, os = Returns (PDict d) ->
              d !! "jobId" = None \/ d !! "status" = None)
        \/ (exists d jid ow lw,
              os = Returns (PDict d) /\ d !! "jobId" = Some jid
              /\ wait_for_completion env fuel client (py_str env jid)
                   None None ws = (ow, w', lw)
              /\ log = ls ++ lw
              /\ (ow = Diverges -> o = Diverges)
              /\ (ow <> Diverges -> o = Returns tt))).
Proof.
  unfold job_block, try_except, mbind, P_bind, pbind, lift, print.
  destruct (submit_job env client _ _ w) as [[os ws] ls] eqn:Es.
  intros H. exists os, ws, ls. split; [reflexivity|].
  destruct os as [job|e|].
  - unfold subscript at 1 in H. unfold ret, raise in H.
    destruct job as [| | | | |d];
      try (injection H as <- <- <- <-; left;
           rewrite ?app_nil_r; by split_and!).
    destruct (d !! "jobId") as [jid|] eqn:Ej.
    2: { injection H as <- <- <- <-. left. rewrite ?app_nil_r.
         split_and!; try done. intros d' [= <-]. by left. }
    unfold subscript in H. rewrite Ej in H. unfold ret, raise in H.
    destruct (d !! "status") as [st|] eqn:Est.
    2: { injection H as <- <- <- <-. left. rewrite ?app_nil_r.
         split_and!; try done. intros d' [= <-]. by right. }
    destruct (wait_for_completion env fuel client _ None None ws)
      as [[ow ww] lw] eqn:Ew.
    right. exists d, jid, ow, lw.
    destruct ow as [result|e|].
    + unfold dict_get, ret, raise in H.
      destruct result as [| | | | |dr]; injection H as <- <- <- <-;
        rewrite ?app_nil_r; cbn [app]; by split_and!.
    + injection H as <- <- <- <-. rewrite ?app_nil_r. cbn [app].
      by split_and!.
    + injection H as <- <- <- <-. rewrite ?app_nil_r. cbn [app].
      by split_and!.
  - injection H as <- <- <- <-. left. rewrite ?app_nil_r. by split_and!.
  - exfalso. revert Es. rewrite submit_job_calls. cbv zeta.
    destruct (requests_get env _ 10 w) as [r0 w1].
    destruct (pricing_amount r0) as [e|amt]; [done|].
    destruct (time_time env w1) as [t w2].
    destruct (datetime_utcnow env w2) as [dt w3].
    destruct (signing_key_sign env _ w3) as [[e|sig] w4]; [done|].
    destruct (base64_b58encode env sig) as [e|sig58]; [done|].
    destruct (base64_b58encode env (take 16 _)) as [e|id58]; [done|].
    destruct (requests_post env _ _ _ 30 w4) as [r w5].
    intros [= Hd _ _]. revert Hd. unfold post_outcome.
    destruct r as [e|resp]; [done|].
    destruct (negb (ok resp)); destruct (json resp) as [[| | | | |dd]|]; done.
Qed.

(** The requests of a run of [submit_job]: the pricing request comes
    first, whatever happens next, and no other request asks with [GET]. *)
Lemma submit_job_gets self job_type config w o w' log :
  submit_job env self job_type config w = (o, w', log) ->
  (exists r rest, log = EvGet (pricing_url self (Some job_type)) 10 r :: rest)
  /\ (forall u timeout r, EvGet u timeout r ∈ log ->
        u = pricing_url self (Some job_type))
  /\ (forall v, o = Returns v ->
        exists url body headers timeout resp,
          EvPost url body headers timeout (inr resp) ∈ log
          /\ ok resp = true /\ json resp = Some v).
Proof.
  rewrite submit_job_calls. cbv zeta.
  destruct (requests_get env _ 10 w) as [r0 w1].
  destruct (pricing_amount r0) as [e|amt].
  { intros [= <- <- <-]. split_and!; [by eexists _, _| |done].
    intros u timeout r H. get_member H. }
  destruct (time_time env w1) as [t w2].
  destruct (datetime_utcnow env w2) as [dt w3].
  destruct (signing_key_sign env _ w3) as [[e|sig] w4].
  { intros [= <- <- <-]. split_and!; [by eexists _, _| |done].
    intros u timeout r H. get_member H. }
  destruct (base64_b58encode env sig) as [e|sig58].
  { intros [= <- <- <-]. split_and!; [by eexists _, _| |done].
    intros u timeout r H. get_member H. }
  destruct (base64_b58encode env (take 16 _)) as [e|id58].
  { intros [= <- <- <-]. split_and!; [by eexists _, _| |done].
    intros u timeout r H. get_member H. }
  destruct (requests_post env _ _ _ 30 w4) as [r w5].
  intros [= <- <- <-]. split_and!; [by eexists _, _| |].
  - intros u timeout r' H. get_member H.
  - intros v Hv. unfold post_outcome in Hv.
    destruct r as [e|resp]; [done|].
    destruct (ok resp) eqn:Hok; cbn [negb] in Hv.
    + destruct (json resp) as [v'|] eqn:Hj; [|done]. injection Hv as ->.
      eexists _, _, _, _, resp. split; [|done].
      do 7 apply list_elem_of_further. apply list_elem_of_here.
    + by destruct (json resp) as [[| | | | |dd]|].
Qed.


(** [main], block by block, once the key is read. *)
Lemma main_run fuel w pk o w' log out :
  host_public_key_of host
    (default "DEMO_KEY_BASE58_ENCODED" (os_getenv host "SOLANA_SECRET_KEY"))
  = inr pk ->
  main env host fuel w = (o, w', log, out) ->
  let client := {| api_url := "http://localhost:3000/api";
                   public_key := pk |} in
  exists r1 w1 ob lb outb,
    requests_get env (pricing_url client (Some "inference_medium")) 10 w
      = (r1, w1)
    /\ job_block env host fuel client w1 = (ob, w', lb, outb)
    /\ log = EvGet (pricing_url client (Some "inference_medium")) 10 r1 :: lb
    /\ head out = Some ("üöÄ x402 Payment Protocol - Python Example" +:+ newline)
    /\ (ob = Returns tt ->
        o = Returns tt /\ last out = Some (newline +:+ "‚ú® Example completed!"))
    /\ (ob = Diverges -> o = Diverges)
    /\ (forall e, ob <> Raises e).
Proof.
  intros Hkey Hrun client.
  unfold main, mbind, P_bind, pbind, print, X402Client_init in Hrun.
  rewrite Hkey in Hrun. cbn [of_result] in Hrun.
  change {| api_url := rstrip_slash "http://localhost:3000/api";
            public_key := pk |} with client in Hrun.
  destruct (pricing_block_run client w) as (r1 & w1 & out1 & Hget & Hpb).
  rewrite Hpb in Hrun.
  destruct (job_block env host fuel client w1) as [[[ob wb] lb] outb] eqn:Ejb.
  exists r1, w1, ob, lb, outb.
  destruct (job_block_run _ _ _ _ _ _ _ Ejb) as (os & ws & ls & _ & Hcases).
  destruct ob as [[]|e|].
  - injection Hrun as <- <- <- <-. rewrite ?app_nil_r.
    split_and!; try done.
    intros _. split; [done|].
    rewrite !app_comm_cons, !app_assoc. apply last_snoc.
  - exfalso. destruct Hcases as [(_ & ? & _) | (d & jid & ow & lw & _ & _ & _ & _ & H1 & H2)];
      [done|].
    destruct ow as [v|e'|];
      [by specialize (H2 ltac:(done))..|by specialize (H1 eq_refl)].
  - injection Hrun as <- <- <- <-. rewrite ?app_nil_r. by split_and!.
Qed.

End Program.



(** X24. When the key library refuses the secret, [main] stops at the
    constructor: the exception leaves [main], only the banner has been
    printed, and no request has been made. *)
Theorem main_invalid_key :
  forall {W} (env : Env W) host fuel w e,
    host_public_key_of host
      (default "DEMO_KEY_BASE58_ENCODED" (os_getenv host "SOLANA_SECRET_KEY"))
    = inl e ->
    main env host fuel w
    = (Raises e, w, [], ["üöÄ x402 Payment Protocol - Python Example" +:+ newline]).
Proof.
  intros W env host fuel w e Hkey.
  unfold main, mbind, P_bind, pbind, print, X402Client_init.
  by rewrite Hkey.
Qed.

Lemma main_invalid_key_witness :
  main full_env keyless_host 5 0%Q
  = (Raises (LibraryError "invalid key"), 0%Q, [],
     ["üöÄ x402 Payment Protocol - Python Example" +:+ newline]).
Proof.
  apply (main_invalid_key full_env keyless_host 5 0%Q
           (LibraryError "invalid key")).
  reflexivity.
Defined.

(** X25. [main] waits for the job the server named: every request with
    [GET] of a run is the pricing request, or a status request for the
    [jobId] of the answer that accepted the submission, not for the
    identifier the client had made up.  No status is asked unless the
    submission was accepted with a [jobId]. *)
Theorem main_waits_on_server_job_id :
  forall {W} (env : Env W) host fuel w pk o w' log out u timeout r,
    host_public_key_of host
      (default "DEMO_KEY_BASE58_ENCODED" (os_getenv host "SOLANA_SECRET_KEY"))
    = inr pk ->
    main env host fuel w = (o, w', log, out) ->
    EvGet u timeout r ∈ log ->
    u = "http://localhost:3000/api/x402/pricing?jobType=inference_medium"
    \/ exists url body headers t resp d jid,
        EvPost url body headers t (inr resp) ∈ log
        /\ ok resp = true /\ json resp = Some (PDict d)
        /\ d !! "jobId" = Some jid
        /\ u = "http://localhost:3000/api/x402/jobs/" +:+ py_str env jid.
Proof.
  intros W env host fuel w pk o w' log out u timeout r Hkey Hrun Hin.
  destruct (main_run env host _ _ _ _ _ _ _ Hkey Hrun)
    as (r1 & w1 & ob & lb & outb & _ & Hjb & -> & _).
  apply elem_of_cons in Hin as [Hin | Hin]; [left; by injection Hin as -> ? ?|].
  destruct (job_block_run env host _ _ _ _ _ _ _ Hjb)
    as (os & ws & ls & Hs & [(-> & _) | (d & jid & ow & lw & -> & Hj & Hw & -> & _)]).
  - left. destruct (submit_job_gets env _ _ _ _ _ _ _ Hs) as (_ & Hg & _).
    by apply (Hg u timeout r).
  - destruct (submit_job_gets env _ _ _ _ _ _ _ Hs) as (_ & Hg & Hp).
    apply elem_of_app in Hin as [Hin | Hin]; [left; by apply (Hg u timeout r)|].
    right.
    destruct (Hp _ eq_refl) as (url & body & headers & t & resp & Hpost & Hok & Hjs).
    exists url, body, headers, t, resp, d, jid.
    split; [apply list_elem_of_further, elem_of_app; by left|].
    split_and!; try done.
    apply wait_for_completion_trace in Hw as (t0 & l & -> & Htr).
    apply loop_trace_calls in Htr.
    apply elem_of_cons in Hin as [Hin | Hin]; [done|].
    rewrite Forall_forall in Htr. by destruct (Htr _ Hin).
Qed.

Lemma main_waits_on_server_job_id_witness :
  "http://localhost:3000/api/x402/jobs/srv-7"
  = "http://localhost:3000/api/x402/pricing?jobType=inference_medium"
  \/ exists url body headers t resp d jid,
      EvPost url body headers t (inr resp) ∈ example_log
      /\ ok resp = true /\ json resp = Some (PDict d)
      /\ d !! "jobId" = Some jid
      /\ "http://localhost:3000/api/x402/jobs/srv-7"
         = "http://localhost:3000/api/x402/jobs/" +:+ py_str full_env jid.
Proof.
  apply (main_waits_on_server_job_id full_env demo_host 61 0%Q "PAYER"
           example_run.1.1.1 example_run.1.1.2 example_log example_output
           "http://localhost:3000/api/x402/jobs/srv-7" 10
           (inr (json_response (PDict completed_status)))).
  - reflexivity.
  - vm_compute. reflexivity.
  - vm_compute. do 11 apply list_elem_of_further. apply list_elem_of_here.
Defined.

(** X26. [main] asks for the pricing twice, whatever the first answer:
    once to show it and once more inside [submit_job]; a failure to show
    the pricing does not keep it from submitting. *)
Theorem main_asks_pricing_twice :
  forall {W} (env : Env W) host fuel w pk o w' log out,
    host_public_key_of host
      (default "DEMO_KEY_BASE58_ENCODED" (os_getenv host "SOLANA_SECRET_KEY"))
    = inr pk ->
    main env host fuel w = (o, w', log, out) ->
    exists r1 r2 rest,
      log
      = EvGet "http://localhost:3000/api/x402/pricing?jobType=inference_medium"
          10 r1
        :: EvGet "http://localhost:3000/api/x402/pricing?jobType=inference_medium"
             10 r2
        :: rest.
Proof.
  intros W env host fuel w pk o w' log out Hkey Hrun.
  destruct (main_run env host _ _ _ _ _ _ _ Hkey Hrun)
    as (r1 & w1 & ob & lb & outb & _ & Hjb & -> & _).
  destruct (job_block_run env host _ _ _ _ _ _ _ Hjb)
    as (os & ws & ls & Hs & Hcases).
  destruct (submit_job_gets env _ _ _ _ _ _ _ Hs) as ((r2 & rest & ->) & _ & _).
  destruct Hcases as [(-> & _) | (d & jid & ow & lw & _ & _ & _ & -> & _)].
  - by exists r1, r2, rest.
  - by exists r1, r2, (rest ++ lw).
Qed.

Lemma main_asks_pricing_twice_witness :
  exists r1 r2 rest,
    example_log
    = EvGet "http://localhost:3000/api/x402/pricing?jobType=inference_medium"
        10 r1
      :: EvGet "http://localhost:3000/api/x402/pricing?jobType=inference_medium"
           10 r2
      :: rest.
Proof.
  apply (main_asks_pricing_twice full_env demo_host 61 0%Q "PAYER"
           example_run.1.1.1 example_run.1.1.2 example_log example_output).
  - reflexivity.
  - vm_compute. reflexivity.
Defined.
